(** * Codebase visualiser backend: a shallow embedding of [backend/codebase.py]

    The development follows the source file top to bottom: text and path
    helpers ([os.path]), the regular expressions of [re.findall], the import
    extractor, the tree walker over a file-system snapshot, the statistics
    pass, the link builder and the two request handlers with their snapshot
    store.

    Conventions.  Text is a [string] of characters and the model is exact on
    ASCII text: character classes and case mapping are those of the ASCII
    range, and a character above 127 is taken as it is, neither a word
    character nor white space, without case.  Integers are [Z].  Time stamps
    are carried around uninterpreted.  The file system is a snapshot: the
    same question asked twice has the same answer.  Exceptions are values:
    a function that can raise returns what it raised. *)

From Stdlib Require Import ZArith List Bool Ascii String Lia.
Import ListNotations.
Local Open Scope string_scope.
Local Open Scope Z_scope.

(** ** Text helpers (Python [str] methods) *)

Module Str.

Fixpoint take (n : nat) (s : string) : string :=
  match n, s with
  | S n', String c s' => String c (take n' s')
  | _, _ => EmptyString
  end.

Fixpoint drop (n : nat) (s : string) : string :=
  match n, s with
  | S n', String _ s' => drop n' s'
  | _, _ => s
  end.

(** [s.startswith(pre)] *)
Fixpoint startswith (pre s : string) : bool :=
  match pre, s with
  | EmptyString, _ => true
  | String a pre', String b s' => Ascii.eqb a b && startswith pre' s'
  | String _ _, EmptyString => false
  end.

(** [s.endswith(suf)] *)
Definition endswith (suf s : string) : bool :=
  (String.length suf <=? String.length s)%nat
  && String.eqb (drop (String.length s - String.length suf) s) suf.

(** [sub in s] *)
Fixpoint contains (sub s : string) : bool :=
  startswith sub s
  || match s with
     | EmptyString => false
     | String _ s' => contains sub s'
     end.

(** [x in xs] for a list of strings *)
Definition mem (x : string) (xs : list string) : bool :=
  existsb (String.eqb x) xs.

Fixpoint rfind_from (c : ascii) (s : string) (i last : Z) : Z :=
  match s with
  | EmptyString => last
  | String x s' => rfind_from c s' (i + 1) (if Ascii.eqb x c then i else last)
  end.

(** [s.rfind(c)]: index of the last occurrence, [-1] when there is none *)
Definition rfind (c : ascii) (s : string) : Z := rfind_from c s 0 (-1).

(** [s.lstrip(c)] *)
Fixpoint lstrip (c : ascii) (s : string) : string :=
  match s with
  | String x s' => if Ascii.eqb x c then lstrip c s' else s
  | EmptyString => EmptyString
  end.

Fixpoint rev_onto (s acc : string) : string :=
  match s with
  | EmptyString => acc
  | String c s' => rev_onto s' (String c acc)
  end.

Definition rev (s : string) : string := rev_onto s EmptyString.

(** [s.rstrip(c)] *)
Definition rstrip (c : ascii) (s : string) : string := rev (lstrip c (rev s)).

Fixpoint all_chars (c : ascii) (s : string) : bool :=
  match s with
  | EmptyString => true
  | String x s' => Ascii.eqb x c && all_chars c s'
  end.

Fixpoint split_acc (c : ascii) (s cur : string) : list string :=
  match s with
  | EmptyString => [rev cur]
  | String x s' =>
      if Ascii.eqb x c then rev cur :: split_acc c s' EmptyString
      else split_acc c s' (String x cur)
  end.

(** [s.split(c)] for a one-character separator *)
Definition split (c : ascii) (s : string) : list string :=
  split_acc c s EmptyString.

(** [sep.join(parts)] *)
Fixpoint join (sep : string) (parts : list string) : string :=
  match parts with
  | [] => EmptyString
  | [p] => p
  | p :: rest => p ++ sep ++ join sep rest
  end.

Definition is_upper (c : ascii) : bool :=
  let n := nat_of_ascii c in ((65 <=? n) && (n <=? 90))%nat.

Definition is_lower (c : ascii) : bool :=
  let n := nat_of_ascii c in ((97 <=? n) && (n <=? 122))%nat.

Definition is_digit (c : ascii) : bool :=
  let n := nat_of_ascii c in ((48 <=? n) && (n <=? 57))%nat.

Definition lower_char (c : ascii) : ascii :=
  if is_upper c then ascii_of_nat (nat_of_ascii c + 32) else c.

Definition upper_char (c : ascii) : ascii :=
  if is_lower c then ascii_of_nat (nat_of_ascii c - 32) else c.

Fixpoint map_chars (f : ascii -> ascii) (s : string) : string :=
  match s with
  | EmptyString => EmptyString
  | String c s' => String (f c) (map_chars f s')
  end.

(** [s.lower()] and [s.upper()] on ASCII text: the letters [A] to [Z] and
    [a] to [z] change case, every other character is kept *)
Definition lower : string -> string := map_chars lower_char.
Definition upper : string -> string := map_chars upper_char.

(** truth value of a string: non-empty *)
Definition nonempty (s : string) : bool :=
  match s with EmptyString => false | _ => true end.

End Str.

(** ** Path helpers ([posixpath]) *)

Module OsPath.

Definition sep : ascii := "/"%char.
Definition extsep : ascii := "."%char.

(** [os.path.join(a, b)] *)
Definition join (a b : string) : string :=
  if Str.startswith "/" b then b
  else if negb (Str.nonempty a) || Str.endswith "/" a then a ++ b
  else a ++ "/" ++ b.

(** [os.path.basename(p)] *)
Definition basename (p : string) : string :=
  Str.drop (Z.to_nat (Str.rfind sep p + 1)) p.

(** [os.path.dirname(p)] *)
Definition dirname (p : string) : string :=
  let head := Str.take (Z.to_nat (Str.rfind sep p + 1)) p in
  if Str.nonempty head && negb (Str.all_chars sep head)
  then Str.rstrip sep head
  else head.

(** [os.path.splitext(p)]: the extension starts at the last dot of the last
    component, unless only dots precede it there. *)
Definition splitext (p : string) : string * string :=
  let sepIndex := Str.rfind sep p in
  let dotIndex := Str.rfind extsep p in
  if sepIndex <? dotIndex then
    let filenameIndex := sepIndex + 1 in
    let lead :=
      Str.take (Z.to_nat (dotIndex - filenameIndex))
               (Str.drop (Z.to_nat filenameIndex) p) in
    if Str.all_chars extsep lead then (p, EmptyString)
    else (Str.take (Z.to_nat dotIndex) p, Str.drop (Z.to_nat dotIndex) p)
  else (p, EmptyString).

(** the component loop of [normpath] *)
Fixpoint norm_comps (initial_slashes : bool) (comps new_comps : list string)
  : list string :=
  match comps with
  | [] => new_comps
  | comp :: rest =>
      if String.eqb comp "" || String.eqb comp "." then
        norm_comps initial_slashes rest new_comps
      else if negb (String.eqb comp "..")
              || (negb initial_slashes
                  && match new_comps with [] => true | _ => false end)
              || match new_comps with
                 | [] => false
                 | _ => String.eqb (last new_comps "") ".."
                 end
      then norm_comps initial_slashes rest (new_comps ++ [comp])
      else match new_comps with
           | [] => norm_comps initial_slashes rest new_comps
           | _ => norm_comps initial_slashes rest (removelast new_comps)
           end
  end.

(** [os.path.normpath(path)] *)
Definition normpath (path : string) : string :=
  if negb (Str.nonempty path) then "."
  else
    let initial_slashes : nat :=
      if Str.startswith "/" path then
        if Str.startswith "//" path && negb (Str.startswith "///" path)
        then 2%nat else 1%nat
      else 0%nat in
    let comps :=
      norm_comps (negb (Nat.eqb initial_slashes 0)) (Str.split sep path) [] in
    let body := Str.join "/" comps in
    let res :=
      match initial_slashes with
      | O => body
      | S O => "/" ++ body
      | _ => "//" ++ body
      end in
    if Str.nonempty res then res else ".".

End OsPath.

(** ** Extension and language *)

Definition get_file_extension (file_path : string) : string :=
  let ext := snd (OsPath.splitext file_path) in
  if Str.nonempty ext then Str.drop 1 (Str.lower ext) else "".

Definition language_map : list (string * string) :=
  [ ("py", "Python"); ("js", "JavaScript"); ("jsx", "JavaScript (React)");
    ("ts", "TypeScript"); ("tsx", "TypeScript (React)"); ("html", "HTML");
    ("css", "CSS"); ("json", "JSON"); ("md", "Markdown"); ("yml", "YAML");
    ("yaml", "YAML"); ("txt", "Text") ].

Fixpoint assoc_get {V : Type} (k : string) (d : list (string * V)) : option V :=
  match d with
  | [] => None
  | (k', v) :: d' => if String.eqb k k' then Some v else assoc_get k d'
  end.

Definition get_language (file_path : string) : string :=
  let ext := get_file_extension file_path in
  match assoc_get ext language_map with
  | Some l => l
  | None => if Str.nonempty ext then Str.upper ext else "Unknown"
  end.

(** ** Regular expressions ([re.findall])

    A backtracking matcher for the constructs the source's patterns use:
    literals, classes, concatenation, greedy and lazy repetition, the greedy
    option and numbered groups.  Alternatives are tried in the order Python's
    engine tries them, so the first success is the match Python reports. *)

Module Re.

Inductive regex : Type :=
| Eps
| Chr (c : ascii)
| Cls (p : ascii -> bool)
| Cat (r1 r2 : regex)
| Rep (greedy : bool) (r : regex)
| Opt (r : regex)
| Grp (n : nat) (r : regex).

Definition groups := list (nat * string).

Fixpoint group (n : nat) (g : groups) : string :=
  match g with
  | [] => EmptyString
  | (m, s) :: g' => if Nat.eqb n m then s else group n g'
  end.

(** the text consumed between the position [s] and the later position [s'] *)
Definition consumed (s s' : string) : string :=
  Str.take (String.length s - String.length s') s.

Fixpoint run {A : Type} (r : regex) (s : string) (g : groups)
         (k : string -> groups -> option A) {struct r} : option A :=
  match r with
  | Eps => k s g
  | Chr c =>
      match s with
      | String x s' => if Ascii.eqb x c then k s' g else None
      | EmptyString => None
      end
  | Cls p =>
      match s with
      | String x s' => if p x then k s' g else None
      | EmptyString => None
      end
  | Cat r1 r2 => run r1 s g (fun s' g' => run r2 s' g' k)
  | Opt r1 =>
      match run r1 s g k with
      | Some a => Some a
      | None => k s g
      end
  | Grp n r1 => run r1 s g (fun s' g' => k s' ((n, consumed s s') :: g'))
  | Rep greedy r1 =>
      (fix loop (fuel : nat) (s : string) (g : groups) {struct fuel}
         : option A :=
         let again (_ : unit) :=
           match fuel with
           | O => None
           | S fuel' =>
               run r1 s g
                   (fun s' g' =>
                      if (String.length s' <? String.length s)%nat
                      then loop fuel' s' g' else None)
           end in
         if greedy then
           match again tt with
           | Some a => Some a
           | None => k s g
           end
         else
           match k s g with
           | Some a => Some a
           | None => again tt
           end) (String.length s) s g
  end.

(** one attempt at the position [s]: the rest of the text and the groups *)
Definition match_here (r : regex) (s : string) : option (string * groups) :=
  run r s [] (fun s' g => Some (s', g)).

(** [re.findall] restricted to what the callers read: group 1 of every
    non-overlapping match, left to right *)
Fixpoint findall_fuel (fuel : nat) (r : regex) (s : string) : list string :=
  match fuel with
  | O => []
  | S fuel' =>
      match match_here r s with
      | Some (s', g) =>
          group 1 g ::
          (if (String.length s' <? String.length s)%nat
           then findall_fuel fuel' r s'
           else match s with
                | EmptyString => []
                | String _ t => findall_fuel fuel' r t
                end)
      | None =>
          match s with
          | EmptyString => []
          | String _ t => findall_fuel fuel' r t
          end
      end
  end.

Definition findall (r : regex) (s : string) : list string :=
  findall_fuel (S (String.length s)) r s.

(** pattern syntax *)
Fixpoint lit (s : string) : regex :=
  match s with
  | EmptyString => Eps
  | String c s' => Cat (Chr c) (lit s')
  end.

Definition plus (r : regex) : regex := Cat r (Rep true r).
Definition star (r : regex) : regex := Rep true r.
Definition lazy_star (r : regex) : regex := Rep false r.

(** [\s] *)
Definition space (c : ascii) : bool :=
  let n := nat_of_ascii c in
  (((9 <=? n) && (n <=? 13)) || ((28 <=? n) && (n <=? 32)))%nat.

(** [\w] *)
Definition word (c : ascii) : bool :=
  Str.is_upper c || Str.is_lower c || Str.is_digit c || Ascii.eqb c "_".

(** [.] *)
Definition dot (c : ascii) : bool := negb (Ascii.eqb c "010").

(** the bracket class of the two quote characters, written [Q] below *)
Definition quote (c : ascii) : bool :=
  Ascii.eqb c "039" || Ascii.eqb c "034".

(** [[\w\.]] *)
Definition word_or_dot (c : ascii) : bool := word c || Ascii.eqb c ".".

End Re.

(** ** Data model *)

Record ImportInfo : Type := mkImportInfo {
  import_path : string;
  import_type : string
}.

(** ** Import extraction *)

Import Re.

(** [Q(.*?)Q(;)?], the tail shared by the three JS patterns *)
Definition quoted_target : regex :=
  Cat (Cls quote)
      (Cat (Grp 1 (lazy_star (Cls dot)))
           (Cat (Cls quote) (Opt (Grp 2 (Chr ";"))))).

(** [import\s+.*?\s+from\s+Q(.*?)Q(;)?] *)
Definition js_import_from : regex :=
  Cat (lit "import")
      (Cat (plus (Cls space))
           (Cat (lazy_star (Cls dot))
                (Cat (plus (Cls space))
                     (Cat (lit "from")
                          (Cat (plus (Cls space)) quoted_target))))).

(** [import\s+Q(.*?)Q(;)?] *)
Definition js_import_direct : regex :=
  Cat (lit "import") (Cat (plus (Cls space)) quoted_target).

(** [require\s*?\(\s*Q(.*?)Q(;)?\)] *)
Definition js_require : regex :=
  Cat (lit "require")
      (Cat (lazy_star (Cls space))
           (Cat (Chr "(")
                (Cat (star (Cls space)) (Cat quoted_target (Chr ")"))))).

(** [import\s+([\w\.]+)] *)
Definition py_import : regex :=
  Cat (lit "import")
      (Cat (plus (Cls space)) (Grp 1 (plus (Cls word_or_dot)))).

(** [from\s+([\w\.]+)\s+import] *)
Definition py_from_import : regex :=
  Cat (lit "from")
      (Cat (plus (Cls space))
           (Cat (Grp 1 (plus (Cls word_or_dot)))
                (Cat (plus (Cls space)) (lit "import")))).

Definition js_import_patterns : list (regex * string) :=
  [ (js_import_from, "module"); (js_import_direct, "direct");
    (js_require, "require") ].

Definition py_import_patterns : list (regex * string) :=
  [ (py_import, "module"); (py_from_import, "from") ].

(** The body of the JS/TS match loop for one non-empty captured path. *)
Definition js_import_entry (root_path file_path import_path import_type : string)
  : ImportInfo :=
  if Str.startswith "components/" import_path then
    mkImportInfo ("/ui/src/" ++ import_path) import_type
  else if Str.startswith "utils/" import_path then
    mkImportInfo ("/ui/src/" ++ import_path) import_type
  else if Str.startswith "@/" import_path then
    mkImportInfo ("/ui/src/" ++ Str.drop 2 import_path) import_type
  else if negb (Str.startswith "." import_path
                || Str.startswith "/" import_path) then
    if Str.mem import_path
               ["react"; "react-dom"; "react-router-dom"; "app"; "brain"]
    then mkImportInfo import_path "external"
    else mkImportInfo import_path import_type
  else
    let dirname := OsPath.dirname file_path in
    if Str.startswith "." import_path then
      let source_dir :=
        OsPath.dirname (OsPath.join root_path (Str.lstrip "/" file_path)) in
      let full_path :=
        if Str.startswith "./" import_path then
          OsPath.normpath (OsPath.join source_dir (Str.drop 2 import_path))
        else if Str.startswith "../" import_path then
          OsPath.normpath (OsPath.join source_dir import_path)
        else
          OsPath.normpath (OsPath.join dirname import_path) in
      if Str.startswith root_path full_path then
        mkImportInfo (Str.drop (String.length root_path) full_path) import_type
      else mkImportInfo import_path import_type
    else mkImportInfo import_path import_type.

(** The body of the Python match loop for one non-empty captured module. *)
Definition py_import_entry (m import_type : string) : ImportInfo :=
  if String.eqb m "app" || Str.startswith "app." m then
    let module_path := if Str.startswith "app." m then Str.drop 4 m else "" in
    if Str.startswith "apis." module_path then
      let api_name := Str.drop 5 module_path in
      mkImportInfo ("/src/app/apis/" ++ api_name) import_type
    else mkImportInfo m "internal"
  else if Str.mem m ["databutton"; "fastapi"; "pydantic"] then
    mkImportInfo m "external"
  else mkImportInfo m import_type.

(** the two nested loops: patterns in order, then matches in order *)
Definition collect_imports (patterns : list (regex * string))
           (entry : string -> string -> ImportInfo) (content : string)
  : list ImportInfo :=
  flat_map
    (fun '(pattern, import_type) =>
       map (fun m => entry m import_type)
           (filter Str.nonempty (findall pattern content)))
    patterns.

Definition extract_imports (file_path content root_path : string)
  : list ImportInfo :=
  let ext := get_file_extension file_path in
  if Str.mem ext ["js"; "jsx"; "ts"; "tsx"] then
    collect_imports js_import_patterns (js_import_entry root_path file_path)
                    content
  else if String.eqb ext "py" then
    collect_imports py_import_patterns py_import_entry content
  else [].

(** ** The node tree, links, statistics *)

(** seconds since the epoch as [os.stat] reports them; never computed with *)
Definition timestamp : Type := Z.

#[warnings="-register-all"]
Inductive FileNode : Type := mkFileNode {
  name : string;
  path : string;
  type : string;
  size : Z;
  last_modified : option timestamp;
  children : option (list FileNode);
  imports : option (list ImportInfo);
  language : option string
}.

Record CodebaseLink : Type := mkCodebaseLink {
  source : string;
  target : string;
  link_type : string
}.

Record CodebaseStats : Type := mkCodebaseStats {
  total_files : Z;
  total_directories : Z;
  total_size_bytes : Z;
  file_types : list (string * Z)
}.

Record CodebaseResponse : Type := mkCodebaseResponse {
  structure : FileNode;
  stats : CodebaseStats;
  links : list CodebaseLink
}.

(** the children of a node as a list: none for [None] *)
Definition child_nodes (n : FileNode) : list FileNode :=
  match children n with Some l => l | None => [] end.

(** ** Python dictionaries: insertion-ordered, one entry per key *)

Fixpoint dict_set {V : Type} (d : list (string * V)) (k : string) (v : V)
  : list (string * V) :=
  match d with
  | [] => [(k, v)]
  | (k', v') :: d' =>
      if String.eqb k k' then (k, v) :: d' else (k', v') :: dict_set d' k v
  end.

(** ** The file system seen through [os] *)

Inductive exn : Type :=
| PermissionError
| FileNotFoundError
| OtherError (what : string).

Inductive result (A : Type) : Type :=
| Ok (a : A)
| Err (e : exn).
Arguments Ok {A} a.
Arguments Err {A} e.

Record Stat : Type := mkStat {
  st_isdir : bool;
  st_size : Z;
  st_mtime : timestamp
}.

Record FileSystem : Type := mkFileSystem {
  stat : string -> result Stat;               (* os.stat *)
  listdir : string -> result (list string);   (* os.listdir *)
  read_text : string -> result string         (* open(p, 'r', 'utf-8').read() *)
}.

(** [os.path.exists], [isdir], [getsize], [getmtime] are all [os.stat] *)
Definition path_exists (fs : FileSystem) (p : string) : bool :=
  match stat fs p with Ok _ => true | Err _ => false end.

Definition path_isdir (fs : FileSystem) (p : string) : bool :=
  match stat fs p with Ok st => st_isdir st | Err _ => false end.

Definition getsize (fs : FileSystem) (p : string) : result Z :=
  match stat fs p with Ok st => Ok (st_size st) | Err e => Err e end.

Definition getmtime (fs : FileSystem) (p : string) : result timestamp :=
  match stat fs p with Ok st => Ok (st_mtime st) | Err e => Err e end.

(** ** The tree walker *)

Definition files_map : Type := list (string * FileNode).

Inductive outcome (A : Type) : Type :=
| Ret (a : A)
| Raise (e : exn)
| OutOfFuel.
Arguments Ret {A} a.
Arguments Raise {A} e.
Arguments OutOfFuel {A}.

(** how the [for item in items] loop of a directory ended *)
Inductive loop_end : Type :=
| Completed
| Raised (e : exn)
| NoFuel.

Definition excluded_dirs : list string :=
  [".git"; "node_modules"; "__pycache__"; "venv"; ".venv"; "dist"; "build";
   ".next"; ".idea"].

Definition max_items : nat := 100.

(** the display name of the entry at [current_path] *)
Definition node_name (base_path current_path : string) : string :=
  let name :=
    if Str.nonempty (OsPath.basename current_path)
    then OsPath.basename current_path
    else OsPath.basename base_path in
  if String.eqb name "__init__.py" && Str.contains "/apis/" current_path
  then OsPath.basename (OsPath.dirname current_path) ++ ".py"
  else name.

(** [current_path or "/"] *)
Definition node_path (current_path : string) : string :=
  if Str.nonempty current_path then current_path else "/".

(** [os.path.getmtime(p) if os.path.exists(p) else None] *)
Definition mtime_if_exists (fs : FileSystem) (p : string)
  : result (option timestamp) :=
  if path_exists fs p then
    match getmtime fs p with Ok t => Ok (Some t) | Err e => Err e end
  else Ok None.

(** the file branch, inside its [try] *)
Definition scan_file (fs : FileSystem) (base_path current_path name : string)
           (all_files_map : files_map)
  : files_map * outcome (option FileNode) :=
  let full_path := OsPath.join base_path current_path in
  match getsize fs full_path with
  | Err PermissionError | Err FileNotFoundError => (all_files_map, Ret None)
  | Err e => (all_files_map, Raise e)
  | Ok sz =>
      match getmtime fs full_path with
      | Err PermissionError | Err FileNotFoundError => (all_files_map, Ret None)
      | Err e => (all_files_map, Raise e)
      | Ok mtime =>
          let file_language := get_language full_path in
          let imps :=
            if Str.mem (get_file_extension full_path)
                       ["js"; "jsx"; "ts"; "tsx"; "py"]
            then match read_text fs full_path with
                 | Ok content => extract_imports current_path content base_path
                 | Err _ => []
                 end
            else [] in
          let file_node :=
            mkFileNode name current_path "file" sz (Some mtime) None
                       (Some imps) (Some file_language) in
          (dict_set all_files_map current_path file_node, Ret (Some file_node))
      end
  end.

(** the [for item in items] loop of the directory branch; [rec] is the
    recursive call [scan_directory(base_path, ., max_depth - 1, .)] *)
Fixpoint scan_items
         (rec : string -> files_map -> files_map * outcome (option FileNode))
         (current_path : string) (items : list string) (m : files_map)
         (children : list FileNode) (total_size : Z)
  : files_map * (list FileNode * Z) * loop_end :=
  match items with
  | [] => (m, (children, total_size), Completed)
  | item :: rest =>
      let item_path := OsPath.join current_path item in
      match rec item_path m with
      | (m1, Ret None) => scan_items rec current_path rest m1 children total_size
      | (m1, Ret (Some child_node)) =>
          let children' := (children ++ [child_node])%list in
          let total_size' :=
            if size child_node =? 0 then total_size
            else total_size + size child_node in
          let m2 :=
            if String.eqb (type child_node) "file"
            then dict_set m1 (path child_node) child_node
            else m1 in
          scan_items rec current_path rest m2 children' total_size'
      | (m1, Raise e) => (m1, (children, total_size), Raised e)
      | (m1, OutOfFuel) => (m1, (children, total_size), NoFuel)
      end
  end.

(** the directory branch: its [try] and the node it returns *)
Definition scan_listing
           (rec : string -> files_map -> files_map * outcome (option FileNode))
           (fs : FileSystem) (base_path current_path name : string)
           (all_files_map : files_map)
  : files_map * outcome (option FileNode) :=
  let full_path := OsPath.join base_path current_path in
  let '(m, (children, total_size), ended) :=
    match listdir fs full_path with
    | Err e => (all_files_map, ([], 0), Raised e)
    | Ok items =>
        scan_items rec current_path (firstn max_items items) all_files_map [] 0
    end in
  match ended with
  | NoFuel => (m, OutOfFuel)
  | Raised (OtherError w) => (m, Raise (OtherError w))
  | Raised FileNotFoundError => (m, Raise FileNotFoundError)
  | Raised PermissionError | Completed =>
      match mtime_if_exists fs full_path with
      | Ok t =>
          (m, Ret (Some (mkFileNode name (node_path current_path) "directory"
                                    total_size t (Some children) None None)))
      | Err e => (m, Raise e)
      end
  end.

(** the node returned for an excluded name *)
Definition excluded_node (name current_path : string) (t : option timestamp)
  : FileNode :=
  mkFileNode name (node_path current_path) "directory" 0 t (Some []) None None.

(** [scan_directory(base_path, current_path, max_depth, all_files_map)].
    [fuel] bounds the nesting of calls; the dictionary is threaded through,
    and what was written to it before an exception stays written. *)
Fixpoint scan_directory (fuel : nat) (fs : FileSystem)
         (base_path current_path : string) (max_depth : Z)
         (all_files_map : files_map) {struct fuel}
  : files_map * outcome (option FileNode) :=
  match fuel with
  | O => (all_files_map, OutOfFuel)
  | S fuel' =>
      if max_depth <=? 0 then (all_files_map, Ret None)
      else
        let full_path := OsPath.join base_path current_path in
        if negb (path_exists fs full_path) then (all_files_map, Ret None)
        else
          let name := node_name base_path current_path in
          if Str.mem name excluded_dirs then
            match mtime_if_exists fs full_path with
            | Ok t => (all_files_map, Ret (Some (excluded_node name current_path t)))
            | Err e => (all_files_map, Raise e)
            end
          else if path_isdir fs full_path then
            scan_listing
              (fun item_path m =>
                 scan_directory fuel' fs base_path item_path (max_depth - 1) m)
              fs base_path current_path name all_files_map
          else scan_file fs base_path current_path name all_files_map
  end.

(** the fuel that a call with [max_depth] needs: one frame per level and the
    frame that returns at depth zero *)
Definition depth_fuel (max_depth : Z) : nat := S (Z.to_nat max_depth).

(** ** Statistics *)

(** truth value of an optional list: present and non-empty *)
Definition truthy_list {A : Type} (l : option (list A)) : bool :=
  match l with Some (_ :: _) => true | _ => false end.

Definition count_extension (file_types : list (string * Z)) (key : string)
  : list (string * Z) :=
  dict_set file_types key
           (match assoc_get key file_types with Some n => n | None => 0 end + 1).

(** the inner [traverse(node)], with the [stats] dictionary it updates *)
Fixpoint traverse (node : FileNode) (st : CodebaseStats) {struct node}
  : CodebaseStats :=
  match node with
  | mkFileNode _ p ty sz _ ch _ _ =>
      if String.eqb ty "directory" then
        let st1 :=
          mkCodebaseStats (total_files st) (total_directories st + 1)
                          (total_size_bytes st) (file_types st) in
        if truthy_list ch then
          match ch with
          | Some l =>
              (fix each (l : list FileNode) (st : CodebaseStats)
                 : CodebaseStats :=
                 match l with
                 | [] => st
                 | child :: l' => each l' (traverse child st)
                 end) l st1
          | None => st1
          end
        else st1
      else
        let ext := get_file_extension p in
        mkCodebaseStats (total_files st + 1) (total_directories st)
                        (total_size_bytes st + sz)
                        (count_extension (file_types st)
                           (if Str.nonempty ext then ext else "no_extension"))
  end.

Definition calculate_stats (structure : FileNode) : CodebaseStats :=
  traverse structure (mkCodebaseStats 0 0 0 []).

(** ** Links *)

Definition api_usage_link (file_path : string) : CodebaseLink :=
  mkCodebaseLink file_path "src/app/apis/codebase" "api-usage".

(** first loop over the file map: one edge per import that is not external *)
Definition import_links_of (file_path : string) (file_node : FileNode)
  : list CodebaseLink :=
  if truthy_list (imports file_node) then
    flat_map
      (fun import_info =>
         if String.eqb (import_type import_info) "external" then []
         else [mkCodebaseLink file_path (import_path import_info)
                              (import_type import_info)])
      (match imports file_node with Some l => l | None => [] end)
  else [].

Definition is_frontend_path (file_path : string) : bool :=
  Str.endswith ".tsx" file_path || Str.endswith ".ts" file_path
  || Str.endswith ".jsx" file_path || Str.endswith ".js" file_path.

Definition brain_import (file_node : FileNode) : bool :=
  existsb
    (fun imp =>
       String.eqb (import_path imp) "brain"
       && String.eqb (import_type imp) "external")
    (match imports file_node with Some l => l | None => [] end).

(** second loop over the file map: the [brain.] call sites *)
Definition brain_links_of (fs : FileSystem) (base_path file_path : string)
           (file_node : FileNode) : list CodebaseLink :=
  if is_frontend_path file_path && truthy_list (imports file_node) then
    if brain_import file_node then
      match read_text fs (OsPath.join base_path file_path) with
      | Ok content =>
          ((if Str.contains "brain.scan_codebase" content
            then [api_usage_link file_path] else [])
           ++ (if Str.contains "brain.get_codebase_history" content
               then [api_usage_link file_path] else []))%list
      | Err _ => []
      end
    else []
  else [].

Definition build_links (fs : FileSystem) (base_path : string)
           (all_files_map : files_map) : list CodebaseLink :=
  (flat_map (fun '(file_path, file_node) => import_links_of file_path file_node)
            all_files_map
   ++ flat_map (fun '(file_path, file_node) =>
                  brain_links_of fs base_path file_path file_node)
               all_files_map)%list.

(** ** JSON documents and the snapshot store *)

#[warnings="-register-all"]
Inductive json : Type :=
| JNull
| JBool (b : bool)
| JInt (z : Z)
| JFloat (t : timestamp)
| JStr (s : string)
| JList (l : list json)
| JDict (d : list (string * json)).

(** Python truth value of a document *)
Definition json_truthy (j : json) : bool :=
  match j with
  | JNull => false
  | JBool b => b
  | JInt z => negb (z =? 0)
  | JFloat t => negb (t =? 0)
  | JStr s => Str.nonempty s
  | JList l => match l with [] => false | _ => true end
  | JDict d => match d with [] => false | _ => true end
  end.

Definition json_opt {A : Type} (f : A -> json) (o : option A) : json :=
  match o with Some a => f a | None => JNull end.

Definition import_dict (i : ImportInfo) : json :=
  JDict [("path", JStr (import_path i)); ("type", JStr (import_type i))].

(** [FileNode.dict()] *)
Fixpoint node_dict (n : FileNode) : json :=
  match n with
  | mkFileNode nm p ty sz lm ch im lang =>
      JDict
        [ ("name", JStr nm); ("path", JStr p); ("type", JStr ty);
          ("size", JInt sz); ("last_modified", json_opt JFloat lm);
          ("children",
           match ch with
           | Some l => JList (map node_dict l)
           | None => JNull
           end);
          ("imports", json_opt (fun l => JList (map import_dict l)) im);
          ("language", json_opt JStr lang) ]
  end.

Definition stats_dict (s : CodebaseStats) : json :=
  JDict
    [ ("total_files", JInt (total_files s));
      ("total_directories", JInt (total_directories s));
      ("total_size_bytes", JInt (total_size_bytes s));
      ("file_types", JDict (map (fun '(k, n) => (k, JInt n)) (file_types s))) ].

Definition link_dict (l : CodebaseLink) : json :=
  JDict [ ("source", JStr (source l)); ("target", JStr (target l));
          ("type", JStr (link_type l)) ].

(** [response.dict()] *)
Definition response_dict (r : CodebaseResponse) : json :=
  JDict [ ("structure", node_dict (structure r)); ("stats", stats_dict (stats r));
          ("links", JList (map link_dict (links r))) ].

(** Modelled from the spec: [db.storage.json], the documents by key.  The
    store is a library outside the repository; section 4.6 gives it as a
    key-value document store with [put(key, document)], which overwrites
    what the key held, and [get(key, default)], which answers the default
    for a key that is absent. *)
Definition storage : Type := list (string * json).

(** Modelled from the spec: the effect of a [put] that does not raise *)
Definition storage_put (st : storage) (key : string) (doc : json) : storage :=
  dict_set st key doc.

(** Modelled from the spec: the answer of a [get] that does not raise, with
    [None] for the default [None] *)
Definition storage_get (st : storage) (key : string) : option json :=
  assoc_get key st.

Definition snapshot_key : string := "codebase-snapshot-latest".

(** ** The request handlers *)

Inductive http_result (A : Type) : Type :=
| Response (body : A)
| HTTPException (status_code : Z) (detail_prefix : string) (cause : exn).
Arguments Response {A} body.
Arguments HTTPException {A} status_code detail_prefix cause.

Definition empty_directory (nm p : string) : FileNode :=
  mkFileNode nm p "directory" 0 None (Some []) None None.

Definition initial_categories : list (string * FileNode) :=
  [ ("Pages", empty_directory "Pages" "/ui/src/pages");
    ("UI Components", empty_directory "UI Components" "/ui/src/components");
    ("UI Files", empty_directory "UI Files" "/ui/src/utils");
    ("APIs", empty_directory "APIs" "/src/app/apis");
    ("Media", empty_directory "Media (Public)" "/static-assets");
    ("Storage", empty_directory "Internal Storage" "/storage") ].

Definition category_paths : list (string * string) :=
  [ ("Pages", "ui/src/pages"); ("UI Components", "ui/src/components");
    ("UI Files", "ui/src/utils"); ("APIs", "src/app/apis") ].

Definition default_max_depth : Z := 5.

Definition set_children (n : FileNode) (ch : option (list FileNode))
  : FileNode :=
  mkFileNode (name n) (path n) (type n) (size n) (last_modified n) ch
             (imports n) (language n).

Definition set_size (n : FileNode) (sz : Z) : FileNode :=
  mkFileNode (name n) (path n) (type n) sz (last_modified n) (children n)
             (imports n) (language n).

(** a category node after it took the children and the size of [node] *)
Definition adopt (c node : FileNode) : FileNode :=
  set_size (set_children c (children node)) (size node).

(** [categories[category].children = node.children] and the same for [size] *)
Fixpoint adopt_scan (categories : list (string * FileNode)) (category : string)
         (node : FileNode) : list (string * FileNode) :=
  match categories with
  | [] => []
  | (k, c) :: rest =>
      if String.eqb k category then (k, adopt c node) :: rest
      else (k, c) :: adopt_scan rest category node
  end.

(** the loop over [category_paths]: the categories, the root's size and the
    file map after it *)
Fixpoint scan_categories (fs : FileSystem) (base_path : string)
         (todo : list (string * string))
         (categories : list (string * FileNode)) (root_size : Z)
         (all_files_map : files_map)
  : files_map * outcome (list (string * FileNode) * Z) :=
  match todo with
  | [] => (all_files_map, Ret (categories, root_size))
  | (category, p) :: rest =>
      let dir_path := OsPath.join base_path p in
      if path_exists fs dir_path && path_isdir fs dir_path then
        match scan_directory (depth_fuel default_max_depth) fs base_path p
                             default_max_depth all_files_map with
        | (m, Ret (Some node)) =>
            scan_categories fs base_path rest
                            (adopt_scan categories category node)
                            (root_size + size node) m
        | (m, Ret None) =>
            scan_categories fs base_path rest categories root_size m
        | (m, Raise e) => (m, Raise e)
        | (m, OutOfFuel) => (m, OutOfFuel)
        end
      else scan_categories fs base_path rest categories root_size all_files_map
  end.

Definition placeholder_file (category_node : FileNode) : FileNode :=
  mkFileNode ("(No " ++ name category_node ++ ")") (path category_node)
             "file" 100 None None None (Some "Text").

(** one round of the loop that fills [structure.children] *)
Definition attach_category (structure_children : list FileNode)
           (category_node : FileNode) : list FileNode :=
  if truthy_list (children category_node) then
    (structure_children ++ [category_node])%list
  else if Str.mem (name category_node) ["Media (Public)"; "Internal Storage"]
  then
    (structure_children
       ++ [set_children category_node
                        (Some [placeholder_file category_node])])%list
  else structure_children.

(** the body of the [try] of [scan_codebase], up to the response *)
Definition scan_steps (fs : FileSystem) : outcome CodebaseResponse :=
  let base_path := "/app" in
  match scan_categories fs base_path category_paths initial_categories 0 []
  with
  | (all_files_map, Ret (categories, root_size)) =>
      let structure :=
        mkFileNode "Taskflow App" "/" "directory" root_size None
                   (Some (fold_left attach_category (map snd categories) []))
                   None None in
      if negb (truthy_list (children structure)) then
        Raise (OtherError "Failed to scan codebase structure")
      else
        Ret (mkCodebaseResponse structure (calculate_stats structure)
                                (build_links fs base_path all_files_map))
  | (_, Raise e) => Raise e
  | (_, OutOfFuel) => OutOfFuel
  end.

(** [GET /scan]: the store after the request and the answer.  Running out of
    fuel stands for Python's recursion limit, an exception like the others. *)
Definition scan_codebase (fs : FileSystem) (db : storage)
  : storage * http_result CodebaseResponse :=
  match scan_steps fs with
  | Ret response =>
      (storage_put db snapshot_key (response_dict response), Response response)
  | Raise e => (db, HTTPException 500 "Error scanning codebase: " e)
  | OutOfFuel =>
      (db, HTTPException 500 "Error scanning codebase: "
                         (OtherError "RecursionError"))
  end.

Definition no_snapshot_message : json :=
  JDict [("message", JStr "No codebase snapshot available. Please scan first.")].

(** [GET /history], the body of the [try] when the read of the store does
    not raise; the [except] is in [get_codebase_history_request] below *)
Definition get_codebase_history (db : storage) : http_result json :=
  match storage_get db snapshot_key with
  | None => Response no_snapshot_message
  | Some snapshot =>
      if negb (json_truthy snapshot) then Response no_snapshot_message
      else Response snapshot
  end.

(** ** The request handlers over a store whose calls can raise *)

(** Modelled from the spec: the calls [db.storage.json.put] and
    [db.storage.json.get] belong to a library outside the repository and sit
    inside the [try] of their handlers.  A service says which calls raise:
    for a [put], the exception and the store that the failed call left; for
    a [get], the exception.  A call that does not raise behaves as
    [storage_put] and [storage_get]. *)
Record StoreService : Type := mkStoreService {
  put_failure : storage -> string -> json -> option (storage * exn);
  get_failure : storage -> string -> option exn
}.

(** the store that never raises *)
Definition reliable_store : StoreService :=
  mkStoreService (fun _ _ _ => None) (fun _ _ => None).

(** [GET /scan], the whole [try]: the response, then the [put] *)
Definition scan_codebase_request (svc : StoreService) (fs : FileSystem)
           (db : storage) : storage * http_result CodebaseResponse :=
  match scan_steps fs with
  | Ret response =>
      match put_failure svc db snapshot_key (response_dict response) with
      | None =>
          (storage_put db snapshot_key (response_dict response),
           Response response)
      | Some (db', e) =>
          (db', HTTPException 500 "Error scanning codebase: " e)
      end
  | Raise e => (db, HTTPException 500 "Error scanning codebase: " e)
  | OutOfFuel =>
      (db, HTTPException 500 "Error scanning codebase: "
                         (OtherError "RecursionError"))
  end.

(** [GET /history], the whole [try] and its [except] *)
Definition get_codebase_history_request (svc : StoreService) (db : storage)
  : http_result json :=
  match get_failure svc db snapshot_key with
  | Some e => HTTPException 500 "Error retrieving codebase history: " e
  | None =>
      match storage_get db snapshot_key with
      | None =>
          Response
            (JDict [("message",
                     JStr "No codebase snapshot available. Please scan first.")])
      | Some snapshot =>
          if negb (json_truthy snapshot) then
            Response
              (JDict [("message",
                       JStr "No codebase snapshot available. Please scan first.")])
          else Response snapshot
      end
  end.

(** a store that is down: every call raises and leaves the store as it was *)
Definition failing_store : StoreService :=
  mkStoreService (fun db _ _ => Some (db, OtherError "store unavailable"))
                 (fun _ _ => Some (OtherError "store unavailable")).

(** ** A small project to run the definitions on *)

Module Demo.

Definition dir : Stat := mkStat true 4096 1700000000.
Definition file (sz : Z) : Stat := mkStat false sz 1700000001.

Definition stats : list (string * Stat) :=
  [ ("/app/ui/src/pages", dir);
    ("/app/ui/src/pages/App.tsx", file 120);
    ("/app/ui/src/pages/build", file 7);
    ("/app/ui/src/pages/node_modules", dir);
    ("/app/ui/src/pages/node_modules/x.js", file 9);
    ("/app/src/app/apis", dir);
    ("/app/src/app/apis/codebase", dir);
    ("/app/src/app/apis/codebase/__init__.py", file 300) ].

Definition listings : list (string * list string) :=
  [ ("/app/ui/src/pages", ["App.tsx"; "build"; "node_modules"]);
    ("/app/ui/src/pages/node_modules", ["x.js"]);
    ("/app/src/app/apis", ["codebase"]);
    ("/app/src/app/apis/codebase", ["__init__.py"]) ].

Definition app_text : string :=
  "import brain from 'brain'; import { B } from 'components/B'; brain.scan_codebase()".

Definition texts : list (string * string) :=
  [ ("/app/ui/src/pages/App.tsx", app_text);
    ("/app/ui/src/pages/node_modules/x.js", "require('y')");
    ("/app/src/app/apis/codebase/__init__.py", "import databutton as db") ].

Definition lookup {A : Type} (d : list (string * A)) (p : string) : result A :=
  match assoc_get p d with Some a => Ok a | None => Err FileNotFoundError end.

Definition fs : FileSystem :=
  mkFileSystem (lookup stats) (lookup listings) (lookup texts).

(** the node that the walker makes of [App.tsx] *)
Definition app_node : FileNode :=
  mkFileNode "App.tsx" "ui/src/pages/App.tsx" "file" 120 (Some 1700000001) None
             (Some [mkImportInfo "brain" "external";
                    mkImportInfo "/ui/src/components/B" "module"])
             (Some "TypeScript (React)").

(** nothing on disk *)
Definition empty_fs : FileSystem :=
  mkFileSystem (fun _ => Err FileNotFoundError)
               (fun _ => Err FileNotFoundError)
               (fun _ => Err FileNotFoundError).

(** the pages directory exists but listing it fails with an I/O error *)
Definition broken_fs : FileSystem :=
  mkFileSystem (lookup stats) (fun _ => Err (OtherError "Input/output error"))
               (lookup texts).

(** every path is a directory that lists an entry leading back to itself *)
Definition cyclic_fs : FileSystem :=
  mkFileSystem (fun _ => Ok dir) (fun _ => Ok ["loop"])
               (fun _ => Err FileNotFoundError).

End Demo.

(** ** Vocabulary of the properties *)

(** every node of a tree, the root first: what is reachable through
    [children], whatever the type of the node that carries them *)
Fixpoint nodes (n : FileNode) : list FileNode :=
  match n with
  | mkFileNode _ _ _ _ _ ch _ _ =>
      n :: match ch with
           | Some l =>
               (fix each (l : list FileNode) : list FileNode :=
                  match l with
                  | [] => []
                  | child :: l' => (nodes child ++ each l')%list
                  end) l
           | None => []
           end
  end.

Definition sum_sizes (l : list FileNode) : Z :=
  fold_right (fun child acc => size child + acc) 0 l.

Definition is_file (n : FileNode) : bool := String.eqb (type n) "file".

(** a directory whose size is the sum of the sizes of its immediate children *)
Definition directory_size_ok (n : FileNode) : Prop :=
  type n = "directory" -> size n = sum_sizes (child_nodes n).

Definition sizes_consistent (t : FileNode) : Prop :=
  Forall directory_size_ok (nodes t).

Definition well_typed (t : FileNode) : Prop :=
  Forall (fun n => type n = "file" \/ type n = "directory") (nodes t).

Definition files_are_leaves (t : FileNode) : Prop :=
  Forall (fun n => type n = "file" -> child_nodes n = []) (nodes t).

Definition node_count (t : FileNode) : Z := Z.of_nat (List.length (nodes t)).

Definition file_bytes (t : FileNode) : Z := sum_sizes (filter is_file (nodes t)).

(** a category node as the loop over the category paths can leave it: as it
    was initialised, or holding the children and the size of the consistent
    directory node that the walker returned for it *)
Inductive category_state (k : string) (c : FileNode) : Prop :=
| Untouched :
    In (k, c) initial_categories -> category_state k c
| Adopted (c0 node : FileNode) :
    In (k, c0) initial_categories ->
    sizes_consistent node -> type node = "directory" ->
    c = adopt c0 node -> category_state k c.

(** a category that was given the single placeholder entry of size 100 *)
Definition placeholder_category (nm p : string) : FileNode :=
  set_children (empty_directory nm p)
               (Some [placeholder_file (empty_directory nm p)]).

Definition is_placeholder_category (kid : FileNode) : Prop :=
  size kid = 0
  /\ child_nodes kid = [placeholder_file kid]
  /\ sum_sizes (child_nodes kid) = 100.

(** what the amended size property asks of a child of the root *)
Definition category_sizes_ok (kid : FileNode) : Prop :=
  type kid = "directory"
  /\ (sizes_consistent kid \/ is_placeholder_category kid).

(** induction over a tree with the property known of all children *)
Section FileNode_induction.

Variable P : FileNode -> Prop.
Hypothesis step : forall n, Forall P (child_nodes n) -> P n.

Fixpoint FileNode_tree_ind (n : FileNode) : P n :=
  match n with
  | mkFileNode nm p ty sz lm ch im lang =>
      step (mkFileNode nm p ty sz lm ch im lang)
           (match ch as c
                  return Forall P (match c with Some l => l | None => [] end)
            with
            | Some l =>
                (fix each (l : list FileNode) : Forall P l :=
                   match l with
                   | [] => Forall_nil P
                   | child :: l' =>
                       Forall_cons child (FileNode_tree_ind child) (each l')
                   end) l
            | None => Forall_nil P
            end)
  end.

End FileNode_induction.

(** ** Vocabulary of the further properties *)

(** the number of levels of a tree, a single node being one level *)
Fixpoint height (n : FileNode) : nat :=
  match n with
  | mkFileNode _ _ _ _ _ ch _ _ =>
      S (match ch with
         | Some l =>
             (fix each (l : list FileNode) : nat :=
                match l with
                | [] => O
                | child :: l' => Nat.max (height child) (each l')
                end) l
         | None => O
         end)
  end.

(** the two shapes of node that the walker builds *)
Definition file_shape (n : FileNode) : Prop :=
  type n = "file" /\ children n = None
  /\ (exists imps, imports n = Some imps)
  /\ (exists lang, language n = Some lang)
  /\ (exists t, last_modified n = Some t).

Definition directory_shape (n : FileNode) : Prop :=
  type n = "directory" /\ (exists kids, children n = Some kids)
  /\ imports n = None /\ language n = None.

(** the sum of the counters of a histogram *)
Definition sum_counts (d : list (string * Z)) : Z :=
  fold_right (fun kv acc => snd kv + acc) 0 d.

(** the node that the file branch of the walker builds for a path *)
Definition scanned_file (fs : FileSystem) (base_path : string) (n : FileNode)
  : Prop :=
  exists m m',
    scan_file fs base_path (path n) (node_name base_path (path n)) m
    = (m', Ret (Some n)).

(** a directory of 150 one-byte files *)
Definition wide_fs : FileSystem :=
  mkFileSystem
    (fun p => if String.eqb p "/app/wide" then Ok (mkStat true 4096 1700000000)
              else Ok (mkStat false 1 1700000001))
    (fun _ => Ok (repeat "f.txt" 150))
    (fun _ => Err FileNotFoundError).

(** a node that, if it is a file node, is in the map under its path as the
    file branch built it *)
Definition registered (fs : FileSystem) (base_path : string) (m : files_map)
           (n : FileNode) : Prop :=
  type n = "file" ->
  scanned_file fs base_path n /\ assoc_get (path n) m = Some n.

(** what the file map holds when only file nodes were registered, each under
    its own path *)
Definition files_map_ok (m : files_map) : Prop :=
  Forall (fun kn => type (snd kn) = "file" /\ path (snd kn) = fst kn) m.

(** a directory that exists and cannot be listed *)
Definition locked_fs : FileSystem :=
  mkFileSystem (fun _ => Ok (mkStat true 4096 1700000000))
               (fun _ => Err PermissionError)
               (fun _ => Err PermissionError).

(** the file node of an entry whose text gave no imports *)
Definition plain_file_node (base_path current_path : string) (st : Stat)
  : FileNode :=
  mkFileNode (node_name base_path current_path) current_path "file"
             (st_size st) (Some (st_mtime st)) None (Some [])
             (Some (get_language (OsPath.join base_path current_path))).

(** ** Sample trees *)

(** a file node that carries a child, and a directory over a file *)
Definition file_with_child : FileNode :=
  mkFileNode "a" "a" "file" 1 None
    (Some [mkFileNode "b" "a/b" "file" 2 None None None None]) None None.

Definition small_tree : FileNode :=
  mkFileNode "d" "d" "directory" 2 None
    (Some [mkFileNode "b.py" "d/b.py" "file" 2 None None None None]) None None.

(** a property of every node of a closed tree, node by node *)
Ltac each_node :=
  unfold well_typed, files_are_leaves, sizes_consistent; cbn [nodes app];
  repeat (apply Forall_cons); try apply Forall_nil.

(** * Properties *)

(** ** The helpers on sample inputs *)

Example path_checks :
  OsPath.join "/app" "ui/src/pages/a.ts" = "/app/ui/src/pages/a.ts"
  /\ OsPath.join "/app" "" = "/app/"
  /\ OsPath.join "/app/x" "/etc" = "/etc"
  /\ OsPath.dirname "/app/ui/a.ts" = "/app/ui"
  /\ OsPath.dirname "a.ts" = ""
  /\ OsPath.dirname "/a.ts" = "/"
  /\ OsPath.basename "ui/src/pages" = "pages"
  /\ OsPath.basename "ui/src/pages/" = ""
  /\ OsPath.normpath "/app/ui/src/pages/../utils/x" = "/app/ui/src/utils/x"
  /\ OsPath.normpath "/app/../../x" = "/x"
  /\ OsPath.normpath "a/../.." = ".."
  /\ OsPath.normpath "ui/src/pages/.." = "ui/src"
  /\ OsPath.normpath "//a//b/./c/" = "//a/b/c"
  /\ OsPath.normpath "" = "."
  /\ get_file_extension "a/b.c/Foo.TSX" = "tsx"
  /\ get_file_extension ".bashrc" = ""
  /\ get_file_extension "a.b/c" = ""
  /\ get_language "x.tsx" = "TypeScript (React)"
  /\ get_language "x.rs" = "RS"
  /\ get_language "Makefile" = "Unknown".
Proof. repeat split; reflexivity. Qed.

Example extract_imports_samples :
  extract_imports "a.ts" "import { X } from '@/components/Button'" "/app"
  = [mkImportInfo "/ui/src/components/Button" "module"]
  /\ extract_imports "ui/src/pages/a.tsx"
       "import React from 'react'; const y = require( '../utils/y'); import './a.css'"
       "/app"
     = [mkImportInfo "react" "external";
        mkImportInfo "/ui/src/pages/a.css" "direct";
        mkImportInfo "/ui/src/utils/y" "require"]
  /\ extract_imports "b.py" "import os.path" "/app"
     = [mkImportInfo "os.path" "module"]
  /\ extract_imports "notes.md" "import x" "/app" = [].
Proof. repeat split; reflexivity. Qed.

(** ** Unfolding equations *)

Lemma nodes_eq (n : FileNode) :
  nodes n = n :: flat_map nodes (child_nodes n).
Proof.
  destruct n as [nm p ty sz lm ch im lang]; simpl.
  f_equal. destruct ch as [l|]; [|reflexivity].
  unfold child_nodes; simpl.
  induction l as [|c l IH]; [reflexivity|].
  simpl. now rewrite IH.
Qed.

Lemma traverse_eq (n : FileNode) (st : CodebaseStats) :
  traverse n st =
  if String.eqb (type n) "directory" then
    fold_left (fun acc child => traverse child acc) (child_nodes n)
              (mkCodebaseStats (total_files st) (total_directories st + 1)
                               (total_size_bytes st) (file_types st))
  else
    mkCodebaseStats
      (total_files st + 1) (total_directories st) (total_size_bytes st + size n)
      (count_extension (file_types st)
         (if Str.nonempty (get_file_extension (path n))
          then get_file_extension (path n) else "no_extension")).
Proof.
  destruct n as [nm p ty sz lm ch im lang]; simpl.
  destruct (String.eqb ty "directory"); [|reflexivity].
  unfold child_nodes; simpl.
  destruct ch as [[|c l]|]; reflexivity.
Qed.

Lemma sum_sizes_app (l1 l2 : list FileNode) :
  sum_sizes (l1 ++ l2) = sum_sizes l1 + sum_sizes l2.
Proof.
  unfold sum_sizes. induction l1 as [|c l1 IH]; simpl; [reflexivity|].
  rewrite IH. lia.
Qed.

(** ** Statistics *)

Lemma nodes_children_forall (Q : FileNode -> Prop) (n : FileNode) :
  Forall Q (nodes n) ->
  Q n /\ Forall (fun child => Forall Q (nodes child)) (child_nodes n).
Proof.
  rewrite nodes_eq. intro H. inversion H as [|x l Hn Hrest]; subst.
  split; [assumption|]. now apply Forall_flat_map.
Qed.

(** what [traverse] adds to the counters, for the children of a directory *)
Lemma traverse_children_counts (l : list FileNode) :
  Forall (fun n => forall st, well_typed n -> files_are_leaves n ->
            total_files (traverse n st) + total_directories (traverse n st)
            = total_files st + total_directories st + node_count n
            /\ total_size_bytes (traverse n st)
               = total_size_bytes st + file_bytes n) l ->
  Forall well_typed l -> Forall files_are_leaves l ->
  forall st,
    let st' := fold_left (fun acc child => traverse child acc) l st in
    total_files st' + total_directories st'
    = total_files st + total_directories st
      + Z.of_nat (List.length (flat_map nodes l))
    /\ total_size_bytes st'
       = total_size_bytes st + sum_sizes (filter is_file (flat_map nodes l)).
Proof.
  induction l as [|c l IH]; intros HP Hty Hleaf st; simpl.
  - unfold sum_sizes; simpl. lia.
  - inversion HP as [|? ? Hc HPl]; subst.
    inversion Hty as [|? ? Htc Htl]; subst.
    inversion Hleaf as [|? ? Hlc Hll]; subst.
    destruct (Hc st Htc Hlc) as [Hcount Hbytes].
    destruct (IH HPl Htl Hll (traverse c st)) as [IHcount IHbytes].
    cbv zeta in IHcount, IHbytes.
    rewrite IHcount, IHbytes, Hcount, Hbytes.
    rewrite length_app, filter_app, sum_sizes_app, Nat2Z.inj_add.
    unfold node_count, file_bytes. lia.
Qed.

Lemma traverse_counts (n : FileNode) :
  forall st, well_typed n -> files_are_leaves n ->
    total_files (traverse n st) + total_directories (traverse n st)
    = total_files st + total_directories st + node_count n
    /\ total_size_bytes (traverse n st) = total_size_bytes st + file_bytes n.
Proof.
  induction n as [n IH] using FileNode_tree_ind.
  intros st Hty Hleaf.
  destruct (nodes_children_forall _ _ Hty) as [Htn Htc].
  destruct (nodes_children_forall _ _ Hleaf) as [Hln Hlc].
  rewrite traverse_eq.
  unfold node_count, file_bytes. rewrite nodes_eq.
  destruct (String.eqb (type n) "directory") eqn:Hdir.
  - apply String.eqb_eq in Hdir.
    destruct (traverse_children_counts _ IH Htc Hlc
                (mkCodebaseStats (total_files st) (total_directories st + 1)
                                 (total_size_bytes st) (file_types st)))
      as [Hcount Hbytes].
    cbv zeta in Hcount, Hbytes. rewrite Hcount, Hbytes.
    assert (Hf : is_file n = false)
      by (unfold is_file; rewrite Hdir; reflexivity).
    cbn [total_files total_directories total_size_bytes filter List.length].
    rewrite Hf, Nat2Z.inj_succ. lia.
  - assert (Hfile : type n = "file").
    { destruct Htn as [H|H]; [exact H|].
      rewrite H in Hdir. discriminate. }
    assert (Hf : is_file n = true)
      by (unfold is_file; rewrite Hfile; reflexivity).
    rewrite (Hln Hfile).
    cbn [flat_map filter total_files total_directories total_size_bytes
         List.length].
    rewrite Hf. unfold sum_sizes; simpl. lia.
Qed.

(** C3, amended.  For a tree in which every node has type file or directory
    and in which only directories carry children, [calculate_stats] counts
    every node reachable from the root once, the root included whatever its
    type, [total_files + total_directories] being that count, and
    [total_size_bytes] is the sum of the sizes of the reachable file nodes. *)
Theorem calculate_stats_counts_tree (t : FileNode) :
  well_typed t -> files_are_leaves t ->
  total_files (calculate_stats t) + total_directories (calculate_stats t)
  = node_count t
  /\ total_size_bytes (calculate_stats t) = file_bytes t.
Proof.
  intros Hty Hleaf. unfold calculate_stats.
  destruct (traverse_counts t (mkCodebaseStats 0 0 0 []) Hty Hleaf) as [Hc Hb].
  rewrite Hc, Hb. simpl. lia.
Qed.

Lemma calculate_stats_counts_tree_witness :
  well_typed small_tree /\ files_are_leaves small_tree
  /\ total_files (calculate_stats small_tree)
     + total_directories (calculate_stats small_tree) = 2
  /\ total_size_bytes (calculate_stats small_tree) = 2.
Proof.
  assert (Hty : well_typed small_tree).
  { each_node; cbn; auto. }
  assert (Hleaf : files_are_leaves small_tree).
  { each_node; cbn; intros; congruence. }
  split; [exact Hty|split; [exact Hleaf|]].
  exact (calculate_stats_counts_tree small_tree Hty Hleaf).
Defined.

(** C3 as stated fails on a file node that carries a child: every node has
    type file, two nodes are reachable from the root and their sizes add up to
    3, yet one node and one byte are counted. *)
Lemma calculate_stats_skips_children_of_files :
  well_typed file_with_child
  /\ node_count file_with_child = 2
  /\ file_bytes file_with_child = 3
  /\ total_files (calculate_stats file_with_child)
     + total_directories (calculate_stats file_with_child) = 1
  /\ total_size_bytes (calculate_stats file_with_child) = 1.
Proof.
  split; [each_node; cbn; auto|].
  repeat split; reflexivity.
Qed.

(** ** Import extraction on the two scenarios *)

(** C1 (the code departs from the claim).  For the path [a.py] and the one
    line [from app.apis.codebase import scan_codebase], [extract_imports]
    returns two entries, not one: the pattern for plain imports also matches
    the tail [import scan_codebase] of the statement and comes first in the
    pattern list, so a module entry for [scan_codebase] precedes the expected
    entry of kind [from] with the path [/src/app/apis/codebase]. *)
Theorem from_import_is_extracted_twice (root_path : string) :
  extract_imports "a.py" "from app.apis.codebase import scan_codebase" root_path
  = [ mkImportInfo "scan_codebase" "module";
      mkImportInfo "/src/app/apis/codebase" "from" ].
Proof. reflexivity. Qed.

(** The two sibling branches, for every path and root: an import that starts
    with [./] or [../] is resolved against the directory of the source file
    under the root, and the root-relative path is emitted when the result
    starts with the root, the raw string otherwise, with the kind kept. *)
Lemma js_import_entry_relative
      (root_path file_path import_path import_type : string) :
  Str.startswith "./" import_path = true
  \/ Str.startswith "../" import_path = true ->
  let source_dir :=
    OsPath.dirname (OsPath.join root_path (Str.lstrip "/" file_path)) in
  let full_path :=
    OsPath.normpath
      (OsPath.join source_dir
                   (if Str.startswith "./" import_path
                    then Str.drop 2 import_path else import_path)) in
  js_import_entry root_path file_path import_path import_type
  = if Str.startswith root_path full_path
    then mkImportInfo (Str.drop (String.length root_path) full_path) import_type
    else mkImportInfo import_path import_type.
Proof.
  intros H source_dir full_path. subst source_dir full_path.
  assert (Hdot : exists rest, import_path = String "." rest).
  { destruct import_path as [|c rest]; [destruct H; discriminate|].
    exists rest. f_equal.
    destruct H as [H|H]; cbn [Str.startswith] in H;
      apply andb_true_iff in H; destruct H as [H _];
      apply Ascii.eqb_eq in H; now subst c. }
  destruct Hdot as [rest ->].
  unfold js_import_entry.
  replace (Str.startswith "components/" (String "." rest)) with false
    by reflexivity.
  replace (Str.startswith "utils/" (String "." rest)) with false
    by reflexivity.
  replace (Str.startswith "@/" (String "." rest)) with false by reflexivity.
  replace (Str.startswith "." (String "." rest)) with true by reflexivity.
  cbn [orb negb].
  destruct (Str.startswith "./" (String "." rest)) eqn:Hcur; [reflexivity|].
  destruct H as [H|H]; [discriminate|]. now rewrite H.
Qed.

(** C7 (the code departs from the claim).  A relative import that starts with
    a dot but with neither [./] nor [../], here the bare [..], is joined to
    the directory of the file path without the scan root, so the test against
    the root fails and the raw string is emitted; resolved against the
    directory of the source file under the root, as the two sibling branches
    do, it is [/app/ui/src], inside the root, with root-relative path
    [/ui/src]. *)
Theorem bare_parent_import_is_not_resolved :
  extract_imports "ui/src/pages/a.ts" "import x from '..'" "/app"
  = [ mkImportInfo ".." "module" ]
  /\ (let source_dir :=
        OsPath.dirname (OsPath.join "/app" (Str.lstrip "/" "ui/src/pages/a.ts")) in
      let full_path := OsPath.normpath (OsPath.join source_dir "..") in
      full_path = "/app/ui/src"
      /\ Str.startswith "/app" full_path = true
      /\ Str.drop (String.length "/app") full_path = "/ui/src")
  /\ extract_imports "ui/src/pages/a.ts" "import x from '../'" "/app"
     = [ mkImportInfo "/ui/src" "module" ].
Proof. repeat split; reflexivity. Qed.

(** ** The snapshot store *)

Lemma assoc_get_dict_set {V : Type} (d : list (string * V)) (k : string) (v : V) :
  assoc_get k (dict_set d k v) = Some v.
Proof.
  induction d as [|[k' v'] d IH]; simpl.
  - now rewrite String.eqb_refl.
  - destruct (String.eqb k k') eqn:E; simpl; rewrite ?String.eqb_refl, ?E; auto.
Qed.

Lemma response_dict_truthy (response : CodebaseResponse) :
  json_truthy (response_dict response) = true.
Proof. reflexivity. Qed.

(** the two ways a scan request ends *)
Lemma scan_codebase_cases (fs : FileSystem) (db : storage) :
  (exists response,
      scan_steps fs = Ret response
      /\ scan_codebase fs db
         = (storage_put db snapshot_key (response_dict response),
            Response response))
  \/ (exists cause,
         scan_codebase fs db
         = (db, HTTPException 500 "Error scanning codebase: " cause)).
Proof.
  unfold scan_codebase.
  destruct (scan_steps fs) as [r|e|]; [left|right|right]; eauto.
Qed.

(** C4.  A scan that ends in an exception leaves the store as it was, in
    particular the document under [codebase-snapshot-latest]; the store is
    written only by a scan that has computed its whole response, and then
    with that response. *)
Theorem failed_scan_keeps_snapshot (fs : FileSystem) (db : storage) :
  (forall db' status_code detail_prefix cause,
      scan_codebase fs db = (db', HTTPException status_code detail_prefix cause) ->
      db' = db
      /\ storage_get db' snapshot_key = storage_get db snapshot_key)
  /\ (forall db' response,
         scan_codebase fs db = (db', Response response) ->
         scan_steps fs = Ret response
         /\ db' = storage_put db snapshot_key (response_dict response)).
Proof.
  destruct (scan_codebase_cases fs db) as [[r [Hsteps E]]|[cause E]];
    rewrite E; split; intros ? ? **;
    match goal with H : (_, _) = (_, _) |- _ => inversion H; subst end; auto.
Qed.

Lemma failed_scan_keeps_snapshot_witness :
  let db := [(snapshot_key, JStr "previous snapshot")] in
  scan_codebase Demo.broken_fs db
  = (db, HTTPException 500 "Error scanning codebase: "
                       (OtherError "Input/output error"))
  /\ db = db
  /\ storage_get db snapshot_key = storage_get db snapshot_key.
Proof.
  intro db. split; [reflexivity|].
  exact (proj1 (failed_scan_keeps_snapshot Demo.broken_fs db)
               db 500 "Error scanning codebase: "
               (OtherError "Input/output error") eq_refl).
Defined.

(** the handlers over the store that never raises are the handlers above *)
Lemma reliable_store_handlers (fs : FileSystem) (db : storage) :
  scan_codebase_request reliable_store fs db = scan_codebase fs db
  /\ get_codebase_history_request reliable_store db = get_codebase_history db.
Proof. split; reflexivity. Qed.

(** the history handler in full: the [except] when the read raises, the body
    of the [try] otherwise *)
Lemma get_codebase_history_request_cases (svc : StoreService) (db : storage) :
  get_codebase_history_request svc db
  = match get_failure svc db snapshot_key with
    | Some e => HTTPException 500 "Error retrieving codebase history: " e
    | None => get_codebase_history db
    end.
Proof. reflexivity. Qed.

(** C5.  With nothing stored under [codebase-snapshot-latest] the history
    request answers, as a normal response, the object whose only field
    [message] is [No codebase snapshot available. Please scan first.]; with
    a snapshot stored, that is the document of a response, as every
    successful scan leaves one, it answers that document unchanged.  This
    holds of the handler in full whenever the read of the store does not
    raise; when it raises, the handler answers the error 500 of its
    [except]. *)
Theorem history_returns_message_or_snapshot (db : storage) :
  (storage_get db snapshot_key = None ->
   get_codebase_history db
   = Response
       (JDict [("message",
                JStr "No codebase snapshot available. Please scan first.")]))
  /\ (forall response,
         storage_get db snapshot_key = Some (response_dict response) ->
         get_codebase_history db = Response (response_dict response))
  /\ (forall fs db0 response,
         scan_codebase fs db0 = (db, Response response) ->
         get_codebase_history db = Response (response_dict response))
  /\ (forall svc,
         get_failure svc db snapshot_key = None ->
         (storage_get db snapshot_key = None ->
          get_codebase_history_request svc db
          = Response
              (JDict [("message",
                       JStr "No codebase snapshot available. Please scan first.")]))
         /\ (forall response,
                storage_get db snapshot_key = Some (response_dict response) ->
                get_codebase_history_request svc db
                = Response (response_dict response)))
  /\ (forall svc e,
         get_failure svc db snapshot_key = Some e ->
         get_codebase_history_request svc db
         = HTTPException 500 "Error retrieving codebase history: " e).
Proof.
  assert (Hstored : forall response,
             storage_get db snapshot_key = Some (response_dict response) ->
             get_codebase_history db = Response (response_dict response)).
  { intros response H. unfold get_codebase_history. rewrite H.
    now rewrite response_dict_truthy. }
  assert (Habsent : storage_get db snapshot_key = None ->
                    get_codebase_history db
                    = Response
                        (JDict [("message",
                                 JStr "No codebase snapshot available. Please scan first.")])).
  { intro H. unfold get_codebase_history. now rewrite H. }
  split; [exact Habsent|]. split; [exact Hstored|]. split; [|split].
  - intros fs db0 response H. apply Hstored.
    destruct (scan_codebase_cases fs db0) as [[r [_ E]]|[cause E]];
      rewrite E in H; inversion H; subst.
    apply assoc_get_dict_set.
  - intros svc Hget. rewrite get_codebase_history_request_cases, Hget.
    split; assumption.
  - intros svc e Hget. now rewrite get_codebase_history_request_cases, Hget.
Qed.

Lemma history_returns_message_or_snapshot_witness :
  let response :=
    mkCodebaseResponse small_tree (calculate_stats small_tree) [] in
  let db := [(snapshot_key, response_dict response)] in
  storage_get [] snapshot_key = None
  /\ get_codebase_history []
     = Response
         (JDict [("message",
                  JStr "No codebase snapshot available. Please scan first.")])
  /\ storage_get db snapshot_key = Some (response_dict response)
  /\ get_codebase_history db = Response (response_dict response)
  /\ get_failure reliable_store db snapshot_key = None
  /\ get_codebase_history_request reliable_store db
     = Response (response_dict response)
  /\ get_failure failing_store [] snapshot_key
     = Some (OtherError "store unavailable")
  /\ get_codebase_history_request failing_store []
     = HTTPException 500 "Error retrieving codebase history: "
                     (OtherError "store unavailable").
Proof.
  intros response db.
  split; [reflexivity|].
  split; [exact (proj1 (history_returns_message_or_snapshot []) eq_refl)|].
  split; [reflexivity|].
  split;
    [exact (proj1 (proj2 (history_returns_message_or_snapshot db))
                  response eq_refl)|].
  split; [reflexivity|].
  split;
    [exact (proj2 (proj1 (proj2 (proj2 (proj2
                     (history_returns_message_or_snapshot db))))
                     reliable_store eq_refl) response eq_refl)|].
  split; [reflexivity|].
  exact (proj2 (proj2 (proj2 (proj2 (history_returns_message_or_snapshot []))))
               failing_store (OtherError "store unavailable") eq_refl).
Defined.

(** ** The tree walker: fuel and termination *)

Lemma mtime_if_exists_ok (fs : FileSystem) (p : string) :
  exists t, mtime_if_exists fs p = Ok t.
Proof.
  unfold mtime_if_exists, path_exists, getmtime.
  destruct (stat fs p); eauto.
Qed.

Lemma mtime_if_exists_stat (fs : FileSystem) (p : string) (st : Stat) :
  stat fs p = Ok st -> mtime_if_exists fs p = Ok (Some (st_mtime st)).
Proof.
  intro H. unfold mtime_if_exists, path_exists, getmtime. now rewrite H.
Qed.

Lemma scan_file_returns (fs : FileSystem) (base_path current_path nm : string)
      (m : files_map) :
  snd (scan_file fs base_path current_path nm m) <> OutOfFuel.
Proof.
  unfold scan_file, getsize, getmtime.
  destruct (stat fs (OsPath.join base_path current_path)) as [st|[| |w]];
    simpl; discriminate.
Qed.

Section Recursive_call.

Variables rec rec' : string -> files_map -> files_map * outcome (option FileNode).

Lemma scan_items_ext (current_path : string) (items : list string) :
  (forall p m, rec p m = rec' p m) ->
  forall m children total_size,
    scan_items rec current_path items m children total_size
    = scan_items rec' current_path items m children total_size.
Proof.
  intro Hext. induction items as [|item rest IH]; intros; simpl; [reflexivity|].
  rewrite <- Hext.
  destruct (rec (OsPath.join current_path item) m) as [m1 [[child|]|e|]];
    auto.
Qed.

Lemma scan_listing_ext (fs : FileSystem) (base_path current_path nm : string)
      (m : files_map) :
  (forall p m, rec p m = rec' p m) ->
  scan_listing rec fs base_path current_path nm m
  = scan_listing rec' fs base_path current_path nm m.
Proof.
  intro Hext. unfold scan_listing.
  destruct (listdir fs (OsPath.join base_path current_path)); [|reflexivity].
  now rewrite (scan_items_ext _ _ Hext).
Qed.

Lemma scan_items_has_fuel (current_path : string) (items : list string) :
  (forall p m, snd (rec p m) <> OutOfFuel) ->
  forall m children total_size,
    snd (scan_items rec current_path items m children total_size) <> NoFuel.
Proof.
  intro Hrec. induction items as [|item rest IH]; intros; simpl; [discriminate|].
  specialize (Hrec (OsPath.join current_path item) m).
  destruct (rec (OsPath.join current_path item) m) as [m1 [[child|]|e|]];
    simpl in *; auto; try discriminate; congruence.
Qed.

Lemma scan_listing_has_fuel (fs : FileSystem)
      (base_path current_path nm : string) (m : files_map) :
  (forall p m, snd (rec p m) <> OutOfFuel) ->
  snd (scan_listing rec fs base_path current_path nm m) <> OutOfFuel.
Proof.
  intro Hrec. unfold scan_listing.
  destruct (mtime_if_exists_ok fs (OsPath.join base_path current_path))
    as [t Ht]. rewrite Ht.
  destruct (listdir fs (OsPath.join base_path current_path)) as [items|e].
  - pose proof (scan_items_has_fuel current_path (firstn max_items items) Hrec
                                    m [] 0) as Hfuel.
    destruct (scan_items rec current_path (firstn max_items items) m [] 0)
      as [[m' [children total]] [|[| |w]|]]; simpl in *;
      try discriminate; congruence.
  - destruct e; simpl; discriminate.
Qed.

End Recursive_call.

(** one step of the definition, for a call with fuel left *)
Lemma scan_directory_step (fuel : nat) (fs : FileSystem)
      (base_path current_path : string) (max_depth : Z) (m : files_map) :
  scan_directory (S fuel) fs base_path current_path max_depth m =
  if max_depth <=? 0 then (m, Ret None)
  else if negb (path_exists fs (OsPath.join base_path current_path))
  then (m, Ret None)
  else if Str.mem (node_name base_path current_path) excluded_dirs then
    match mtime_if_exists fs (OsPath.join base_path current_path) with
    | Ok t =>
        (m, Ret (Some (excluded_node (node_name base_path current_path)
                                     current_path t)))
    | Err e => (m, Raise e)
    end
  else if path_isdir fs (OsPath.join base_path current_path) then
    scan_listing
      (fun item_path m' =>
         scan_directory fuel fs base_path item_path (max_depth - 1) m')
      fs base_path current_path (node_name base_path current_path) m
  else scan_file fs base_path current_path
                 (node_name base_path current_path) m.
Proof. reflexivity. Qed.

Lemma scan_directory_has_fuel (fs : FileSystem) (base_path : string)
      (fuel : nat) :
  forall current_path max_depth m,
    (Z.to_nat max_depth < fuel)%nat ->
    snd (scan_directory fuel fs base_path current_path max_depth m)
    <> OutOfFuel.
Proof.
  induction fuel as [|fuel IH]; intros current_path max_depth m Hfuel; [lia|].
  rewrite scan_directory_step.
  destruct (max_depth <=? 0) eqn:Hd; [simpl; discriminate|].
  apply Z.leb_gt in Hd.
  destruct (negb (path_exists fs (OsPath.join base_path current_path)));
    [simpl; discriminate|].
  destruct (Str.mem (node_name base_path current_path) excluded_dirs).
  - destruct (mtime_if_exists fs (OsPath.join base_path current_path));
      simpl; discriminate.
  - destruct (path_isdir fs (OsPath.join base_path current_path)).
    + apply scan_listing_has_fuel. intros p m'. apply IH. lia.
    + apply scan_file_returns.
Qed.

Lemma scan_directory_fuel_irrelevant (fs : FileSystem) (base_path : string)
      (fuel : nat) :
  forall fuel' current_path max_depth m,
    (Z.to_nat max_depth < fuel)%nat -> (Z.to_nat max_depth < fuel')%nat ->
    scan_directory fuel fs base_path current_path max_depth m
    = scan_directory fuel' fs base_path current_path max_depth m.
Proof.
  induction fuel as [|fuel IH];
    intros [|fuel'] current_path max_depth m Hfuel Hfuel'; try lia.
  rewrite !scan_directory_step.
  destruct (max_depth <=? 0) eqn:Hd; [reflexivity|].
  apply Z.leb_gt in Hd.
  destruct (negb (path_exists fs (OsPath.join base_path current_path)));
    [reflexivity|].
  destruct (Str.mem (node_name base_path current_path) excluded_dirs);
    [reflexivity|].
  destruct (path_isdir fs (OsPath.join base_path current_path));
    [|reflexivity].
  apply scan_listing_ext. intros p m'. apply IH; lia.
Qed.

(** C10.  [scan_directory] returns on every file system, whatever its
    listings contain, cycles included: a call with [max_depth <= 0] returns
    nothing at once, every nested call is made with [max_depth - 1], and so a
    nesting of [max_depth] calls and the one that returns at zero is all that
    any call needs; more room changes nothing. *)
Theorem scan_directory_terminates (fs : FileSystem)
        (base_path current_path : string) (max_depth : Z) (m : files_map) :
  (max_depth <= 0 ->
   forall fuel,
     scan_directory (S fuel) fs base_path current_path max_depth m
     = (m, Ret None))
  /\ (forall fuel,
         (depth_fuel max_depth <= fuel)%nat ->
         snd (scan_directory fuel fs base_path current_path max_depth m)
         <> OutOfFuel
         /\ scan_directory fuel fs base_path current_path max_depth m
            = scan_directory (depth_fuel max_depth) fs base_path current_path
                             max_depth m).
Proof.
  split.
  - intros Hd fuel. rewrite scan_directory_step.
    apply Z.leb_le in Hd. now rewrite Hd.
  - intros fuel Hfuel. unfold depth_fuel in *. split.
    + apply scan_directory_has_fuel. lia.
    + apply scan_directory_fuel_irrelevant; lia.
Qed.

Lemma scan_directory_terminates_witness :
  0 <= 0
  /\ scan_directory 1 Demo.cyclic_fs "/app" "loop" 0 [] = ([], Ret None)
  /\ (depth_fuel 5 <= 9)%nat
  /\ snd (scan_directory 9 Demo.cyclic_fs "/app" "" 5 []) <> OutOfFuel
  /\ scan_directory 9 Demo.cyclic_fs "/app" "" 5 []
     = scan_directory (depth_fuel 5) Demo.cyclic_fs "/app" "" 5 [].
Proof.
  assert (H0 : 0 <= 0) by lia.
  assert (H5 : (depth_fuel 5 <= 9)%nat) by (vm_compute; lia).
  split; [exact H0|].
  split; [exact (proj1 (scan_directory_terminates Demo.cyclic_fs "/app" "loop"
                                                  0 []) H0 0%nat)|].
  split; [exact H5|].
  exact (proj2 (scan_directory_terminates Demo.cyclic_fs "/app" "" 5 []) 9%nat H5).
Defined.

(** ** The tree walker: excluded names *)

Lemma excluded_names_are_plain (nm : string) :
  Str.mem nm excluded_dirs = true ->
  Str.nonempty nm = true /\ String.eqb nm "__init__.py" = false.
Proof.
  unfold Str.mem, excluded_dirs. cbn [existsb]. intro H.
  repeat (apply orb_true_iff in H; destruct H as [H|H]);
    try (apply String.eqb_eq in H; subst nm; split; reflexivity).
  discriminate.
Qed.

(** for an excluded basename the display name is that basename *)
Lemma node_name_excluded_basename (base_path current_path : string) :
  Str.mem (OsPath.basename current_path) excluded_dirs = true ->
  node_name base_path current_path = OsPath.basename current_path.
Proof.
  intro H. destruct (excluded_names_are_plain _ H) as [Hne Hinit].
  unfold node_name. now rewrite Hne, Hinit.
Qed.

Lemma scan_directory_excluded (fs : FileSystem)
      (base_path current_path : string) (max_depth : Z) (m : files_map)
      (st : Stat) (fuel : nat) :
  0 < max_depth ->
  stat fs (OsPath.join base_path current_path) = Ok st ->
  Str.mem (node_name base_path current_path) excluded_dirs = true ->
  scan_directory (S fuel) fs base_path current_path max_depth m
  = (m, Ret (Some (excluded_node (node_name base_path current_path)
                                 current_path (Some (st_mtime st))))).
Proof.
  intros Hd Hstat Hname. rewrite scan_directory_step.
  apply Z.leb_gt in Hd. rewrite Hd.
  unfold path_exists. rewrite Hstat. cbn [negb].
  now rewrite Hname, (mtime_if_exists_stat _ _ _ Hstat).
Qed.

(** C6, amended.  When [max_depth] is positive and the target exists, a
    target whose name (the basename of [current_path], or of [base_path] at
    the root) is one of the excluded names yields a directory node of size 0
    with an empty list of children.  One frame suffices, so nothing below the
    target is visited, the file map is left alone, and the node depends on
    the file system through the modification time of the target only. *)
Theorem excluded_name_yields_placeholder (fs : FileSystem)
        (base_path current_path : string) (max_depth : Z) (m : files_map)
        (st : Stat) :
  0 < max_depth ->
  stat fs (OsPath.join base_path current_path) = Ok st ->
  Str.mem (node_name base_path current_path) excluded_dirs = true ->
  let node := excluded_node (node_name base_path current_path) current_path
                            (Some (st_mtime st)) in
  (forall fuel,
      scan_directory (S fuel) fs base_path current_path max_depth m
      = (m, Ret (Some node)))
  /\ type node = "directory" /\ size node = 0 /\ children node = Some []
  /\ (forall fs' st' fuel,
         stat fs' (OsPath.join base_path current_path) = Ok st' ->
         st_mtime st' = st_mtime st ->
         scan_directory (S fuel) fs' base_path current_path max_depth m
         = (m, Ret (Some node))).
Proof.
  intros Hd Hstat Hname node.
  split; [intro fuel; now apply scan_directory_excluded|].
  repeat split.
  intros fs' st' fuel Hstat' Hmtime. subst node. rewrite <- Hmtime.
  now apply scan_directory_excluded.
Qed.

Lemma excluded_name_yields_placeholder_witness :
  0 < 5
  /\ stat Demo.fs (OsPath.join "/app" "ui/src/pages/node_modules") = Ok Demo.dir
  /\ Str.mem (node_name "/app" "ui/src/pages/node_modules") excluded_dirs = true
  /\ scan_directory 1 Demo.fs "/app" "ui/src/pages/node_modules" 5 []
     = ([], Ret (Some (mkFileNode "node_modules" "ui/src/pages/node_modules"
                                  "directory" 0 (Some 1700000000) (Some [])
                                  None None))).
Proof.
  assert (Hd : 0 < 5) by lia.
  split; [exact Hd|]. split; [reflexivity|]. split; [reflexivity|].
  exact (proj1 (excluded_name_yields_placeholder
                  Demo.fs "/app" "ui/src/pages/node_modules" 5 [] Demo.dir
                  Hd eq_refl eq_refl) 0%nat).
Defined.

(** C6 as stated fails when the depth is used up: the directory
    [node_modules] exists and its name is excluded, yet a call with
    [max_depth = 0] returns nothing, and a scan of its parent with
    [max_depth = 1] returns the parent without any child. *)
Lemma excluded_directory_beyond_depth_is_dropped :
  path_isdir Demo.fs (OsPath.join "/app" "ui/src/pages/node_modules") = true
  /\ Str.mem (OsPath.basename "ui/src/pages/node_modules") excluded_dirs = true
  /\ scan_directory (depth_fuel 0) Demo.fs "/app" "ui/src/pages/node_modules"
                    0 []
     = ([], Ret None)
  /\ scan_directory (depth_fuel 1) Demo.fs "/app" "ui/src/pages" 1 []
     = ([], Ret (Some (mkFileNode "pages" "ui/src/pages" "directory" 0
                                  (Some 1700000000) (Some []) None None))).
Proof. repeat split; reflexivity. Qed.

(** C9, amended.  When [max_depth] is positive, a regular file whose name is
    one of the excluded names is returned as a directory node of size 0 with
    an empty list of children, whatever its size on disk; the call leaves the
    file map alone, and the loop of the parent directory, which registers
    file nodes only, appends the node and leaves the map and the running
    total alone as well. *)
Theorem excluded_file_is_a_directory_placeholder (fs : FileSystem)
        (base_path parent item : string) (max_depth : Z) (m : files_map)
        (st : Stat) :
  let current_path := OsPath.join parent item in
  0 < max_depth ->
  stat fs (OsPath.join base_path current_path) = Ok st ->
  st_isdir st = false ->
  Str.mem (node_name base_path current_path) excluded_dirs = true ->
  let node := excluded_node (node_name base_path current_path) current_path
                            (Some (st_mtime st)) in
  (forall fuel,
      scan_directory (S fuel) fs base_path current_path max_depth m
      = (m, Ret (Some node)))
  /\ type node = "directory" /\ size node = 0 /\ children node = Some []
  /\ (forall fuel siblings total_size,
         scan_items
           (fun item_path m' =>
              scan_directory (S fuel) fs base_path item_path max_depth m')
           parent [item] m siblings total_size
         = (m, ((siblings ++ [node])%list, total_size), Completed)).
Proof.
  intros current_path Hd Hstat Hfile Hname node.
  assert (Hcall : forall fuel,
             scan_directory (S fuel) fs base_path current_path max_depth m
             = (m, Ret (Some node)))
    by (intro fuel; now apply scan_directory_excluded).
  split; [exact Hcall|]. repeat split.
  intros fuel siblings total_size. cbn [scan_items].
  fold current_path. now rewrite Hcall.
Qed.

Lemma excluded_file_is_a_directory_placeholder_witness :
  0 < 4
  /\ stat Demo.fs (OsPath.join "/app" (OsPath.join "ui/src/pages" "build"))
     = Ok (Demo.file 7)
  /\ st_isdir (Demo.file 7) = false
  /\ Str.mem (node_name "/app" (OsPath.join "ui/src/pages" "build"))
             excluded_dirs = true
  /\ scan_directory 1 Demo.fs "/app" "ui/src/pages/build" 4 []
     = ([], Ret (Some (mkFileNode "build" "ui/src/pages/build" "directory" 0
                                  (Some 1700000001) (Some []) None None))).
Proof.
  assert (Hd : 0 < 4) by lia.
  split; [exact Hd|]. split; [reflexivity|]. split; [reflexivity|].
  split; [reflexivity|].
  exact (proj1 (excluded_file_is_a_directory_placeholder
                  Demo.fs "/app" "ui/src/pages" "build" 4 [] (Demo.file 7)
                  Hd eq_refl eq_refl eq_refl) 0%nat).
Defined.

(** C9 as stated fails when the depth is used up: the regular file [build]
    has an excluded name, yet with [max_depth = 0] nothing is returned for
    it, neither a file node nor a directory placeholder. *)
Lemma excluded_file_beyond_depth_is_dropped :
  stat Demo.fs (OsPath.join "/app" "ui/src/pages/build") = Ok (Demo.file 7)
  /\ Str.mem (OsPath.basename "ui/src/pages/build") excluded_dirs = true
  /\ scan_directory (depth_fuel 0) Demo.fs "/app" "ui/src/pages/build" 0 []
     = ([], Ret None).
Proof. repeat split; reflexivity. Qed.

(** ** The tree walker: sizes of directories *)

Lemma sizes_consistent_node (n : FileNode) :
  sizes_consistent n
  <-> directory_size_ok n /\ Forall sizes_consistent (child_nodes n).
Proof.
  unfold sizes_consistent. rewrite nodes_eq. split.
  - intro H. inversion H; subst. split; [assumption|].
    now apply Forall_flat_map.
  - intros [Hn Hc]. constructor; [assumption|]. now apply Forall_flat_map.
Qed.

Lemma sizes_consistent_leaf (n : FileNode) :
  child_nodes n = [] -> directory_size_ok n -> sizes_consistent n.
Proof.
  intros Hc Hn. apply sizes_consistent_node. rewrite Hc. auto.
Qed.

Lemma excluded_node_consistent (nm current_path : string)
      (t : option timestamp) :
  sizes_consistent (excluded_node nm current_path t).
Proof. apply sizes_consistent_leaf; [reflexivity|]. intros _. reflexivity. Qed.

Lemma scan_file_node (fs : FileSystem) (base_path current_path nm : string)
      (m m' : files_map) (t : FileNode) :
  scan_file fs base_path current_path nm m = (m', Ret (Some t)) ->
  type t = "file" /\ child_nodes t = [].
Proof.
  unfold scan_file.
  destruct (getsize fs (OsPath.join base_path current_path)) as [sz|[| |w]];
    try discriminate.
  destruct (getmtime fs (OsPath.join base_path current_path)) as [mt|[| |w]];
    try discriminate.
  intro H. inversion H; subst. split; reflexivity.
Qed.

Section Recursive_call_sizes.

Variable rec : string -> files_map -> files_map * outcome (option FileNode).
Hypothesis rec_consistent :
  forall p m m' t, rec p m = (m', Ret (Some t)) -> sizes_consistent t.

Lemma scan_items_sizes (current_path : string) (items : list string) :
  forall m children total_size m' children' total_size' ended,
    scan_items rec current_path items m children total_size
    = (m', (children', total_size'), ended) ->
    Forall sizes_consistent children ->
    total_size = sum_sizes children ->
    Forall sizes_consistent children' /\ total_size' = sum_sizes children'.
Proof.
  induction items as [|item rest IH];
    intros m children total_size m' children' total_size' ended Hrun Hall Hsum;
    simpl in Hrun.
  - inversion Hrun; subst. auto.
  - destruct (rec (OsPath.join current_path item) m)
      as [m1 [[child|]|e|]] eqn:Hrec;
      try (inversion Hrun; subst; auto; fail).
    + apply (IH _ _ _ _ _ _ _ Hrun).
      * apply Forall_app. split; [assumption|].
        constructor; [|constructor]. eapply rec_consistent; eassumption.
      * rewrite sum_sizes_app. unfold sum_sizes at 2. simpl.
        destruct (size child =? 0) eqn:Hz; [apply Z.eqb_eq in Hz|]; lia.
    + apply (IH _ _ _ _ _ _ _ Hrun); assumption.
Qed.

Lemma scan_listing_sizes (fs : FileSystem) (base_path current_path nm : string)
      (m m' : files_map) (t : FileNode) :
  scan_listing rec fs base_path current_path nm m = (m', Ret (Some t)) ->
  sizes_consistent t /\ type t = "directory".
Proof.
  unfold scan_listing.
  destruct (match listdir fs (OsPath.join base_path current_path) with
            | Ok items =>
                scan_items rec current_path (firstn max_items items) m [] 0
            | Err e => (m, ([], 0), Raised e)
            end) as [[m1 [children total_size]] ended] eqn:Hloop.
  assert (Hkids : Forall sizes_consistent children
                  /\ total_size = sum_sizes children).
  { destruct (listdir fs (OsPath.join base_path current_path)) as [items|e].
    - eapply scan_items_sizes; [exact Hloop|constructor|reflexivity].
    - inversion Hloop; subst. split; [constructor|reflexivity]. }
  destruct Hkids as [Hall Hsum].
  intro Hres.
  assert (Hnode : forall lm,
             sizes_consistent
               (mkFileNode nm (node_path current_path) "directory" total_size
                           lm (Some children) None None)).
  { intro lm. apply sizes_consistent_node. split; [|exact Hall].
    intros _. exact Hsum. }
  destruct ended as [|[| |w]|];
    try discriminate;
    destruct (mtime_if_exists fs (OsPath.join base_path current_path));
    try discriminate; inversion Hres; subst; split; auto.
Qed.

End Recursive_call_sizes.

Lemma scan_directory_sizes (fs : FileSystem) (base_path : string) (fuel : nat) :
  forall current_path max_depth m m' t,
    scan_directory fuel fs base_path current_path max_depth m
    = (m', Ret (Some t)) ->
    sizes_consistent t.
Proof.
  induction fuel as [|fuel IH]; intros current_path max_depth m m' t Hres;
    [discriminate|].
  rewrite scan_directory_step in Hres.
  destruct (max_depth <=? 0); [discriminate|].
  destruct (negb (path_exists fs (OsPath.join base_path current_path)));
    [discriminate|].
  destruct (Str.mem (node_name base_path current_path) excluded_dirs).
  - destruct (mtime_if_exists fs (OsPath.join base_path current_path));
      [|discriminate].
    inversion Hres; subst. apply excluded_node_consistent.
  - destruct (path_isdir fs (OsPath.join base_path current_path)).
    + eapply scan_listing_sizes; [|exact Hres].
      intros p m0 m0' t0. apply IH.
    + destruct (scan_file_node _ _ _ _ _ _ _ Hres) as [Hty Hc].
      apply sizes_consistent_leaf; [exact Hc|].
      intro Hdir. rewrite Hty in Hdir. discriminate.
Qed.

(** a target that is a directory on disk comes back as a directory node *)
Lemma scan_directory_of_directory (fs : FileSystem)
      (base_path current_path : string) (max_depth : Z) (m m' : files_map)
      (t : FileNode) (fuel : nat) :
  path_isdir fs (OsPath.join base_path current_path) = true ->
  scan_directory fuel fs base_path current_path max_depth m
  = (m', Ret (Some t)) ->
  type t = "directory".
Proof.
  intros Hdir Hres. destruct fuel as [|fuel]; [discriminate|].
  rewrite scan_directory_step in Hres.
  destruct (max_depth <=? 0); [discriminate|].
  destruct (negb (path_exists fs (OsPath.join base_path current_path)));
    [discriminate|].
  rewrite Hdir in Hres.
  destruct (Str.mem (node_name base_path current_path) excluded_dirs).
  - destruct (mtime_if_exists fs (OsPath.join base_path current_path));
      [|discriminate].
    inversion Hres; subst. reflexivity.
  - eapply scan_listing_sizes; [|exact Hres].
    intros p m0 m0' t0. apply scan_directory_sizes.
Qed.

(** ** The scan request: sizes in the response *)

Lemma adopt_scan_keys (cats : list (string * FileNode)) (k : string)
      (node : FileNode) :
  map fst (adopt_scan cats k node) = map fst cats.
Proof.
  induction cats as [|[k' c] cats IH]; simpl; [reflexivity|].
  destruct (String.eqb k' k); simpl; [reflexivity|now rewrite IH].
Qed.

Lemma adopt_scan_keeps (cats : list (string * FileNode)) (k k' : string)
      (node c : FileNode) :
  k' <> k -> In (k', c) cats -> In (k', c) (adopt_scan cats k node).
Proof.
  intro Hne. induction cats as [|[k0 c0] cats IH]; simpl; [auto|].
  intros [H|H].
  - inversion H; subst.
    destruct (String.eqb_spec k' k); [contradiction|now left].
  - destruct (String.eqb k0 k); [now right|right; auto].
Qed.

Lemma adopt_scan_entry (cats : list (string * FileNode)) (k k' : string)
      (node c : FileNode) :
  In (k', c) (adopt_scan cats k node) ->
  In (k', c) cats
  \/ (k' = k /\ exists c0, In (k, c0) cats /\ c = adopt c0 node).
Proof.
  induction cats as [|[k0 c0] cats IH]; simpl; [auto|].
  destruct (String.eqb_spec k0 k) as [->|Hne]; simpl.
  - intros [H|H]; [|auto].
    inversion H; subst. right. split; [reflexivity|]. exists c0. auto.
  - intros [H|H]; [auto|].
    destruct (IH H) as [Hin|[-> [c1 [Hin ->]]]]; [auto|].
    right. split; [reflexivity|]. exists c1. auto.
Qed.

Lemma adopt_scan_sum (cats : list (string * FileNode)) (k : string)
      (node : FileNode) :
  In k (map fst cats) ->
  (forall c, In (k, c) cats -> size c = 0) ->
  sum_sizes (map snd (adopt_scan cats k node))
  = sum_sizes (map snd cats) + size node.
Proof.
  induction cats as [|[k0 c0] cats IH]; simpl; [contradiction|].
  intros Hin Hzero.
  destruct (String.eqb_spec k0 k) as [->|Hne]; simpl.
  - unfold sum_sizes; simpl. rewrite (Hzero c0) by auto. lia.
  - destruct Hin as [Hin|Hin]; [contradiction|].
    unfold sum_sizes in *; simpl. rewrite IH by auto. lia.
Qed.

Lemma initial_category_shape (k : string) (c : FileNode) :
  In (k, c) initial_categories -> c = empty_directory (name c) (path c).
Proof.
  unfold initial_categories.
  intro H; repeat (destruct H as [H|H]; [inversion H; reflexivity|]).
  contradiction.
Qed.

Lemma initial_category_size (k : string) (c : FileNode) :
  In (k, c) initial_categories -> size c = 0.
Proof. intro H. now rewrite (initial_category_shape _ _ H). Qed.

Lemma scan_categories_invariant (fs : FileSystem) (base_path : string)
      (todo : list (string * string)) :
  forall cats root_size m m' cats' root_size',
    scan_categories fs base_path todo cats root_size m
    = (m', Ret (cats', root_size')) ->
    NoDup (map fst todo) ->
    (forall k c, In (k, c) cats -> category_state k c) ->
    (forall k c, In k (map fst todo) -> In (k, c) cats ->
                 In (k, c) initial_categories) ->
    incl (map fst todo) (map fst cats) ->
    root_size = sum_sizes (map snd cats) ->
    (forall k c, In (k, c) cats' -> category_state k c)
    /\ root_size' = sum_sizes (map snd cats')
    /\ (forall k c, ~ In k (map fst todo) -> In (k, c) cats ->
                    In (k, c) cats').
Proof.
  induction todo as [|[category p] todo IH];
    intros cats root_size m m' cats' root_size' Hrun Hnodup Hstate Hpending
           Hkeys Hroot; cbn [scan_categories] in Hrun.
  - inversion Hrun; subst. auto.
  - simpl in Hnodup, Hkeys.
    apply NoDup_cons_iff in Hnodup. destruct Hnodup as [Hfresh Hnodup'].
    assert (Hskip : forall m0,
               scan_categories fs base_path todo cats root_size m0
               = (m', Ret (cats', root_size')) ->
               (forall k c, In (k, c) cats' -> category_state k c)
               /\ root_size' = sum_sizes (map snd cats')
               /\ (forall k c, ~ In k (map fst ((category, p) :: todo)) ->
                               In (k, c) cats -> In (k, c) cats')).
    { intros m0 Hrun0.
      destruct (IH _ _ _ _ _ _ Hrun0 Hnodup' Hstate) as [H1 [H2 H3]]; auto.
      - intros k c Hk. apply Hpending. now right.
      - intros k Hk. apply Hkeys. now right.
      - repeat split; auto. intros k c Hk. apply H3. intro. apply Hk. now right. }
    destruct (path_exists fs (OsPath.join base_path p)
              && path_isdir fs (OsPath.join base_path p)) eqn:Hdir;
      [|eapply Hskip; eassumption].
    apply andb_true_iff in Hdir. destruct Hdir as [_ Hdir].
    destruct (scan_directory (depth_fuel default_max_depth) fs base_path p
                             default_max_depth m)
      as [m1 [[node|]|e|]] eqn:Hscan;
      try discriminate; [|eapply Hskip; eassumption].
    pose proof (scan_directory_sizes _ _ _ _ _ _ _ _ Hscan) as Hnode.
    pose proof (scan_directory_of_directory _ _ _ _ _ _ _ _ Hdir Hscan) as Hty.
    destruct (IH _ _ _ _ _ _ Hrun Hnodup') as [H1 [H2 H3]].
    + intros k c Hin.
      destruct (adopt_scan_entry _ _ _ _ _ Hin) as [Hold|[-> [c0 [Hin0 ->]]]];
        [auto|].
      eapply Adopted; eauto. apply Hpending; [now left|assumption].
    + intros k c Hk Hin.
      destruct (adopt_scan_entry _ _ _ _ _ Hin) as [Hold|[-> _]].
      * apply Hpending; [now right|assumption].
      * contradiction.
    + rewrite adopt_scan_keys. intros k Hk. apply Hkeys. now right.
    + rewrite adopt_scan_sum; [lia| |].
      * apply Hkeys. now left.
      * intros c Hin. eapply initial_category_size.
        apply Hpending; [now left|eassumption].
    + repeat split; auto.
      intros k c Hk Hin. apply H3; [intro; apply Hk; now right|].
      apply adopt_scan_keeps; [|assumption].
      intros ->. apply Hk. now left.
Qed.

Lemma attach_category_app (acc : list FileNode) (c : FileNode) :
  attach_category acc c = (acc ++ attach_category [] c)%list.
Proof.
  unfold attach_category.
  destruct (truthy_list (children c)); [reflexivity|].
  destruct (Str.mem (name c) ["Media (Public)"; "Internal Storage"]);
    [reflexivity|now rewrite app_nil_r].
Qed.

Lemma fold_attach_category (l : list FileNode) :
  forall acc,
    fold_left attach_category l acc
    = (acc ++ flat_map (attach_category []) l)%list.
Proof.
  induction l as [|c l IH]; intro acc; simpl.
  - now rewrite app_nil_r.
  - now rewrite IH, (attach_category_app acc c), <- app_assoc.
Qed.

(** what one category contributes to the children of the root *)
Lemma attach_category_state (k : string) (c : FileNode) :
  category_state k c ->
  sum_sizes (attach_category [] c) = size c
  /\ Forall category_sizes_ok (attach_category [] c).
Proof.
  intros [Hin|c0 node Hin Hnode Hty ->].
  - unfold initial_categories in Hin.
    repeat (destruct Hin as [Hin|Hin];
            [inversion Hin; subst; split; [reflexivity|]|]);
      try contradiction; try (apply Forall_nil);
      (constructor; [|constructor]); (split; [reflexivity|]);
      right; repeat split; reflexivity.
  - pose proof (initial_category_shape _ _ Hin) as Hshape.
    apply sizes_consistent_node in Hnode. destruct Hnode as [Hsize Hkids].
    specialize (Hsize Hty).
    assert (Htype : type (adopt c0 node) = "directory")
      by (rewrite Hshape; reflexivity).
    unfold attach_category. change (children (adopt c0 node)) with (children node).
    change (name (adopt c0 node)) with (name c0).
    destruct (truthy_list (children node)) eqn:Htruthy.
    + split; [unfold sum_sizes; simpl; lia|].
      constructor; [|constructor]. split; [exact Htype|]. left.
      apply sizes_consistent_node. split; [|exact Hkids].
      intros _. exact Hsize.
    + assert (Hzero : size node = 0).
      { rewrite Hsize. unfold child_nodes.
        destruct (children node) as [[|x l]|]; try reflexivity. discriminate. }
      destruct (Str.mem (name c0) ["Media (Public)"; "Internal Storage"]).
      * split; [unfold sum_sizes; simpl; lia|].
        constructor; [|constructor]. split; [exact Htype|]. right.
        repeat split. exact Hzero.
      * split; [unfold sum_sizes; simpl; lia|constructor].
Qed.


Lemma category_paths_nodup : NoDup (map fst category_paths).
Proof.
  unfold category_paths; simpl.
  repeat (apply NoDup_cons;
          [simpl; intro H;
           repeat (destruct H as [H|H]; [discriminate|]); contradiction|]).
  apply NoDup_nil.
Qed.





(** ** Links *)

Lemma import_links_in_build_links (fs : FileSystem) (base_path : string)
      (m : files_map) (file_path : string) (file_node : FileNode)
      (l : CodebaseLink) :
  In (file_path, file_node) m ->
  In l (import_links_of file_path file_node) ->
  In l (build_links fs base_path m).
Proof.
  intros Hin Hl. unfold build_links. apply in_or_app. left.
  apply in_flat_map. exists (file_path, file_node). auto.
Qed.

(** C8.  For a file of the file map whose path ends in [.tsx], [.ts], [.jsx]
    or [.js], whose imports hold the module [brain] with kind [external] and
    whose text contains [brain.scan_codebase], the second pass contributes
    the edge with source the file, target [src/app/apis/codebase] and kind
    [api-usage], once for this call site (and once more only for the other
    call site, [brain.get_codebase_history]); the edge comes after all edges
    of declared imports, and every import of the file that is not external
    has its edge among those. *)
Theorem brain_call_site_adds_api_usage_edge (fs : FileSystem)
        (base_path : string) (m : files_map) (file_path : string)
        (file_node : FileNode) (imps : list ImportInfo) (content : string) :
  In (file_path, file_node) m ->
  (Str.endswith ".tsx" file_path = true \/ Str.endswith ".ts" file_path = true
   \/ Str.endswith ".jsx" file_path = true
   \/ Str.endswith ".js" file_path = true) ->
  imports file_node = Some imps ->
  In (mkImportInfo "brain" "external") imps ->
  read_text fs (OsPath.join base_path file_path) = Ok content ->
  Str.contains "brain.scan_codebase" content = true ->
  brain_links_of fs base_path file_path file_node
  = mkCodebaseLink file_path "src/app/apis/codebase" "api-usage"
      :: (if Str.contains "brain.get_codebase_history" content
          then [mkCodebaseLink file_path "src/app/apis/codebase" "api-usage"]
          else [])
  /\ (exists l1 l2,
         build_links fs base_path m
         = (l1 ++ mkCodebaseLink file_path "src/app/apis/codebase" "api-usage"
               :: l2)%list
         /\ forall imp,
             In imp imps -> import_type imp <> "external" ->
             In (mkCodebaseLink file_path (import_path imp) (import_type imp))
                l1)
  /\ In (mkCodebaseLink file_path "src/app/apis/codebase" "api-usage")
        (build_links fs base_path m).
Proof.
  intros Hin Hsuffix Himps Hbrain Hread Hcall.
  assert (Hfront : is_frontend_path file_path = true).
  { unfold is_frontend_path.
    destruct Hsuffix as [H|[H|[H|H]]]; rewrite H;
      repeat rewrite orb_true_r; reflexivity. }
  assert (Hlinks : brain_links_of fs base_path file_path file_node
                   = mkCodebaseLink file_path "src/app/apis/codebase"
                                    "api-usage"
                       :: (if Str.contains "brain.get_codebase_history" content
                           then [mkCodebaseLink file_path
                                                "src/app/apis/codebase"
                                                "api-usage"]
                           else [])).
  { unfold brain_links_of, brain_import, api_usage_link.
    rewrite Hfront, Himps, Hread, Hcall.
    assert (Htruthy : truthy_list (Some imps) = true)
      by (destruct imps; [contradiction|reflexivity]).
    rewrite Htruthy. cbn [andb].
    assert (Hany : existsb
                     (fun imp =>
                        String.eqb (import_path imp) "brain"
                        && String.eqb (import_type imp) "external") imps
                   = true).
    { apply existsb_exists. exists (mkImportInfo "brain" "external"). auto. }
    rewrite Hany. reflexivity. }
  assert (Hsplit : exists l1 l2,
             build_links fs base_path m
             = (l1 ++ mkCodebaseLink file_path "src/app/apis/codebase"
                                     "api-usage" :: l2)%list
             /\ forall imp,
                 In imp imps -> import_type imp <> "external" ->
                 In (mkCodebaseLink file_path (import_path imp)
                                    (import_type imp)) l1).
  { destruct (in_split _ _ Hin) as [ma [mb Hm]].
    exists (flat_map (fun '(fp, fn) => import_links_of fp fn) m
            ++ flat_map (fun '(fp, fn) => brain_links_of fs base_path fp fn) ma)%list.
    exists ((if Str.contains "brain.get_codebase_history" content
             then [mkCodebaseLink file_path "src/app/apis/codebase"
                                  "api-usage"]
             else [])
            ++ flat_map (fun '(fp, fn) => brain_links_of fs base_path fp fn) mb)%list.
    split.
    - unfold build_links. rewrite Hm at 2.
      rewrite flat_map_app. cbn [flat_map]. rewrite Hlinks.
      rewrite <- !app_assoc. reflexivity.
    - intros imp Himp Hext. apply in_or_app. left.
      apply in_flat_map. exists (file_path, file_node). split; [exact Hin|].
      unfold import_links_of. rewrite Himps.
      assert (Htruthy : truthy_list (Some imps) = true)
        by (destruct imps; [contradiction|reflexivity]).
      rewrite Htruthy. apply in_flat_map. exists imp. split; [exact Himp|].
      destruct (String.eqb_spec (import_type imp) "external");
        [contradiction|now left]. }
  split; [exact Hlinks|]. split; [exact Hsplit|].
  destruct Hsplit as [l1 [l2 [-> _]]]. apply in_or_app. right. now left.
Qed.

Lemma brain_call_site_adds_api_usage_edge_witness :
  let m := fst (scan_directory 6 Demo.fs "/app" "ui/src/pages" 5 []) in
  In ("ui/src/pages/App.tsx", Demo.app_node) m
  /\ Str.endswith ".tsx" "ui/src/pages/App.tsx" = true
  /\ In (mkImportInfo "brain" "external")
        [mkImportInfo "brain" "external";
         mkImportInfo "/ui/src/components/B" "module"]
  /\ Str.contains "brain.scan_codebase" Demo.app_text = true
  /\ In (mkCodebaseLink "ui/src/pages/App.tsx" "src/app/apis/codebase"
                        "api-usage")
        (build_links Demo.fs "/app" m).
Proof.
  intro m.
  assert (Hin : In ("ui/src/pages/App.tsx", Demo.app_node) m)
    by (left; reflexivity).
  assert (Hbrain : In (mkImportInfo "brain" "external")
                      [mkImportInfo "brain" "external";
                       mkImportInfo "/ui/src/components/B" "module"])
    by (left; reflexivity).
  split; [exact Hin|]. split; [reflexivity|]. split; [exact Hbrain|].
  split; [reflexivity|].
  exact (proj2 (proj2 (brain_call_site_adds_api_usage_edge
                         Demo.fs "/app" m "ui/src/pages/App.tsx" Demo.app_node
                         _ Demo.app_text Hin (or_introl eq_refl) eq_refl
                         Hbrain eq_refl eq_refl))).
Defined.

(** * Further properties *)

(** ** The tree walker: what every node looks like *)

Lemma height_eq (n : FileNode) :
  height n = S (list_max (map height (child_nodes n))).
Proof.
  destruct n as [nm p ty sz lm ch im lang]. unfold child_nodes. simpl.
  f_equal. destruct ch as [l|]; [|reflexivity].
  induction l as [|c l IH]; simpl; [reflexivity|now rewrite IH].
Qed.

Section Recursive_call_children.

Variable rec : string -> files_map -> files_map * outcome (option FileNode).
Variable R : FileNode -> Prop.
Hypothesis rec_children :
  forall p m m' t, rec p m = (m', Ret (Some t)) -> R t.

(** the loop keeps the running total equal to the sizes gathered so far and
    appends at most one child per item *)
Lemma scan_items_children (current_path : string) (items : list string) :
  forall m children total_size m' children' total_size' ended,
    scan_items rec current_path items m children total_size
    = (m', (children', total_size'), ended) ->
    Forall R children ->
    total_size = sum_sizes children ->
    Forall R children' /\ total_size' = sum_sizes children'
    /\ (List.length children'
        <= List.length children + List.length items)%nat.
Proof.
  induction items as [|item rest IH];
    intros m children total_size m' children' total_size' ended Hrun Hall Hsum;
    cbn [scan_items] in Hrun.
  - inversion Hrun; subst. repeat split; auto. lia.
  - destruct (rec (OsPath.join current_path item) m)
      as [m1 [[child|]|e|]] eqn:Hrec.
    + destruct (IH _ _ _ _ _ _ _ Hrun) as [H1 [H2 H3]].
      * apply Forall_app. split; [assumption|].
        constructor; [|constructor]. eapply rec_children; eassumption.
      * rewrite sum_sizes_app. unfold sum_sizes at 2. simpl.
        destruct (size child =? 0) eqn:Hz; [apply Z.eqb_eq in Hz|]; lia.
      * repeat split; auto. rewrite length_app in H3. simpl in *. lia.
    + destruct (IH _ _ _ _ _ _ _ Hrun Hall Hsum) as [H1 [H2 H3]].
      repeat split; auto. simpl. lia.
    + inversion Hrun; subst. repeat split; auto. simpl. lia.
    + inversion Hrun; subst. repeat split; auto. simpl. lia.
Qed.

(** the node that the directory branch returns *)
Lemma scan_listing_node (fs : FileSystem) (base_path current_path nm : string)
      (m m' : files_map) (t : FileNode) :
  scan_listing rec fs base_path current_path nm m = (m', Ret (Some t)) ->
  exists kids lm,
    t = mkFileNode nm (node_path current_path) "directory" (sum_sizes kids) lm
                   (Some kids) None None
    /\ Forall R kids /\ (List.length kids <= max_items)%nat.
Proof.
  unfold scan_listing.
  destruct (match listdir fs (OsPath.join base_path current_path) with
            | Ok items =>
                scan_items rec current_path (firstn max_items items) m [] 0
            | Err e => (m, ([], 0), Raised e)
            end) as [[m1 [children total_size]] ended] eqn:Hloop.
  assert (Hkids : Forall R children /\ total_size = sum_sizes children
                  /\ (List.length children <= max_items)%nat).
  { destruct (listdir fs (OsPath.join base_path current_path)) as [items|e].
    - destruct (scan_items_children _ _ _ _ _ _ _ _ _ Hloop
                                    (Forall_nil R) eq_refl) as [H1 [H2 H3]].
      pose proof (firstn_le_length max_items items) as Hcap.
      split; [exact H1|]. split; [exact H2|].
      change (List.length (@nil FileNode)) with 0%nat in H3. lia.
    - inversion Hloop; subst.
      split; [constructor|]. split; [reflexivity|].
      unfold max_items. simpl. lia. }
  destruct Hkids as [Hall [Hsum Hlen]]. intro Hres.
  destruct ended as [|[| |w]|];
    try discriminate;
    destruct (mtime_if_exists fs (OsPath.join base_path current_path)) as [lm|];
    try discriminate; inversion Hres; subst; eauto.
Qed.

End Recursive_call_children.

(** a property of nodes that the three branches of the walker establish
    holds of every node of every tree it returns *)
Section Walker_nodes.

Variable fs : FileSystem.
Variable base_path : string.
Variable Q : FileNode -> Prop.

Hypothesis Q_excluded :
  forall current_path t,
    Q (excluded_node (node_name base_path current_path) current_path t).
Hypothesis Q_file :
  forall current_path m m' t,
    scan_file fs base_path current_path (node_name base_path current_path) m
    = (m', Ret (Some t)) ->
    Q t.
Hypothesis Q_listing :
  forall current_path kids lm,
    Forall (fun child => Forall Q (nodes child)) kids ->
    (List.length kids <= max_items)%nat ->
    Q (mkFileNode (node_name base_path current_path) (node_path current_path)
                  "directory" (sum_sizes kids) lm (Some kids) None None).

Lemma scan_directory_nodes (fuel : nat) :
  forall current_path max_depth m m' t,
    scan_directory fuel fs base_path current_path max_depth m
    = (m', Ret (Some t)) ->
    Forall Q (nodes t).
Proof.
  induction fuel as [|fuel IH]; intros current_path max_depth m m' t Hres;
    [discriminate|].
  rewrite scan_directory_step in Hres.
  destruct (max_depth <=? 0); [discriminate|].
  destruct (negb (path_exists fs (OsPath.join base_path current_path)));
    [discriminate|].
  destruct (Str.mem (node_name base_path current_path) excluded_dirs).
  - destruct (mtime_if_exists fs (OsPath.join base_path current_path));
      [|discriminate].
    inversion Hres; subst. rewrite nodes_eq. constructor; [apply Q_excluded|].
    constructor.
  - destruct (path_isdir fs (OsPath.join base_path current_path)).
    + destruct (scan_listing_node _ (fun c => Forall Q (nodes c))
                  (fun p m0 m0' t0 => IH p (max_depth - 1) m0 m0' t0)
                  _ _ _ _ _ _ _ Hres) as [kids [lm [-> [Hkids Hlen]]]].
      rewrite nodes_eq. constructor; [now apply Q_listing|].
      apply Forall_flat_map. exact Hkids.
    + pose proof (Q_file _ _ _ _ Hres) as Hq.
      destruct (scan_file_node _ _ _ _ _ _ _ Hres) as [_ Hleaf].
      rewrite nodes_eq, Hleaf. constructor; [exact Hq|constructor].
Qed.

End Walker_nodes.

Lemma scan_file_shape (fs : FileSystem) (base_path current_path nm : string)
      (m m' : files_map) (t : FileNode) :
  scan_file fs base_path current_path nm m = (m', Ret (Some t)) ->
  file_shape t /\ path t = current_path /\ name t = nm
  /\ m' = dict_set m current_path t.
Proof.
  unfold scan_file.
  destruct (getsize fs (OsPath.join base_path current_path)) as [sz|[| |w]];
    try discriminate.
  destruct (getmtime fs (OsPath.join base_path current_path)) as [mt|[| |w]];
    try discriminate.
  intro H. inversion H; subst. unfold file_shape. cbn.
  repeat split; eauto.
Qed.

(** X1.  Every node of a tree that the walker returns is a file node without
    a children field, with its list of imports, its language and its time
    stamp, or a directory node with a list of children and neither imports
    nor language. *)
Theorem scan_directory_node_shapes (fs : FileSystem) (fuel : nat)
        (base_path current_path : string) (max_depth : Z) (m m' : files_map)
        (t : FileNode) :
  scan_directory fuel fs base_path current_path max_depth m
  = (m', Ret (Some t)) ->
  Forall (fun n => file_shape n \/ directory_shape n) (nodes t).
Proof.
  apply scan_directory_nodes.
  - intros cur lm. right. unfold directory_shape. cbn. eauto.
  - intros cur m0 m0' t0 H. left. now destruct (scan_file_shape _ _ _ _ _ _ _ H).
  - intros cur kids lm _ _. right. unfold directory_shape. cbn. eauto.
Qed.

Lemma scan_directory_node_shapes_witness :
  exists m' t,
    scan_directory 6 Demo.fs "/app" "src/app/apis" 5 [] = (m', Ret (Some t))
    /\ Forall (fun n => file_shape n \/ directory_shape n) (nodes t).
Proof.
  destruct (scan_directory 6 Demo.fs "/app" "src/app/apis" 5 [])
    as [m' [[t|]|e|]] eqn:E; try (vm_compute in E; discriminate).
  exists m', t. split; [reflexivity|].
  exact (scan_directory_node_shapes Demo.fs 6 "/app" "src/app/apis" 5 [] m' t E).
Defined.

(** X2.  No node of a tree that the walker returns has more than 100
    children, however long the listings of the file system are. *)
Theorem scan_directory_fan_out (fs : FileSystem) (fuel : nat)
        (base_path current_path : string) (max_depth : Z) (m m' : files_map)
        (t : FileNode) :
  scan_directory fuel fs base_path current_path max_depth m
  = (m', Ret (Some t)) ->
  Forall (fun n => (List.length (child_nodes n) <= 100)%nat) (nodes t).
Proof.
  apply scan_directory_nodes.
  - intros cur lm. cbn. lia.
  - intros cur m0 m0' t0 H.
    destruct (scan_file_node _ _ _ _ _ _ _ H) as [_ ->]. cbn. lia.
  - intros cur kids lm _ Hlen. exact Hlen.
Qed.

Lemma scan_directory_fan_out_witness :
  exists m' t,
    scan_directory 6 wide_fs "/app" "wide" 5 [] = (m', Ret (Some t))
    /\ List.length (child_nodes t) = 100%nat
    /\ Forall (fun n => (List.length (child_nodes n) <= 100)%nat) (nodes t).
Proof.
  destruct (scan_directory 6 wide_fs "/app" "wide" 5 [])
    as [m' [[t|]|e|]] eqn:E; try (vm_compute in E; discriminate).
  exists m', t. split; [reflexivity|].
  split; [vm_compute in E; inversion E; reflexivity|].
  exact (scan_directory_fan_out wide_fs 6 "/app" "wide" 5 [] m' t E).
Defined.

Lemma height_within_depth (fs : FileSystem) (base_path : string)
      (fuel : nat) :
  forall current_path max_depth m m' t,
    scan_directory fuel fs base_path current_path max_depth m
    = (m', Ret (Some t)) ->
    0 < max_depth /\ (height t <= Z.to_nat max_depth)%nat.
Proof.
  induction fuel as [|fuel IH]; intros current_path max_depth m m' t Hres;
    [discriminate|].
  rewrite scan_directory_step in Hres.
  destruct (max_depth <=? 0) eqn:Hd; [discriminate|].
  apply Z.leb_gt in Hd. split; [exact Hd|].
  destruct (negb (path_exists fs (OsPath.join base_path current_path)));
    [discriminate|].
  destruct (Str.mem (node_name base_path current_path) excluded_dirs).
  - destruct (mtime_if_exists fs (OsPath.join base_path current_path));
      [|discriminate].
    inversion Hres; subst. cbn. lia.
  - destruct (path_isdir fs (OsPath.join base_path current_path)).
    + destruct (scan_listing_node
                  _ (fun c => (height c <= Z.to_nat (max_depth - 1))%nat)
                  (fun p m0 m0' t0 H => proj2 (IH p (max_depth - 1) m0 m0' t0 H))
                  _ _ _ _ _ _ _ Hres) as [kids [lm [-> [Hkids _]]]].
      rewrite height_eq. unfold child_nodes. cbn [children].
      assert (Hmax : (list_max (map height kids)
                      <= Z.to_nat (max_depth - 1))%nat).
      { apply list_max_le. apply Forall_map. exact Hkids. }
      lia.
    + destruct (scan_file_node _ _ _ _ _ _ _ Hres) as [_ Hleaf].
      rewrite height_eq, Hleaf. cbn. lia.
Qed.

(** X3.  A tree that the walker returns has at most [max_depth] levels, the
    target itself being the first; a call that returns a tree had a positive
    [max_depth]. *)
Theorem scan_directory_height (fs : FileSystem) (fuel : nat)
        (base_path current_path : string) (max_depth : Z) (m m' : files_map)
        (t : FileNode) :
  scan_directory fuel fs base_path current_path max_depth m
  = (m', Ret (Some t)) ->
  0 < max_depth /\ Z.of_nat (height t) <= max_depth.
Proof.
  intro H. destruct (height_within_depth _ _ _ _ _ _ _ _ H) as [Hd Hh].
  split; [exact Hd|]. lia.
Qed.

Lemma scan_directory_height_witness :
  exists m' t,
    scan_directory 9 Demo.cyclic_fs "/app" "" 3 [] = (m', Ret (Some t))
    /\ height t = 3%nat
    /\ 0 < 3 /\ Z.of_nat (height t) <= 3.
Proof.
  destruct (scan_directory 9 Demo.cyclic_fs "/app" "" 3 [])
    as [m' [[t|]|e|]] eqn:E; try (vm_compute in E; discriminate).
  exists m', t. split; [reflexivity|].
  split; [vm_compute in E; inversion E; reflexivity|].
  exact (scan_directory_height Demo.cyclic_fs 9 "/app" "" 3 [] m' t E).
Defined.

(** ** The tree walker: the file map *)

Lemma assoc_get_dict_set_other {V : Type} (d : list (string * V))
      (k k' : string) (v : V) :
  k' <> k -> assoc_get k' (dict_set d k v) = assoc_get k' d.
Proof.
  intro Hne. induction d as [|[k0 v0] d IH]; simpl.
  - destruct (String.eqb_spec k' k); [contradiction|reflexivity].
  - destruct (String.eqb_spec k k0) as [->|Hk]; simpl.
    + destruct (String.eqb_spec k' k0); [contradiction|reflexivity].
    + destruct (String.eqb k' k0); [reflexivity|exact IH].
Qed.

Lemma dict_set_keys {V : Type} (d : list (string * V)) (k k' : string) (v : V) :
  In k' (map fst d) -> In k' (map fst (dict_set d k v)).
Proof.
  induction d as [|[k0 v0] d IH]; simpl; [contradiction|].
  destruct (String.eqb_spec k k0) as [->|Hk]; simpl; intuition.
Qed.

Lemma dict_set_Forall {V : Type} (P : string * V -> Prop)
      (d : list (string * V)) (k : string) (v : V) :
  Forall P d -> P (k, v) -> Forall P (dict_set d k v).
Proof.
  intros Hd Hv. induction Hd as [|[k0 v0] d H0 Hd IH]; simpl.
  - constructor; [exact Hv|constructor].
  - destruct (String.eqb k k0); constructor; auto.
Qed.

Lemma assoc_get_In {V : Type} (d : list (string * V)) (k : string) (v : V) :
  assoc_get k d = Some v -> In (k, v) d.
Proof.
  induction d as [|[k0 v0] d IH]; simpl; [discriminate|].
  destruct (String.eqb_spec k k0) as [->|Hk].
  - intro H. inversion H; subst. now left.
  - intro H. right. auto.
Qed.

(** the file branch builds its node from the path alone *)
Lemma scanned_file_unique (fs : FileSystem) (base_path : string)
      (n1 n2 : FileNode) :
  scanned_file fs base_path n1 -> scanned_file fs base_path n2 ->
  path n1 = path n2 -> n1 = n2.
Proof.
  intros [m1 [m1' H1]] [m2 [m2' H2]] Hp. rewrite <- Hp in H2.
  unfold scan_file in H1, H2.
  destruct (getsize fs (OsPath.join base_path (path n1))) as [sz|[| |w]];
    try discriminate.
  destruct (getmtime fs (OsPath.join base_path (path n1))) as [mt|[| |w]];
    try discriminate.
  congruence.
Qed.

(** the file nodes of a returned tree are those the file branch builds *)
Lemma scan_directory_scanned_files (fs : FileSystem) (base_path : string)
      (fuel : nat) (current_path : string) (max_depth : Z) (m m' : files_map)
      (t : FileNode) :
  scan_directory fuel fs base_path current_path max_depth m
  = (m', Ret (Some t)) ->
  Forall (fun n => type n = "file" -> scanned_file fs base_path n) (nodes t).
Proof.
  apply scan_directory_nodes.
  - intros cur lm H. discriminate.
  - intros cur m0 m0' t0 H _.
    destruct (scan_file_shape _ _ _ _ _ _ _ H) as [_ [Hp _]].
    exists m0, m0'. now rewrite Hp.
  - intros cur kids lm _ _ H. discriminate.
Qed.

Lemma scan_directory_root_scanned (fs : FileSystem) (base_path : string)
      (fuel : nat) (current_path : string) (max_depth : Z) (m m' : files_map)
      (t : FileNode) :
  scan_directory fuel fs base_path current_path max_depth m
  = (m', Ret (Some t)) ->
  type t = "file" -> scanned_file fs base_path t.
Proof.
  intro H. pose proof (scan_directory_scanned_files _ _ _ _ _ _ _ _ H) as Hall.
  rewrite nodes_eq in Hall. now inversion Hall.
Qed.

(** a property of the file map that registering a file node keeps is kept
    by every call of the walker, however the call ends *)
Section Walker_map.

Variable fs : FileSystem.
Variable base_path : string.
Variable I : files_map -> Prop.

Hypothesis I_register :
  forall m n,
    I m -> scanned_file fs base_path n -> type n = "file" ->
    I (dict_set m (path n) n).

Lemma scan_items_map
      (rec : string -> files_map -> files_map * outcome (option FileNode))
      (current_path : string) (items : list string) :
  (forall p m m' o, rec p m = (m', o) -> I m -> I m') ->
  (forall p m m' t, rec p m = (m', Ret (Some t)) -> type t = "file" ->
                    scanned_file fs base_path t) ->
  forall m children total_size m' res ended,
    scan_items rec current_path items m children total_size
    = (m', res, ended) ->
    I m -> I m'.
Proof.
  intros Hmap Hfile.
  induction items as [|item rest IH];
    intros m children total_size m' res ended Hrun Hm;
    cbn [scan_items] in Hrun.
  - now inversion Hrun; subst.
  - destruct (rec (OsPath.join current_path item) m)
      as [m1 [[child|]|e|]] eqn:Hrec;
      pose proof (Hmap _ _ _ _ Hrec Hm) as Hm1.
    + apply (IH _ _ _ _ _ _ Hrun).
      destruct (String.eqb_spec (type child) "file") as [Hty|_]; [|exact Hm1].
      apply I_register; [exact Hm1| |exact Hty]. eapply Hfile; eassumption.
    + apply (IH _ _ _ _ _ _ Hrun Hm1).
    + now inversion Hrun; subst.
    + now inversion Hrun; subst.
Qed.

Lemma scan_directory_map (fuel : nat) :
  forall current_path max_depth m m' o,
    scan_directory fuel fs base_path current_path max_depth m = (m', o) ->
    I m -> I m'.
Proof.
  induction fuel as [|fuel IH]; intros current_path max_depth m m' o Hres Hm.
  - now inversion Hres; subst.
  - rewrite scan_directory_step in Hres.
    destruct (max_depth <=? 0); [now inversion Hres; subst|].
    destruct (negb (path_exists fs (OsPath.join base_path current_path)));
      [now inversion Hres; subst|].
    destruct (Str.mem (node_name base_path current_path) excluded_dirs).
    + destruct (mtime_if_exists fs (OsPath.join base_path current_path));
        now inversion Hres; subst.
    + destruct (path_isdir fs (OsPath.join base_path current_path)).
      * unfold scan_listing in Hres.
        destruct (listdir fs (OsPath.join base_path current_path))
          as [items|e].
        -- destruct (scan_items
                       (fun item_path m0 =>
                          scan_directory fuel fs base_path item_path
                                         (max_depth - 1) m0)
                       current_path (firstn max_items items) m [] 0)
             as [[m1 [kids total]] ended] eqn:Hloop.
           assert (Hm1 : I m1).
           { eapply scan_items_map; [| |exact Hloop|exact Hm].
             - intros p m0 m0' o0. apply IH.
             - intros p m0 m0' t0 H0.
               eapply scan_directory_root_scanned; exact H0. }
           destruct ended as [|[| |w]|];
             try destruct (mtime_if_exists fs
                             (OsPath.join base_path current_path));
             now inversion Hres; subst.
        -- destruct e;
             try destruct (mtime_if_exists fs
                             (OsPath.join base_path current_path));
             now inversion Hres; subst.
      * unfold scan_file in Hres.
        destruct (getsize fs (OsPath.join base_path current_path))
          as [sz|[| |w]] eqn:Hsz; try (now inversion Hres; subst).
        destruct (getmtime fs (OsPath.join base_path current_path))
          as [mt|[| |w]] eqn:Hmt; try (now inversion Hres; subst).
        inversion Hres as [[Hm' Ho]].
        match goal with
        | |- I (dict_set m current_path ?n) =>
            change current_path with (path n) at 1;
            apply I_register; [exact Hm| |reflexivity]
        end.
        exists m. eexists. unfold scan_file. cbn [path].
        rewrite Hsz, Hmt. reflexivity.
Qed.

End Walker_map.

(** X4.  However a call of the walker ends, it registers file nodes only,
    each under its own path, and it never removes a key from the file map:
    a map that holds only such entries still does afterwards, and every key
    it held is still there. *)
Theorem scan_directory_registers_files_only (fs : FileSystem) (fuel : nat)
        (base_path current_path : string) (max_depth : Z) (m m' : files_map)
        (o : outcome (option FileNode)) :
  scan_directory fuel fs base_path current_path max_depth m = (m', o) ->
  files_map_ok m ->
  files_map_ok m' /\ (forall k, In k (map fst m) -> In k (map fst m')).
Proof.
  intros Hres Hm. split.
  - eapply scan_directory_map; [|exact Hres|exact Hm].
    intros m0 n H0 _ Hty. apply dict_set_Forall; [exact H0|]. split; auto.
  - eapply (scan_directory_map fs base_path
              (fun m0 => forall k, In k (map fst m) -> In k (map fst m0)));
      [|exact Hres|auto].
    intros m0 n H0 _ _ k Hk. apply dict_set_keys. auto.
Qed.

Lemma scan_directory_registers_files_only_witness :
  exists m' o,
    scan_directory 6 Demo.fs "/app" "src/app/apis" 5 [] = (m', o)
    /\ files_map_ok []
    /\ files_map_ok m'
    /\ map fst m' = ["src/app/apis/codebase/__init__.py"].
Proof.
  destruct (scan_directory 6 Demo.fs "/app" "src/app/apis" 5 []) as [m' o] eqn:E.
  exists m', o. split; [reflexivity|].
  assert (H0 : files_map_ok []) by constructor.
  split; [exact H0|].
  split;
    [exact (proj1 (scan_directory_registers_files_only
                     Demo.fs 6 "/app" "src/app/apis" 5 [] m' o E H0))|].
  vm_compute in E. inversion E. reflexivity.
Defined.

(** an entry that the file branch made stays as it is when another file
    node is registered *)
Lemma registered_stays (fs : FileSystem) (base_path : string) (n v : FileNode)
      (m : files_map) :
  scanned_file fs base_path n ->
  assoc_get (path n) m = Some n ->
  scanned_file fs base_path v ->
  assoc_get (path n) (dict_set m (path v) v) = Some n.
Proof.
  intros Hn Hget Hv.
  destruct (String.eqb_spec (path n) (path v)) as [Heq|Hne].
  - rewrite (scanned_file_unique _ _ _ _ Hn Hv Heq). apply assoc_get_dict_set.
  - now rewrite assoc_get_dict_set_other.
Qed.

Lemma registered_stable (fs : FileSystem) (base_path : string) (n : FileNode)
      (fuel : nat) (current_path : string) (max_depth : Z) (m m' : files_map)
      (o : outcome (option FileNode)) :
  scanned_file fs base_path n ->
  scan_directory fuel fs base_path current_path max_depth m = (m', o) ->
  assoc_get (path n) m = Some n ->
  assoc_get (path n) m' = Some n.
Proof.
  intros Hn Hres Hget.
  exact (scan_directory_map
           fs base_path (fun m0 => assoc_get (path n) m0 = Some n)
           (fun m0 v H0 Hv _ => registered_stays fs base_path n v m0 Hn H0 Hv)
           fuel _ _ _ _ _ Hres Hget).
Qed.

Section Registered_files.

Variable fs : FileSystem.
Variable base_path : string.


Lemma scan_items_registered (fuel : nat) (max_depth : Z)
      (current_path : string) (items : list string) :
  (forall p m m' t,
      scan_directory fuel fs base_path p max_depth m = (m', Ret (Some t)) ->
      Forall (registered fs base_path m') (nodes t)) ->
  forall m children total_size m' children' total_size' ended,
    scan_items (fun p m0 => scan_directory fuel fs base_path p max_depth m0)
               current_path items m children total_size
    = (m', (children', total_size'), ended) ->
    Forall (fun c => Forall (registered fs base_path m) (nodes c)) children ->
    Forall (fun c => Forall (registered fs base_path m') (nodes c)) children'.
Proof.
  intro Hrec.
  assert (Hmove : forall (m0 m1 : files_map) (l : list FileNode),
             (forall n, scanned_file fs base_path n ->
                        assoc_get (path n) m0 = Some n ->
                        assoc_get (path n) m1 = Some n) ->
             Forall (fun c => Forall (registered fs base_path m0) (nodes c)) l ->
             Forall (fun c => Forall (registered fs base_path m1) (nodes c)) l).
  { intros m0 m1 l Hstep Hl.
    eapply Forall_impl; [|exact Hl]. intros c Hc.
    eapply Forall_impl; [|exact Hc]. intros n Hn Hty.
    destruct (Hn Hty) as [Hs Hg]. split; [exact Hs|]. now apply Hstep. }
  induction items as [|item rest IH];
    intros m children total_size m' children' total_size' ended Hrun Hall;
    cbn [scan_items] in Hrun.
  - now inversion Hrun; subst.
  - destruct (scan_directory fuel fs base_path
                             (OsPath.join current_path item) max_depth m)
      as [m1 [[child|]|e|]] eqn:Hcall.
    + apply (IH _ _ _ _ _ _ _ Hrun).
      pose proof (Hrec _ _ _ _ Hcall) as Hchild.
      assert (Hall1 : Forall (fun c => Forall (registered fs base_path m1) (nodes c))
                             (children ++ [child])).
      { apply Forall_app. split.
        - apply (Hmove m m1); [|exact Hall].
          intros n Hs. eapply registered_stable; eassumption.
        - constructor; [exact Hchild|constructor]. }
      destruct (String.eqb_spec (type child) "file") as [Hty|_];
        [|exact Hall1].
      apply (Hmove m1); [|exact Hall1].
      intros n Hs Hg. apply (registered_stays fs base_path); auto.
      eapply scan_directory_root_scanned; eassumption.
    + apply (IH _ _ _ _ _ _ _ Hrun).
      apply (Hmove m m1); [|exact Hall].
      intros n Hs. eapply registered_stable; eassumption.
    + inversion Hrun; subst.
      apply (Hmove m m'); [|exact Hall].
      intros n Hs. eapply registered_stable; eassumption.
    + inversion Hrun; subst.
      apply (Hmove m m'); [|exact Hall].
      intros n Hs. eapply registered_stable; eassumption.
Qed.

Lemma scan_directory_kept (fuel : nat) :
  forall current_path max_depth m m' t,
    scan_directory fuel fs base_path current_path max_depth m
    = (m', Ret (Some t)) ->
    Forall (registered fs base_path m') (nodes t).
Proof.
  induction fuel as [|fuel IH]; intros current_path max_depth m m' t Hres;
    [discriminate|].
  pose proof Hres as Hstep. rewrite scan_directory_step in Hstep.
  destruct (max_depth <=? 0); [discriminate|].
  destruct (negb (path_exists fs (OsPath.join base_path current_path)));
    [discriminate|].
  destruct (Str.mem (node_name base_path current_path) excluded_dirs).
  - destruct (mtime_if_exists fs (OsPath.join base_path current_path));
      [|discriminate].
    inversion Hstep; subst. rewrite nodes_eq.
    constructor; [intro H; discriminate|constructor].
  - destruct (path_isdir fs (OsPath.join base_path current_path)).
    + unfold scan_listing in Hstep.
      destruct (listdir fs (OsPath.join base_path current_path)) as [items|e].
      * destruct (scan_items
                    (fun item_path m0 =>
                       scan_directory fuel fs base_path item_path
                                      (max_depth - 1) m0)
                    current_path (firstn max_items items) m [] 0)
          as [[m1 [kids total]] ended] eqn:Hloop.
        pose proof (scan_items_registered fuel (max_depth - 1) current_path
                      (firstn max_items items)
                      (fun p m0 m0' t0 => IH p (max_depth - 1) m0 m0' t0)
                      _ _ _ _ _ _ _ Hloop (Forall_nil _)) as Hkids.
        destruct ended as [|[| |w]|]; try discriminate;
          destruct (mtime_if_exists fs (OsPath.join base_path current_path));
          try discriminate; inversion Hstep; subst;
          rewrite nodes_eq; (constructor; [intro H; discriminate|]);
          apply Forall_flat_map; exact Hkids.
      * destruct e; try discriminate;
          destruct (mtime_if_exists fs (OsPath.join base_path current_path));
          try discriminate; inversion Hstep; subst;
          rewrite nodes_eq; (constructor; [intro H; discriminate|]);
          constructor.
    + destruct (scan_file_shape _ _ _ _ _ _ _ Hstep) as [_ [Hp [_ Hm']]].
      destruct (scan_file_node _ _ _ _ _ _ _ Hstep) as [_ Hleaf].
      rewrite nodes_eq, Hleaf. constructor; [|constructor].
      intros _. split.
      * exists m, m'. now rewrite Hp.
      * rewrite Hm', Hp. apply assoc_get_dict_set.
Qed.

End Registered_files.

(** X5.  When the walker returns a tree, every file node of the tree, at any
    depth, is in the file map under its path: the map gives back that very
    node. *)
Theorem scan_directory_registers_every_file (fs : FileSystem) (fuel : nat)
        (base_path current_path : string) (max_depth : Z) (m m' : files_map)
        (t : FileNode) :
  scan_directory fuel fs base_path current_path max_depth m
  = (m', Ret (Some t)) ->
  forall n,
    In n (nodes t) -> type n = "file" -> assoc_get (path n) m' = Some n.
Proof.
  intros Hres n Hin Hty.
  pose proof (scan_directory_kept _ _ _ _ _ _ _ _ Hres) as Hall.
  rewrite Forall_forall in Hall. now destruct (Hall n Hin Hty).
Qed.

Lemma scan_directory_registers_every_file_witness :
  exists m' t,
    scan_directory 6 Demo.fs "/app" "ui/src/pages" 5 [] = (m', Ret (Some t))
    /\ In Demo.app_node (nodes t)
    /\ type Demo.app_node = "file"
    /\ assoc_get (path Demo.app_node) m' = Some Demo.app_node.
Proof.
  destruct (scan_directory 6 Demo.fs "/app" "ui/src/pages" 5 [])
    as [m' [[t|]|e|]] eqn:E; try (vm_compute in E; discriminate).
  exists m', t. split; [reflexivity|].
  assert (Hin : In Demo.app_node (nodes t)).
  { vm_compute in E. inversion E; subst. right. left. reflexivity. }
  split; [exact Hin|]. split; [reflexivity|].
  exact (scan_directory_registers_every_file
           Demo.fs 6 "/app" "ui/src/pages" 5 [] m' t E Demo.app_node Hin
           eq_refl).
Defined.

(** ** The tree walker: errors of the file system *)

(** X6.  A directory that cannot be listed for lack of permission is
    returned as a directory node of size 0 without children, and nothing is
    raised or registered; any other error of the listing is raised to the
    caller. *)
Theorem unlistable_directory (fs : FileSystem)
        (base_path current_path : string) (max_depth : Z) (m : files_map)
        (st : Stat) (e : exn) (fuel : nat) :
  0 < max_depth ->
  stat fs (OsPath.join base_path current_path) = Ok st ->
  st_isdir st = true ->
  Str.mem (node_name base_path current_path) excluded_dirs = false ->
  listdir fs (OsPath.join base_path current_path) = Err e ->
  scan_directory (S fuel) fs base_path current_path max_depth m
  = match e with
    | PermissionError =>
        (m, Ret (Some (mkFileNode (node_name base_path current_path)
                                  (node_path current_path) "directory" 0
                                  (Some (st_mtime st)) (Some []) None None)))
    | _ => (m, Raise e)
    end.
Proof.
  intros Hd Hstat Hdir Hname Hlist. rewrite scan_directory_step.
  apply Z.leb_gt in Hd. rewrite Hd.
  unfold path_exists, path_isdir. rewrite Hstat, Hdir, Hname. cbn [negb].
  unfold scan_listing.
  rewrite Hlist, (mtime_if_exists_stat _ _ _ Hstat).
  destruct e; reflexivity.
Qed.

Lemma unlistable_directory_witness :
  0 < 5
  /\ stat locked_fs (OsPath.join "/app" "secret")
     = Ok (mkStat true 4096 1700000000)
  /\ listdir locked_fs (OsPath.join "/app" "secret") = Err PermissionError
  /\ scan_directory 1 locked_fs "/app" "secret" 5 []
     = ([], Ret (Some (mkFileNode "secret" "secret" "directory" 0
                                  (Some 1700000000) (Some []) None None)))
  /\ scan_directory 1 Demo.broken_fs "/app" "ui/src/pages" 5 []
     = ([], Raise (OtherError "Input/output error")).
Proof.
  assert (Hd : 0 < 5) by lia.
  split; [exact Hd|]. split; [reflexivity|]. split; [reflexivity|].
  split.
  - exact (unlistable_directory locked_fs "/app" "secret" 5 []
             (mkStat true 4096 1700000000) PermissionError 0
             Hd eq_refl eq_refl eq_refl eq_refl).
  - exact (unlistable_directory Demo.broken_fs "/app" "ui/src/pages" 5 []
             Demo.dir (OtherError "Input/output error") 0
             Hd eq_refl eq_refl eq_refl eq_refl).
Defined.

(** X7.  A file whose text cannot be read, or whose extension is not one of
    the five source extensions (its text is then not looked at), is still
    returned as a file node with its size, time stamp and language and with
    an empty list of imports, and is registered under its path. *)
Theorem file_without_imports (fs : FileSystem)
        (base_path current_path : string) (max_depth : Z) (m : files_map)
        (st : Stat) (fuel : nat) :
  0 < max_depth ->
  stat fs (OsPath.join base_path current_path) = Ok st ->
  st_isdir st = false ->
  Str.mem (node_name base_path current_path) excluded_dirs = false ->
  (Str.mem (get_file_extension (OsPath.join base_path current_path))
           ["js"; "jsx"; "ts"; "tsx"; "py"] = false
   \/ exists e, read_text fs (OsPath.join base_path current_path) = Err e) ->
  scan_directory (S fuel) fs base_path current_path max_depth m
  = (dict_set m current_path (plain_file_node base_path current_path st),
     Ret (Some (plain_file_node base_path current_path st))).
Proof.
  intros Hd Hstat Hdir Hname Htext. rewrite scan_directory_step.
  apply Z.leb_gt in Hd. rewrite Hd.
  unfold path_exists, path_isdir. rewrite Hstat, Hdir, Hname. cbn [negb].
  unfold scan_file, getsize, getmtime, plain_file_node. rewrite Hstat.
  destruct Htext as [Hext|[e He]].
  - now rewrite Hext.
  - rewrite He.
    now destruct (Str.mem
                    (get_file_extension (OsPath.join base_path current_path))
                    ["js"; "jsx"; "ts"; "tsx"; "py"]).
Qed.

Lemma file_without_imports_witness :
  0 < 5
  /\ stat wide_fs (OsPath.join "/app" "a.py") = Ok (mkStat false 1 1700000001)
  /\ (exists e, read_text wide_fs (OsPath.join "/app" "a.py") = Err e)
  /\ scan_directory 1 wide_fs "/app" "a.py" 5 []
     = ([("a.py", mkFileNode "a.py" "a.py" "file" 1 (Some 1700000001) None
                             (Some []) (Some "Python"))],
        Ret (Some (mkFileNode "a.py" "a.py" "file" 1 (Some 1700000001) None
                              (Some []) (Some "Python")))).
Proof.
  assert (Hd : 0 < 5) by lia.
  assert (Hread : exists e, read_text wide_fs (OsPath.join "/app" "a.py")
                            = Err e)
    by (exists FileNotFoundError; reflexivity).
  split; [exact Hd|]. split; [reflexivity|]. split; [exact Hread|].
  exact (file_without_imports wide_fs "/app" "a.py" 5 []
           (mkStat false 1 1700000001) 0 Hd eq_refl eq_refl eq_refl
           (or_intror Hread)).
Defined.

(** ** Import extraction: kinds *)

Lemma collect_imports_in (patterns : list (regex * string))
      (entry : string -> string -> ImportInfo) (content : string)
      (i : ImportInfo) :
  In i (collect_imports patterns entry content) ->
  exists pattern import_type captured,
    In (pattern, import_type) patterns
    /\ Str.nonempty captured = true
    /\ i = entry captured import_type.
Proof.
  unfold collect_imports. intro H. apply in_flat_map in H.
  destruct H as [[pattern ty] [Hpat Hi]].
  apply in_map_iff in Hi. destruct Hi as [captured [<- Hc]].
  apply filter_In in Hc. destruct Hc as [_ Hne].
  exists pattern, ty, captured. auto.
Qed.

Lemma js_import_entry_kind (root_path file_path captured kind : string) :
  let i := js_import_entry root_path file_path captured kind in
  import_type i = kind
  \/ (import_type i = "external"
      /\ import_path i = captured
      /\ Str.mem captured
                 ["react"; "react-dom"; "react-router-dom"; "app"; "brain"]
         = true).
Proof.
  unfold js_import_entry.
  repeat match goal with
         | |- context [if ?b then _ else _] => destruct b eqn:?
         end; cbn; auto.
Qed.

Lemma py_import_entry_kind (captured kind : string) :
  let i := py_import_entry captured kind in
  import_type i = kind
  \/ (import_type i = "external"
      /\ import_path i = captured
      /\ Str.mem captured ["databutton"; "fastapi"; "pydantic"] = true)
  \/ (import_type i = "internal"
      /\ import_path i = captured
      /\ (String.eqb captured "app" || Str.startswith "app." captured) = true).
Proof.
  unfold py_import_entry.
  repeat match goal with
         | |- context [if ?b then _ else _] => destruct b eqn:?
         end; cbn; auto.
Qed.

(** X8.  Every entry that [extract_imports] returns has one of the six kinds
    module, direct, require, from, external, internal.  An entry of kind
    external names one of the eight known packages, and an entry of kind
    internal names the module [app] or one below it; so a kind external or
    internal is never given to any other path. *)
Theorem extract_imports_kinds (file_path content root_path : string)
        (i : ImportInfo) :
  In i (extract_imports file_path content root_path) ->
  Str.mem (import_type i)
          ["module"; "direct"; "require"; "from"; "external"; "internal"]
  = true
  /\ (import_type i = "external" ->
      Str.mem (import_path i)
              ["react"; "react-dom"; "react-router-dom"; "app"; "brain";
               "databutton"; "fastapi"; "pydantic"] = true)
  /\ (import_type i = "internal" ->
      (String.eqb (import_path i) "app"
       || Str.startswith "app." (import_path i)) = true).
Proof.
  unfold extract_imports.
  destruct (Str.mem (get_file_extension file_path) ["js"; "jsx"; "ts"; "tsx"]).
  - intro H. apply collect_imports_in in H.
    destruct H as [pattern [kind [captured [Hpat [_ ->]]]]].
    assert (Hkind : kind = "module" \/ kind = "direct" \/ kind = "require").
    { unfold js_import_patterns in Hpat. simpl in Hpat.
      destruct Hpat as [H|[H|[H|[]]]]; inversion H; auto. }
    destruct (js_import_entry_kind root_path file_path captured kind)
      as [Hty|[Hty [Hp Hmem]]]; rewrite Hty.
    + destruct Hkind as [->|[->| ->]];
        (split; [reflexivity|split; intro; discriminate]).
    + split; [reflexivity|]. split; [|intro; discriminate].
      intros _. rewrite Hp.
      unfold Str.mem in *. cbn [existsb] in *.
      repeat (apply orb_true_iff in Hmem; destruct Hmem as [Hmem|Hmem]);
        try (rewrite Hmem; rewrite ?orb_true_r; reflexivity);
        try discriminate.
  - destruct (String.eqb (get_file_extension file_path) "py");
      [|intros []].
    intro H. apply collect_imports_in in H.
    destruct H as [pattern [kind [captured [Hpat [_ ->]]]]].
    assert (Hkind : kind = "module" \/ kind = "from").
    { unfold py_import_patterns in Hpat. simpl in Hpat.
      destruct Hpat as [H|[H|[]]]; inversion H; auto. }
    destruct (py_import_entry_kind captured kind)
      as [Hty|[[Hty [Hp Hmem]]|[Hty [Hp Hmem]]]]; rewrite Hty.
    + destruct Hkind as [->| ->];
        (split; [reflexivity|split; intro; discriminate]).
    + split; [reflexivity|]. split; [|intro; discriminate].
      intros _. rewrite Hp.
      unfold Str.mem in *. cbn [existsb] in *.
      repeat (apply orb_true_iff in Hmem; destruct Hmem as [Hmem|Hmem]);
        try (rewrite Hmem; rewrite ?orb_true_r; reflexivity);
        try discriminate.
    + split; [reflexivity|]. split; [intro; discriminate|].
      intros _. now rewrite Hp.
Qed.

Lemma extract_imports_kinds_witness :
  In (mkImportInfo "react" "external")
     (extract_imports "a.tsx" "import React from 'react'" "/app")
  /\ Str.mem "react"
             ["react"; "react-dom"; "react-router-dom"; "app"; "brain";
              "databutton"; "fastapi"; "pydantic"] = true.
Proof.
  assert (Hin : In (mkImportInfo "react" "external")
                   (extract_imports "a.tsx" "import React from 'react'" "/app"))
    by (left; reflexivity).
  split; [exact Hin|].
  exact (proj1 (proj2 (extract_imports_kinds
                         "a.tsx" "import React from 'react'" "/app"
                         (mkImportInfo "react" "external") Hin)) eq_refl).
Defined.

(** ** Links: where every edge comes from *)

(** X9.  Every edge that the link builder returns starts at a file of the
    file map and is either the edge of one of the imports of that file, with
    the path and the kind of that import, which is not external, or the edge
    with target [src/app/apis/codebase] and kind [api-usage], from a file
    whose path ends in [.tsx], [.ts], [.jsx] or [.js], one of whose imports
    has path [brain] and kind [external], and whose text, read again,
    contains [brain.scan_codebase] or [brain.get_codebase_history].  No edge
    made from an import has kind external. *)
Theorem build_links_sound (fs : FileSystem) (base_path : string)
        (m : files_map) (l : CodebaseLink) :
  In l (build_links fs base_path m) ->
  exists file_node,
    In (source l, file_node) m
    /\ ((exists imps imp,
            imports file_node = Some imps /\ In imp imps
            /\ import_type imp <> "external"
            /\ target l = import_path imp
            /\ link_type l = import_type imp)
        \/ (l = mkCodebaseLink (source l) "src/app/apis/codebase" "api-usage"
            /\ (Str.endswith ".tsx" (source l) = true
                \/ Str.endswith ".ts" (source l) = true
                \/ Str.endswith ".jsx" (source l) = true
                \/ Str.endswith ".js" (source l) = true)
            /\ (exists imps imp,
                   imports file_node = Some imps /\ In imp imps
                   /\ import_path imp = "brain"
                   /\ import_type imp = "external")
            /\ exists content,
                read_text fs (OsPath.join base_path (source l)) = Ok content
                /\ (Str.contains "brain.scan_codebase" content = true
                    \/ Str.contains "brain.get_codebase_history" content
                       = true))).
Proof.
  unfold build_links. intro H. apply in_app_or in H. destruct H as [H|H];
    apply in_flat_map in H; destruct H as [[file_path file_node] [Hin Hl]].
  - unfold import_links_of in Hl.
    destruct (truthy_list (imports file_node)); [|contradiction].
    destruct (imports file_node) as [imps|] eqn:Himps; [|contradiction].
    apply in_flat_map in Hl. destruct Hl as [imp [Himp Hl]].
    destruct (String.eqb_spec (import_type imp) "external") as [|Hext];
      [contradiction|].
    destruct Hl as [<-|[]]. cbn [source target link_type].
    exists file_node. split; [exact Hin|]. left. exists imps, imp. auto.
  - unfold brain_links_of in Hl.
    destruct (is_frontend_path file_path) eqn:Hfront; [|contradiction].
    destruct (truthy_list (imports file_node)); [|contradiction].
    cbn [andb] in Hl.
    destruct (brain_import file_node) eqn:Hbrain; [|contradiction].
    destruct (read_text fs (OsPath.join base_path file_path))
      as [content|e] eqn:Hread; [|contradiction].
    apply in_app_or in Hl.
    assert (Hsrc : l = mkCodebaseLink file_path "src/app/apis/codebase"
                                      "api-usage"
                   /\ (Str.contains "brain.scan_codebase" content = true
                       \/ Str.contains "brain.get_codebase_history" content
                          = true)).
    { unfold api_usage_link in Hl. destruct Hl as [Hl|Hl].
      - destruct (Str.contains "brain.scan_codebase" content);
          [|contradiction].
        destruct Hl as [<-|[]]. auto.
      - destruct (Str.contains "brain.get_codebase_history" content);
          [|contradiction].
        destruct Hl as [<-|[]]. auto. }
    destruct Hsrc as [-> Hcall]. cbn [source].
    exists file_node. split; [exact Hin|]. right.
    split; [reflexivity|]. split; [|split].
    + unfold is_frontend_path in Hfront.
      repeat (apply orb_true_iff in Hfront; destruct Hfront as [Hfront|Hfront]);
        auto.
    + unfold brain_import in Hbrain.
      destruct (imports file_node) as [imps|] eqn:Himps;
        [|discriminate].
      apply existsb_exists in Hbrain. destruct Hbrain as [imp [Himp Heq]].
      apply andb_true_iff in Heq. destruct Heq as [Hp Ht].
      apply String.eqb_eq in Hp. apply String.eqb_eq in Ht.
      exists imps, imp. auto.
    + exists content. auto.
Qed.

Lemma build_links_sound_witness :
  let m := [("ui/src/pages/App.tsx", Demo.app_node)] in
  In (mkCodebaseLink "ui/src/pages/App.tsx" "src/app/apis/codebase"
                     "api-usage")
     (build_links Demo.fs "/app" m)
  /\ exists file_node, In ("ui/src/pages/App.tsx", file_node) m.
Proof.
  intro m.
  assert (Hin : In (mkCodebaseLink "ui/src/pages/App.tsx"
                                   "src/app/apis/codebase" "api-usage")
                   (build_links Demo.fs "/app" m))
    by (right; left; reflexivity).
  split; [exact Hin|].
  destruct (build_links_sound Demo.fs "/app" m _ Hin) as [file_node [H _]].
  exists file_node. exact H.
Defined.

(** ** Statistics: the histogram of extensions *)

Lemma count_extension_sum (d : list (string * Z)) (key : string) :
  sum_counts (count_extension d key) = sum_counts d + 1.
Proof.
  unfold count_extension.
  induction d as [|[k n] d IH]; simpl.
  - unfold sum_counts. simpl. lia.
  - destruct (String.eqb key k) eqn:E; simpl.
    + unfold sum_counts. simpl. lia.
    + unfold sum_counts in *. simpl. rewrite IH. lia.
Qed.

Lemma dict_set_keys_in {V : Type} (d : list (string * V)) (key k : string)
      (v : V) :
  In k (map fst (dict_set d key v)) -> k = key \/ In k (map fst d).
Proof.
  induction d as [|[k0 v0] d IH]; simpl.
  - intros [<-|[]]. auto.
  - destruct (String.eqb_spec key k0) as [->|Hne]; simpl.
    + intros [<-|Hk]; auto.
    + intros [<-|Hk]; [auto|]. destruct (IH Hk); auto.
Qed.

Lemma dict_set_nodup {V : Type} (d : list (string * V)) (key : string) (v : V) :
  NoDup (map fst d) -> NoDup (map fst (dict_set d key v)).
Proof.
  induction d as [|[k0 v0] d IH]; simpl; intro Hd.
  - constructor; [intros []|constructor].
  - apply NoDup_cons_iff in Hd. destruct Hd as [Hfresh Hd].
    destruct (String.eqb_spec key k0) as [->|Hne]; simpl.
    + constructor; assumption.
    + constructor; [|auto].
      intro Hin. destruct (dict_set_keys_in _ _ _ _ Hin); congruence.
Qed.

Lemma count_extension_keys (d : list (string * Z)) (key : string) :
  NoDup (map fst d) -> NoDup (map fst (count_extension d key)).
Proof. apply dict_set_nodup. Qed.

Lemma count_extension_positive (d : list (string * Z)) (key : string) :
  Forall (fun kv => 0 < snd kv) d ->
  Forall (fun kv => 0 < snd kv) (count_extension d key).
Proof.
  unfold count_extension. intro Hd.
  assert (Hv : 0 < match assoc_get key d with Some n => n | None => 0 end + 1).
  { destruct (assoc_get key d) as [n|] eqn:E; [|lia].
    apply assoc_get_In in E. rewrite Forall_forall in Hd.
    specialize (Hd _ E). simpl in Hd. lia. }
  apply dict_set_Forall; assumption.
Qed.

(** what the traversal keeps of the statistics it updates *)
Lemma traverse_histogram (n : FileNode) :
  forall st,
    sum_counts (file_types st) = total_files st
    /\ NoDup (map fst (file_types st))
    /\ Forall (fun kv => 0 < snd kv) (file_types st) ->
    sum_counts (file_types (traverse n st)) = total_files (traverse n st)
    /\ NoDup (map fst (file_types (traverse n st)))
    /\ Forall (fun kv => 0 < snd kv) (file_types (traverse n st)).
Proof.
  induction n as [n IH] using FileNode_tree_ind.
  intros st Hst. rewrite traverse_eq.
  destruct (String.eqb (type n) "directory").
  - assert (Hfold : forall l acc,
               Forall (fun child => forall st0,
                         sum_counts (file_types st0) = total_files st0
                         /\ NoDup (map fst (file_types st0))
                         /\ Forall (fun kv => 0 < snd kv) (file_types st0) ->
                         sum_counts (file_types (traverse child st0))
                         = total_files (traverse child st0)
                         /\ NoDup (map fst (file_types (traverse child st0)))
                         /\ Forall (fun kv => 0 < snd kv)
                                   (file_types (traverse child st0))) l ->
               sum_counts (file_types acc) = total_files acc
               /\ NoDup (map fst (file_types acc))
               /\ Forall (fun kv => 0 < snd kv) (file_types acc) ->
               let res := fold_left (fun a child => traverse child a) l acc in
               sum_counts (file_types res) = total_files res
               /\ NoDup (map fst (file_types res))
               /\ Forall (fun kv => 0 < snd kv) (file_types res)).
    { induction l as [|c l IHl]; intros acc Hl Hacc; simpl; [exact Hacc|].
      inversion Hl; subst. apply IHl; auto. }
    apply Hfold; [exact IH|exact Hst].
  - destruct Hst as [Hsum [Hkeys Hpos]].
    cbn [file_types total_files].
    rewrite count_extension_sum, Hsum.
    split; [reflexivity|]. split.
    + now apply count_extension_keys.
    + now apply count_extension_positive.
Qed.

(** X10.  In the statistics of any tree the counters of the histogram of
    extensions add up to [total_files]: every file is counted under exactly
    one key, its extension or [no_extension]; no key occurs twice and every
    counter is positive. *)
Theorem calculate_stats_histogram (t : FileNode) :
  sum_counts (file_types (calculate_stats t)) = total_files (calculate_stats t)
  /\ NoDup (map fst (file_types (calculate_stats t)))
  /\ Forall (fun kv => 0 < snd kv) (file_types (calculate_stats t)).
Proof.
  unfold calculate_stats. apply traverse_histogram.
  cbn. split; [reflexivity|]. split; constructor.
Qed.

(** ** The snapshot store: what a scan writes *)

Lemma dict_set_keys_exact {V : Type} (d : list (string * V)) (k : string)
      (v : V) :
  map fst (dict_set d k v)
  = if Str.mem k (map fst d) then map fst d else (map fst d ++ [k])%list.
Proof.
  unfold Str.mem. induction d as [|[k0 v0] d IH]; simpl; [reflexivity|].
  destruct (String.eqb_spec k k0) as [->|Hne]; simpl; [reflexivity|].
  rewrite IH. now destruct (existsb (String.eqb k) (map fst d)).
Qed.

(** X11.  A scan request, however it ends, leaves every document of the
    store other than the snapshot as it was, removes no key, and adds at
    most the snapshot key, at the end and only when it was not there. *)
Theorem scan_keeps_other_documents (fs : FileSystem) (db db' : storage)
        (res : http_result CodebaseResponse) :
  scan_codebase fs db = (db', res) ->
  (forall k, k <> snapshot_key -> storage_get db' k = storage_get db k)
  /\ (map fst db' = map fst db
      \/ (Str.mem snapshot_key (map fst db) = false
          /\ map fst db' = (map fst db ++ [snapshot_key])%list)).
Proof.
  intro H.
  destruct (scan_codebase_cases fs db) as [[r [_ E]]|[cause E]];
    rewrite E in H; inversion H; subst.
  - split.
    + intros k Hk. unfold storage_get, storage_put.
      now apply assoc_get_dict_set_other.
    + unfold storage_put. rewrite dict_set_keys_exact.
      destruct (Str.mem snapshot_key (map fst db)); auto.
  - auto.
Qed.

Lemma scan_keeps_other_documents_witness :
  let db := [("settings", JStr "dark")] in
  exists db' res,
    scan_codebase Demo.empty_fs db = (db', res)
    /\ "settings" <> snapshot_key
    /\ storage_get db' "settings" = Some (JStr "dark")
    /\ map fst db' = ["settings"; snapshot_key].
Proof.
  intro db.
  destruct (scan_codebase Demo.empty_fs db) as [db' res] eqn:E.
  exists db', res. split; [reflexivity|].
  assert (Hk : "settings" <> snapshot_key) by discriminate.
  split; [exact Hk|].
  split;
    [exact (proj1 (scan_keeps_other_documents Demo.empty_fs db db' res E)
                  "settings" Hk)|].
  vm_compute in E. inversion E. reflexivity.
Defined.

(** X12.  A successful scan that follows another one replaces the snapshot:
    the store has the same keys as after the first scan, and the history
    request answers the response of the second scan. *)
Theorem second_scan_replaces_snapshot (fs1 fs2 : FileSystem)
        (db db1 db2 : storage) (r1 r2 : CodebaseResponse) :
  scan_codebase fs1 db = (db1, Response r1) ->
  scan_codebase fs2 db1 = (db2, Response r2) ->
  map fst db2 = map fst db1
  /\ storage_get db2 snapshot_key = Some (response_dict r2)
  /\ get_codebase_history db2 = Response (response_dict r2).
Proof.
  intros H1 H2.
  destruct (scan_codebase_cases fs1 db) as [[r [_ E]]|[cause E]];
    rewrite E in H1; inversion H1; subst.
  destruct (scan_codebase_cases fs2 (storage_put db snapshot_key
                                                 (response_dict r1)))
    as [[r [_ E2]]|[cause E2]];
    rewrite E2 in H2; inversion H2; subst.
  unfold storage_put, storage_get.
  assert (Hin : Str.mem snapshot_key
                        (map fst (dict_set db snapshot_key (response_dict r1)))
                = true).
  { unfold Str.mem. apply existsb_exists. exists snapshot_key.
    split; [|apply String.eqb_refl].
    apply in_map_iff. exists (snapshot_key, response_dict r1).
    split; [reflexivity|]. apply assoc_get_In. apply assoc_get_dict_set. }
  split; [rewrite dict_set_keys_exact, Hin; reflexivity|].
  split; [apply assoc_get_dict_set|].
  unfold get_codebase_history, storage_get.
  now rewrite assoc_get_dict_set, response_dict_truthy.
Qed.

(** ** The scan request: when it succeeds *)



Lemma scan_categories_keys (fs : FileSystem) (base_path : string)
      (todo : list (string * string)) :
  forall cats root_size m m' cats' root_size',
    scan_categories fs base_path todo cats root_size m
    = (m', Ret (cats', root_size')) ->
    map fst cats' = map fst cats.
Proof.
  induction todo as [|[category p] todo IH];
    intros cats root_size m m' cats' root_size' Hrun;
    cbn [scan_categories] in Hrun.
  - now inversion Hrun.
  - destruct (path_exists fs (OsPath.join base_path p)
              && path_isdir fs (OsPath.join base_path p));
      [|eapply IH; eassumption].
    destruct (scan_directory (depth_fuel default_max_depth) fs base_path p
                             default_max_depth m)
      as [m1 [[node|]|e|]]; try discriminate.
    + rewrite (IH _ _ _ _ _ _ Hrun). apply adopt_scan_keys.
    + eapply IH; eassumption.
Qed.

(** the six categories after the loop: the four scanned ones in their
    states, the two others as they were initialised; the size of the root is
    the sum of the sizes of the four *)
Lemma scan_categories_shape (fs : FileSystem) (m : files_map)
      (cats : list (string * FileNode)) (root_size : Z) :
  scan_categories fs "/app" category_paths initial_categories 0 []
  = (m, Ret (cats, root_size)) ->
  exists c1 c2 c3 c4,
    cats = [ ("Pages", c1); ("UI Components", c2); ("UI Files", c3);
             ("APIs", c4);
             ("Media", empty_directory "Media (Public)" "/static-assets");
             ("Storage", empty_directory "Internal Storage" "/storage") ]
    /\ category_state "Pages" c1 /\ category_state "UI Components" c2
    /\ category_state "UI Files" c3 /\ category_state "APIs" c4
    /\ root_size = size c1 + size c2 + size c3 + size c4.
Proof.
  intro Hrun.
  pose proof (scan_categories_keys _ _ _ _ _ _ _ _ _ Hrun) as Hkeys.
  assert (Hinit : forall k c,
             In (k, c) initial_categories -> category_state k c)
    by (intros k c Hin; now apply Untouched).
  assert (Hincl : incl (map fst category_paths) (map fst initial_categories))
    by (unfold category_paths, initial_categories;
        intros k Hk; simpl in *; intuition).
  destruct (scan_categories_invariant _ _ _ _ _ _ _ _ _ Hrun
              category_paths_nodup Hinit (fun k c _ H => H) Hincl eq_refl)
    as [Hstate [Hsum Hkept]].
  destruct cats as [|[k1 c1] [|[k2 c2] [|[k3 c3] [|[k4 c4] [|[k5 c5]
                    [|[k6 c6] [|]]]]]]]; try discriminate.
  simpl in Hkeys. inversion Hkeys; subst.
  assert (H5 : c5 = empty_directory "Media (Public)" "/static-assets").
  { assert (Hin : In ("Media",
                      empty_directory "Media (Public)" "/static-assets")
                     [("Pages", c1); ("UI Components", c2); ("UI Files", c3);
                      ("APIs", c4); ("Media", c5); ("Storage", c6)]).
    { apply Hkept; [|unfold initial_categories; simpl; auto 10].
      unfold category_paths; simpl. intuition discriminate. }
    simpl in Hin.
    repeat (destruct Hin as [Hin|Hin];
            [inversion Hin; try reflexivity; fail|]).
    contradiction. }
  assert (H6 : c6 = empty_directory "Internal Storage" "/storage").
  { assert (Hin : In ("Storage",
                      empty_directory "Internal Storage" "/storage")
                     [("Pages", c1); ("UI Components", c2); ("UI Files", c3);
                      ("APIs", c4); ("Media", c5); ("Storage", c6)]).
    { apply Hkept; [|unfold initial_categories; simpl; auto 10].
      unfold category_paths; simpl. intuition discriminate. }
    simpl in Hin.
    repeat (destruct Hin as [Hin|Hin];
            [inversion Hin; try reflexivity; fail|]).
    contradiction. }
  subst c5 c6. exists c1, c2, c3, c4.
  split; [reflexivity|].
  repeat (split; [apply Hstate; simpl; auto 10|]).
  unfold sum_sizes. simpl. lia.
Qed.

Lemma second_scan_replaces_snapshot_witness :
  exists db1 r1 db2 r2,
    scan_codebase Demo.empty_fs [] = (db1, Response r1)
    /\ scan_codebase Demo.fs db1 = (db2, Response r2)
    /\ map fst db2 = map fst db1
    /\ get_codebase_history db2 = Response (response_dict r2).
Proof.
  destruct (scan_codebase Demo.empty_fs []) as [db1 [r1|? ? ?]] eqn:E1;
    [|vm_compute in E1; discriminate].
  destruct (scan_codebase Demo.fs db1) as [db2 [r2|? ? ?]] eqn:E2.
  - exists db1, r1, db2, r2. split; [reflexivity|]. split; [exact E2|].
    destruct (second_scan_replaces_snapshot _ _ _ _ _ _ _ E1 E2)
      as [Hkeys [_ Hhist]].
    split; assumption.
  - exfalso.
    destruct (scan_codebase_cases Demo.fs db1) as [[r [_ E]]|[c0 E]];
      rewrite E in E2; [discriminate|].
    clear E2. unfold scan_codebase in E.
    destruct (scan_steps Demo.fs) as [r|e|] eqn:Es;
      vm_compute in Es; discriminate.
Defined.


(** the response of a scan, from the categories and the file map that the
    loop over the category paths leaves *)
Lemma scan_steps_response (fs : FileSystem) (response : CodebaseResponse) :
  scan_steps fs = Ret response ->
  exists m cats root_size,
    scan_categories fs "/app" category_paths initial_categories 0 []
    = (m, Ret (cats, root_size))
    /\ let tree :=
         mkFileNode "Taskflow App" "/" "directory" root_size None
                    (Some (flat_map (attach_category []) (map snd cats)))
                    None None in
       response = mkCodebaseResponse tree (calculate_stats tree)
                                     (build_links fs "/app" m).
Proof.
  unfold scan_steps.
  destruct (scan_categories fs "/app" category_paths initial_categories 0 [])
    as [m [[cats root_size]|e|]]; try discriminate.
  cbn [children]. rewrite fold_attach_category. cbn [app].
  destruct (negb (truthy_list
                    (Some (flat_map (attach_category []) (map snd cats)))));
    [discriminate|].
  intro H. inversion H; subst. eauto 6.
Qed.

Lemma truthy_list_app {A : Type} (l : list A) (x : A) (l' : list A) :
  truthy_list (Some (l ++ x :: l')%list) = true.
Proof. destruct l; reflexivity. Qed.




(** ** The scan request: the tree, the links and the statistics together *)

Lemma category_state_fields (k : string) (c : FileNode) :
  category_state k c ->
  type c = "directory" /\ imports c = None /\ sizes_consistent c
  /\ In (k, empty_directory (name c) (path c)) initial_categories.
Proof.
  intros [Hin|c0 node Hin Hnode Hty ->].
  - pose proof (initial_category_shape _ _ Hin) as Hshape.
    rewrite Hshape at 1 2 3. split; [reflexivity|]. split; [reflexivity|].
    split; [apply sizes_consistent_leaf; [reflexivity|intros _; reflexivity]|].
    now rewrite <- Hshape.
  - pose proof (initial_category_shape _ _ Hin) as Hshape.
    change (name (adopt c0 node)) with (name c0).
    change (path (adopt c0 node)) with (path c0).
    rewrite <- Hshape. split; [rewrite Hshape; reflexivity|].
    split; [rewrite Hshape; reflexivity|]. split; [|exact Hin].
    apply sizes_consistent_node in Hnode. destruct Hnode as [Hsize Hkids].
    apply sizes_consistent_node. split; [|exact Hkids].
    intros _. exact (Hsize Hty).
Qed.

(** a property of nodes and file maps that the walker establishes and keeps
    holds of every node under every category after the loop *)
Section Category_children.

Variable fs : FileSystem.
Variable base_path : string.
Variable P : files_map -> FileNode -> Prop.

Hypothesis P_walk :
  forall fuel current_path max_depth m m' t,
    scan_directory fuel fs base_path current_path max_depth m
    = (m', Ret (Some t)) ->
    Forall (P m') (nodes t).
Hypothesis P_stable :
  forall fuel current_path max_depth m m' o n,
    scan_directory fuel fs base_path current_path max_depth m = (m', o) ->
    P m n -> P m' n.

Lemma scan_categories_children (todo : list (string * string)) :
  forall cats root_size m m' cats' root_size',
    scan_categories fs base_path todo cats root_size m
    = (m', Ret (cats', root_size')) ->
    (forall k c, In (k, c) cats ->
                 Forall (P m) (flat_map nodes (child_nodes c))) ->
    forall k c, In (k, c) cats' ->
                Forall (P m') (flat_map nodes (child_nodes c)).
Proof.
  induction todo as [|[category p] todo IH];
    intros cats root_size m m' cats' root_size' Hrun Hcats;
    cbn [scan_categories] in Hrun.
  - inversion Hrun; subst. exact Hcats.
  - destruct (path_exists fs (OsPath.join base_path p)
              && path_isdir fs (OsPath.join base_path p));
      [|eapply IH; eassumption].
    destruct (scan_directory (depth_fuel default_max_depth) fs base_path p
                             default_max_depth m)
      as [m1 [[node|]|e|]] eqn:Hscan; try discriminate.
    + apply (IH _ _ _ _ _ _ Hrun).
      intros k c Hin.
      destruct (adopt_scan_entry _ _ _ _ _ Hin) as [Hold|[_ [c0 [_ ->]]]].
      * eapply Forall_impl; [|exact (Hcats _ _ Hold)].
        intros n Hn. eapply P_stable; eassumption.
      * change (child_nodes (adopt c0 node)) with (child_nodes node).
        pose proof (P_walk _ _ _ _ _ _ Hscan) as Hall.
        rewrite nodes_eq in Hall. now inversion Hall.
    + apply (IH _ _ _ _ _ _ Hrun).
      intros k c Hin.
      eapply Forall_impl; [|exact (Hcats _ _ Hin)].
      intros n Hn. eapply P_stable; eassumption.
Qed.

End Category_children.

Lemma scan_directory_shapes (fs : FileSystem) (base_path : string)
      (fuel : nat) (current_path : string) (max_depth : Z) (m m' : files_map)
      (t : FileNode) :
  scan_directory fuel fs base_path current_path max_depth m
  = (m', Ret (Some t)) ->
  Forall (fun n => file_shape n \/ directory_shape n) (nodes t).
Proof.
  apply scan_directory_nodes.
  - intros cur lm. right. unfold directory_shape. cbn. eauto.
  - intros cur m0 m0' t0 H. left. now destruct (scan_file_shape _ _ _ _ _ _ _ H).
  - intros cur kids lm _ _. right. unfold directory_shape. cbn. eauto.
Qed.

(** under every category of a finished loop, the nodes have one of the two
    shapes and the file nodes are in the file map *)
Lemma scan_categories_nodes (fs : FileSystem) (m : files_map)
      (cats : list (string * FileNode)) (root_size : Z) :
  scan_categories fs "/app" category_paths initial_categories 0 []
  = (m, Ret (cats, root_size)) ->
  forall k c, In (k, c) cats ->
    Forall (fun n => registered fs "/app" m n
                     /\ (file_shape n \/ directory_shape n))
           (flat_map nodes (child_nodes c)).
Proof.
  intro Hrun.
  assert (Hstable : forall fuel cur d m0 m0' (o : outcome (option FileNode)) n,
             scan_directory fuel fs "/app" cur d m0 = (m0', o) ->
             registered fs "/app" m0 n /\ (file_shape n \/ directory_shape n) ->
             registered fs "/app" m0' n
             /\ (file_shape n \/ directory_shape n)).
  { intros fuel cur d m0 m0' o n Hscan [Hreg Hshape]. split; [|exact Hshape].
    intro Hty. destruct (Hreg Hty) as [Hs Hg]. split; [exact Hs|].
    eapply registered_stable; eassumption. }
  apply (scan_categories_children
           fs "/app"
           (fun m0 n => registered fs "/app" m0 n
                        /\ (file_shape n \/ directory_shape n))
           (fun fuel cur d m0 m0' t H =>
              Forall_and (scan_directory_kept fs "/app" fuel cur d m0 m0' t H)
                         (scan_directory_shapes fs "/app" fuel cur d m0 m0' t H))
           Hstable _ _ _ _ _ _ _ Hrun).
  intros k c Hin. rewrite (initial_category_shape _ _ Hin). constructor.
Qed.

(** the nodes of what one category contributes to the root: the category
    node, and below it the nodes under the category or the placeholder *)
Lemma attach_category_nodes (c n kid : FileNode) :
  In kid (attach_category [] c) -> In n (nodes kid) ->
  (n = kid /\ imports kid = imports c /\ type kid = type c)
  \/ In n (flat_map nodes (child_nodes c))
  \/ n = placeholder_file c.
Proof.
  unfold attach_category.
  destruct (truthy_list (children c)).
  - intros [<-|[]] Hn. rewrite nodes_eq in Hn. destruct Hn as [<-|Hn]; auto.
  - destruct (Str.mem (name c) ["Media (Public)"; "Internal Storage"]);
      [|intros []].
    intros [<-|[]] Hn. rewrite nodes_eq in Hn. destruct Hn as [<-|Hn]; [auto|].
    right. right. unfold child_nodes in Hn. cbn in Hn.
    destruct Hn as [<-|[]]. reflexivity.
Qed.

(** X14.  In the response of a successful scan every import that is not
    external of every node of the tree has its edge among the links: from
    the path of the node to the path of the import, with the kind of the
    import. *)
Theorem scan_links_cover_tree (fs : FileSystem) (db db' : storage)
        (response : CodebaseResponse) (n : FileNode)
        (imps : list ImportInfo) (imp : ImportInfo) :
  scan_codebase fs db = (db', Response response) ->
  In n (nodes (structure response)) ->
  imports n = Some imps -> In imp imps ->
  import_type imp <> "external" ->
  In (mkCodebaseLink (path n) (import_path imp) (import_type imp))
     (links response).
Proof.
  intros Hscan Hn Himps Himp Hext.
  assert (Hsteps : scan_steps fs = Ret response).
  { destruct (scan_codebase_cases fs db) as [[r [Hr E]]|[cause E]];
      rewrite E in Hscan; inversion Hscan; subst; assumption. }
  destruct (scan_steps_response _ _ Hsteps) as [m [cats [root_size [Hrun Hr]]]].
  cbv zeta in Hr. subst response. cbn [structure links] in *.
  pose proof (scan_categories_nodes _ _ _ _ Hrun) as Hnodes.
  destruct (scan_categories_shape _ _ _ _ Hrun)
    as [c1 [c2 [c3 [c4 [Hcats [S1 [S2 [S3 [S4 _]]]]]]]]].
  assert (Hstate : forall k c, In (k, c) cats -> category_state k c).
  { rewrite Hcats. intros k c Hin. simpl in Hin.
    destruct Hin as [H|[H|[H|[H|[H|[H|[]]]]]]]; inversion H; subst; auto;
      apply Untouched; unfold initial_categories; simpl; auto 10. }
  rewrite nodes_eq in Hn. destruct Hn as [<-|Hn]; [discriminate|].
  unfold child_nodes in Hn. cbn [children] in Hn.
  apply in_flat_map in Hn. destruct Hn as [kid [Hkid Hn]].
  apply in_flat_map in Hkid. destruct Hkid as [c [Hc Hkid]].
  apply in_map_iff in Hc. destruct Hc as [[k c'] [Heq Hin]].
  simpl in Heq. subst c'.
  destruct (category_state_fields _ _ (Hstate _ _ Hin)) as [_ [Hnone _]].
  destruct (attach_category_nodes _ _ _ Hkid Hn)
    as [[-> [Hsame _]]|[Hunder| ->]].
  - rewrite Hsame, Hnone in Himps. discriminate.
  - pose proof (Hnodes _ _ Hin) as Hall. rewrite Forall_forall in Hall.
    destruct (Hall _ Hunder) as [Hreg [Hfile|Hdir]].
    + destruct Hfile as [Hty _]. destruct (Hreg Hty) as [_ Hget].
      apply (import_links_in_build_links _ _ _ (path n) n).
      * now apply assoc_get_In.
      * unfold import_links_of. rewrite Himps.
        assert (Htruthy : truthy_list (Some imps) = true)
          by (destruct imps; [contradiction|reflexivity]).
        rewrite Htruthy. apply in_flat_map. exists imp. split; [exact Himp|].
        destruct (String.eqb_spec (import_type imp) "external");
          [contradiction|now left].
    + destruct Hdir as [_ [_ [Hnone' _]]]. rewrite Hnone' in Himps.
      discriminate.
  - discriminate.
Qed.

Lemma scan_links_cover_tree_witness :
  exists db' response,
    scan_codebase Demo.fs [] = (db', Response response)
    /\ In Demo.app_node (nodes (structure response))
    /\ In (mkCodebaseLink "ui/src/pages/App.tsx" "/ui/src/components/B"
                          "module")
          (links response).
Proof.
  destruct (scan_codebase Demo.fs []) as [db' [response|? ? ?]] eqn:E;
    [|vm_compute in E; discriminate].
  exists db', response. split; [reflexivity|].
  assert (Hin : In Demo.app_node (nodes (structure response))).
  { vm_compute in E. inversion E; subst. cbn. auto 6. }
  split; [exact Hin|].
  assert (Himp : In (mkImportInfo "/ui/src/components/B" "module")
                    [mkImportInfo "brain" "external";
                     mkImportInfo "/ui/src/components/B" "module"])
    by (right; left; reflexivity).
  assert (Hext : import_type (mkImportInfo "/ui/src/components/B" "module")
                 <> "external") by discriminate.
  exact (scan_links_cover_tree Demo.fs [] db' response Demo.app_node _ _
                               E Hin eq_refl Himp Hext).
Defined.

Lemma file_bytes_of_children (l : list FileNode) :
  Forall (fun c => size c = file_bytes c) l ->
  sum_sizes l = sum_sizes (filter is_file (flat_map nodes l)).
Proof.
  induction 1 as [|c l Hc Hl IH]; simpl; [reflexivity|].
  rewrite filter_app, sum_sizes_app, <- IH.
  unfold file_bytes in Hc. rewrite <- Hc. unfold sum_sizes. simpl. lia.
Qed.

(** in a consistent tree whose files are leaves the size of a node is the
    number of bytes of the files below it *)
Lemma size_is_file_bytes (t : FileNode) :
  sizes_consistent t -> well_typed t -> files_are_leaves t ->
  size t = file_bytes t.
Proof.
  induction t as [n IH] using FileNode_tree_ind.
  intros Hsz Hty Hleaf.
  apply sizes_consistent_node in Hsz. destruct Hsz as [Hn Hkids].
  destruct (nodes_children_forall _ _ Hty) as [Htn Htc].
  destruct (nodes_children_forall _ _ Hleaf) as [Hln Hlc].
  unfold file_bytes. rewrite nodes_eq. cbn [filter].
  destruct Htn as [Hfile|Hdir].
  - unfold is_file. rewrite Hfile, (Hln Hfile). cbn. unfold sum_sizes. cbn.
    lia.
  - unfold is_file. rewrite Hdir. cbn [String.eqb Ascii.eqb Bool.eqb].
    replace (String.eqb "directory" "file") with false by reflexivity.
    rewrite (Hn Hdir). apply file_bytes_of_children.
    apply Forall_forall. intros c Hc.
    apply (proj1 (Forall_forall _ _) IH c Hc).
    + exact (proj1 (Forall_forall _ _) Hkids c Hc).
    + exact (proj1 (Forall_forall _ _) Htc c Hc).
    + exact (proj1 (Forall_forall _ _) Hlc c Hc).
Qed.

(** nodes of the two shapes are typed, and the file nodes are leaves *)
Lemma shapes_typed_leaves (l : list FileNode) :
  Forall (fun n => file_shape n \/ directory_shape n) l ->
  Forall (fun n => type n = "file" \/ type n = "directory") l
  /\ Forall (fun n => type n = "file" -> child_nodes n = []) l.
Proof.
  intro H. split; (eapply Forall_impl; [|exact H]); intros n [Hf|Hd].
  - left. apply Hf.
  - right. apply Hd.
  - intros _. destruct Hf as [_ [Hc _]]. unfold child_nodes. now rewrite Hc.
  - intro Hty. destruct Hd as [Hdir _]. rewrite Hdir in Hty. discriminate.
Qed.

(** what one scanned category contributes to the bytes under the root *)
Lemma attach_category_bytes (k : string) (c : FileNode) :
  category_state k c ->
  Forall (fun n => file_shape n \/ directory_shape n)
         (flat_map nodes (child_nodes c)) ->
  Str.mem (name c) ["Media (Public)"; "Internal Storage"] = false ->
  sum_sizes (filter is_file (flat_map nodes (attach_category [] c))) = size c
  /\ Forall (fun n => type n = "file" \/ type n = "directory")
            (flat_map nodes (attach_category [] c))
  /\ Forall (fun n => type n = "file" -> child_nodes n = [])
            (flat_map nodes (attach_category [] c)).
Proof.
  intros Hstate Hshapes Hname.
  destruct (category_state_fields _ _ Hstate) as [Hdir [_ [Hsz _]]].
  destruct (attach_category_state _ _ Hstate) as [Hsum _].
  destruct (shapes_typed_leaves _ Hshapes) as [Hty Hleaf].
  unfold attach_category in *. rewrite Hname in *.
  destruct (truthy_list (children c)).
  - cbn [flat_map app]. rewrite app_nil_r.
    assert (Hwt : well_typed c).
    { unfold well_typed. rewrite nodes_eq. constructor; auto. }
    assert (Hfl : files_are_leaves c).
    { unfold files_are_leaves. rewrite nodes_eq. constructor; [|exact Hleaf].
      intro H. rewrite Hdir in H. discriminate. }
    split; [symmetry; now apply size_is_file_bytes|]. split; assumption.
  - cbn [flat_map app filter]. split; [|split; constructor].
    unfold sum_sizes in *. cbn [app fold_right] in *. lia.
Qed.

Lemma category_name (k nm : string) (c : FileNode) :
  category_state k c ->
  In (k, nm) [("Pages", "Pages"); ("UI Components", "UI Components");
              ("UI Files", "UI Files"); ("APIs", "APIs")] ->
  Str.mem (name c) ["Media (Public)"; "Internal Storage"] = false.
Proof.
  intros Hstate Hk.
  destruct (category_state_fields _ _ Hstate) as [_ [_ [_ Hin]]].
  unfold initial_categories in Hin. simpl in Hin, Hk.
  destruct Hk as [Hk|[Hk|[Hk|[Hk|[]]]]]; inversion Hk; subst;
    destruct Hin as [H|[H|[H|[H|[H|[H|[]]]]]]]; inversion H;
    reflexivity.
Qed.

(** X15.  In the response of a successful scan the statistics are those of
    the tree: [total_files + total_directories] is the number of its nodes,
    and [total_size_bytes] is the size of the root plus the 200 bytes of the
    two placeholder entries, which the sizes of the tree leave out. *)
Theorem scan_stats_match_tree (fs : FileSystem) (db db' : storage)
        (response : CodebaseResponse) :
  scan_codebase fs db = (db', Response response) ->
  total_files (stats response) + total_directories (stats response)
  = node_count (structure response)
  /\ total_size_bytes (stats response) = size (structure response) + 200.
Proof.
  intro Hscan.
  assert (Hsteps : scan_steps fs = Ret response).
  { destruct (scan_codebase_cases fs db) as [[r [Hr E]]|[cause E]];
      rewrite E in Hscan; inversion Hscan; subst; assumption. }
  destruct (scan_steps_response _ _ Hsteps) as [m [cats [root_size [Hrun Hr]]]].
  cbv zeta in Hr. subst response. cbn [structure stats].
  pose proof (scan_categories_nodes _ _ _ _ Hrun) as Hnodes.
  destruct (scan_categories_shape _ _ _ _ Hrun)
    as [c1 [c2 [c3 [c4 [Hcats [S1 [S2 [S3 [S4 Hroot]]]]]]]]].
  assert (Hshape : forall k c, In (k, c) cats ->
             Forall (fun n => file_shape n \/ directory_shape n)
                    (flat_map nodes (child_nodes c))).
  { intros k c Hin. eapply Forall_impl; [|exact (Hnodes _ _ Hin)].
    intros n [_ H]. exact H. }
  rewrite Hcats in Hshape.
  destruct (attach_category_bytes _ _ S1) as [B1 [T1 L1]];
    [eapply Hshape; simpl; eauto 10
    |eapply category_name; [exact S1|simpl; eauto 10]|].
  destruct (attach_category_bytes _ _ S2) as [B2 [T2 L2]];
    [eapply Hshape; simpl; eauto 10
    |eapply category_name; [exact S2|simpl; eauto 10]|].
  destruct (attach_category_bytes _ _ S3) as [B3 [T3 L3]];
    [eapply Hshape; simpl; eauto 10
    |eapply category_name; [exact S3|simpl; eauto 10]|].
  destruct (attach_category_bytes _ _ S4) as [B4 [T4 L4]];
    [eapply Hshape; simpl; eauto 10
    |eapply category_name; [exact S4|simpl; eauto 10]|].
  remember (mkFileNode "Taskflow App" "/" "directory" root_size None
              (Some (flat_map (attach_category []) (map snd cats)))
              None None) as tree eqn:Htree.
  assert (Hkids : flat_map nodes (child_nodes tree)
                  = (flat_map nodes (attach_category [] c1)
                     ++ flat_map nodes (attach_category [] c2)
                     ++ flat_map nodes (attach_category [] c3)
                     ++ flat_map nodes (attach_category [] c4)
                     ++ nodes (placeholder_category "Media (Public)"
                                                    "/static-assets")
                     ++ nodes (placeholder_category "Internal Storage"
                                                    "/storage"))%list).
  { rewrite Htree, Hcats. unfold child_nodes. cbn [children map snd flat_map].
    rewrite !flat_map_app.
    change (attach_category []
              (empty_directory "Media (Public)" "/static-assets"))
      with [placeholder_category "Media (Public)" "/static-assets"].
    change (attach_category []
              (empty_directory "Internal Storage" "/storage"))
      with [placeholder_category "Internal Storage" "/storage"].
    cbn [flat_map]. rewrite !app_nil_r. reflexivity. }
  assert (Hwt : well_typed tree).
  { unfold well_typed. rewrite nodes_eq, Hkids.
    constructor; [right; now rewrite Htree|].
    repeat (apply Forall_app; split; [assumption|]).
    apply Forall_app; split; each_node; cbn; auto. }
  assert (Hfl : files_are_leaves tree).
  { unfold files_are_leaves. rewrite nodes_eq, Hkids.
    constructor; [rewrite Htree; intro H; discriminate|].
    repeat (apply Forall_app; split; [assumption|]).
    apply Forall_app; split; each_node; cbn; auto; intro; discriminate. }
  unfold calculate_stats.
  destruct (traverse_counts tree (mkCodebaseStats 0 0 0 []) Hwt Hfl)
    as [Hcount Hbytes].
  rewrite Hcount, Hbytes. cbn [total_files total_directories total_size_bytes].
  split; [lia|].
  unfold file_bytes. rewrite nodes_eq, Hkids. cbn [filter].
  replace (is_file tree) with false by (rewrite Htree; reflexivity).
  rewrite !filter_app, !sum_sizes_app, B1, B2, B3, B4.
  replace (size tree) with root_size by (rewrite Htree; reflexivity).
  rewrite Hroot. cbn. lia.
Qed.

Lemma scan_stats_match_tree_witness :
  exists db' response,
    scan_codebase Demo.fs [] = (db', Response response)
    /\ size (structure response) = 420
    /\ total_size_bytes (stats response) = size (structure response) + 200.
Proof.
  destruct (scan_codebase Demo.fs []) as [db' [response|? ? ?]] eqn:E;
    [|vm_compute in E; discriminate].
  exists db', response. split; [reflexivity|].
  split; [vm_compute in E; inversion E; reflexivity|].
  exact (proj2 (scan_stats_match_tree Demo.fs [] db' response E)).
Defined.

(** ** The scan request: when it fails *)

Lemma scan_items_raise
      (rec : string -> files_map -> files_map * outcome (option FileNode))
      (Q : exn -> Prop) (current_path : string) (items : list string) :
  (forall p m e, snd (rec p m) = Raise e -> Q e) ->
  forall m children total_size e,
    snd (scan_items rec current_path items m children total_size) = Raised e ->
    Q e.
Proof.
  intro Hrec. induction items as [|item rest IH]; intros m children total e;
    simpl; [discriminate|].
  pose proof (Hrec (OsPath.join current_path item) m) as Hcall.
  destruct (rec (OsPath.join current_path item) m) as [m1 [[child|]|e1|]];
    simpl in *; try (apply IH); try discriminate.
  intro H. inversion H; subst. now apply Hcall.
Qed.

(** what the walker raises is what some listing raised, and it is not a
    permission error *)
Lemma scan_directory_raise (fs : FileSystem) (base_path : string) :
  forall fuel current_path max_depth m e,
    snd (scan_directory fuel fs base_path current_path max_depth m) = Raise e ->
    e <> PermissionError /\ exists p, listdir fs p = Err e.
Proof.
  induction fuel as [|fuel IH]; intros current_path max_depth m e;
    [discriminate|].
  rewrite scan_directory_step.
  destruct (max_depth <=? 0); [discriminate|].
  unfold path_exists, path_isdir, mtime_if_exists, path_exists, getmtime.
  destruct (stat fs (OsPath.join base_path current_path)) as [st|e0] eqn:Hstat;
    cbn [negb]; [|discriminate].
  destruct (Str.mem (node_name base_path current_path) excluded_dirs);
    [discriminate|].
  destruct (st_isdir st).
  - unfold scan_listing, mtime_if_exists, path_exists, getmtime.
    rewrite Hstat.
    destruct (listdir fs (OsPath.join base_path current_path))
      as [items|e1] eqn:Hl.
    + pose proof (scan_items_raise
                    (fun item_path m0 =>
                       scan_directory fuel fs base_path item_path
                                      (max_depth - 1) m0)
                    (fun e0 => e0 <> PermissionError
                               /\ exists p, listdir fs p = Err e0)
                    current_path (firstn max_items items)
                    (fun p m0 e0 => IH p (max_depth - 1) m0 e0) m [] 0)
        as Hloop.
      destruct (scan_items _ current_path (firstn max_items items) m [] 0)
        as [[m1 [kids total]] [|[| |w]|]]; simpl in *; try discriminate;
        intro H; inversion H; subst; apply Hloop; reflexivity.
    + destruct e1; simpl; try discriminate;
        intro H; inversion H; subst; (split; [discriminate|eauto]).
  - unfold scan_file, getsize, getmtime. rewrite Hstat. discriminate.
Qed.

Lemma scan_categories_raise (fs : FileSystem) (base_path : string)
      (todo : list (string * string)) :
  forall cats root_size m,
    match snd (scan_categories fs base_path todo cats root_size m) with
    | Ret _ => True
    | Raise e => e <> PermissionError /\ exists p, listdir fs p = Err e
    | OutOfFuel => False
    end.
Proof.
  induction todo as [|[category p] todo IH]; intros cats root_size m;
    cbn [scan_categories]; [exact I|].
  destruct (path_exists fs (OsPath.join base_path p)
            && path_isdir fs (OsPath.join base_path p)); [|apply IH].
  pose proof (scan_directory_raise fs base_path
                (depth_fuel default_max_depth) p default_max_depth m) as Hraise.
  pose proof (scan_directory_has_fuel fs base_path
                (depth_fuel default_max_depth) p default_max_depth m) as Hfuel.
  destruct (scan_directory (depth_fuel default_max_depth) fs base_path p
                           default_max_depth m)
    as [m1 [[node|]|e|]]; cbn [snd] in *.
  - apply IH.
  - apply IH.
  - now apply Hraise.
  - apply Hfuel; [|reflexivity].
    unfold depth_fuel, default_max_depth. lia.
Qed.

(** the steps of a scan raise only what a listing raised, never a permission
    error, and never run out of fuel *)
Lemma scan_steps_outcome (fs : FileSystem) :
  match scan_steps fs with
  | Ret _ => True
  | Raise e => e <> PermissionError /\ exists p, listdir fs p = Err e
  | OutOfFuel => False
  end.
Proof.
  unfold scan_steps.
  pose proof (scan_categories_raise fs "/app" category_paths
                                    initial_categories 0 []) as Hraise.
  destruct (scan_categories fs "/app" category_paths initial_categories 0 [])
    as [m [[cats root_size]|e|]] eqn:Hrun; cbn [snd] in Hraise.
  - destruct (scan_categories_shape _ _ _ _ Hrun)
      as [c1 [c2 [c3 [c4 [Hcats _]]]]].
    assert (Htruthy : truthy_list
                        (Some (flat_map (attach_category []) (map snd cats)))
                      = true).
    { rewrite Hcats. cbn [map snd flat_map].
      change (attach_category []
                (empty_directory "Media (Public)" "/static-assets"))
        with [placeholder_category "Media (Public)" "/static-assets"].
      change (attach_category []
                (empty_directory "Internal Storage" "/storage"))
        with [placeholder_category "Internal Storage" "/storage"].
      cbn [app]. rewrite !app_assoc. apply truthy_list_app. }
    cbn [children]. rewrite fold_attach_category. cbn [app].
    rewrite Htruthy. cbn [negb]. exact I.
  - exact Hraise.
  - contradiction.
Qed.

(** X16.  A scan request fails in two cases only.  Either listing some
    directory failed with an error other than a permission error: the
    store is then left as it was.  Or the response was built and the write
    of its document to the store raised: the store is then what the failed
    write left.  In both cases the answer has status 500, its detail starts
    with [Error scanning codebase: ] and it carries that error.  Neither the
    check for an empty structure nor the depth limit ever makes a scan
    fail. *)
Theorem scan_fails_only_on_listing_or_store_errors (svc : StoreService)
        (fs : FileSystem) (db db' : storage)
        (status_code : Z) (detail_prefix : string) (cause : exn) :
  scan_codebase_request svc fs db
  = (db', HTTPException status_code detail_prefix cause) ->
  status_code = 500
  /\ detail_prefix = "Error scanning codebase: "
  /\ ((db' = db /\ cause <> PermissionError
       /\ exists p, listdir fs p = Err cause)
      \/ (exists response,
             scan_steps fs = Ret response
             /\ put_failure svc db snapshot_key (response_dict response)
                = Some (db', cause))).
Proof.
  unfold scan_codebase_request.
  pose proof (scan_steps_outcome fs) as Hout.
  destruct (scan_steps fs) as [response|e|] eqn:Hsteps.
  - destruct (put_failure svc db snapshot_key (response_dict response))
      as [[db1 e]|] eqn:Hput; [|discriminate].
    intro H. inversion H; subst.
    split; [reflexivity|]. split; [reflexivity|]. right.
    exists response. split; [reflexivity|exact Hput].
  - intro H. inversion H; subst. destruct Hout as [Hne Hp].
    split; [reflexivity|]. split; [reflexivity|]. left. auto.
  - contradiction.
Qed.

Lemma scan_fails_only_on_listing_or_store_errors_witness :
  scan_codebase_request reliable_store Demo.broken_fs []
  = ([], HTTPException 500 "Error scanning codebase: "
                       (OtherError "Input/output error"))
  /\ (([] : storage) = []
      /\ OtherError "Input/output error" <> PermissionError
      /\ exists p,
          listdir Demo.broken_fs p = Err (OtherError "Input/output error")).
Proof.
  split; [reflexivity|].
  destruct (proj2 (proj2 (scan_fails_only_on_listing_or_store_errors
                            reliable_store Demo.broken_fs [] [] 500
                            "Error scanning codebase: "
                            (OtherError "Input/output error") eq_refl)))
    as [H|[response [_ H]]]; [exact H|discriminate H].
Defined.

(** ** The scan request on a project without category directories *)

Lemma scan_categories_absent (fs : FileSystem) (base_path : string)
      (todo : list (string * string)) :
  (forall category p, In (category, p) todo ->
                      path_isdir fs (OsPath.join base_path p) = false) ->
  forall cats root_size m,
    scan_categories fs base_path todo cats root_size m
    = (m, Ret (cats, root_size)).
Proof.
  induction todo as [|[category p] todo IH]; intros Habsent cats root_size m;
    cbn [scan_categories]; [reflexivity|].
  rewrite (Habsent category p) by now left.
  rewrite andb_false_r. apply IH. intros c q Hin. apply (Habsent c q).
  now right.
Qed.

(** X17.  When none of the four category paths is a directory, the scan
    succeeds with the tree of the two placeholder categories alone: a root
    of size 0, statistics of 2 files, 3 directories and 200 bytes under the
    key [no_extension], and no link. *)
Theorem scan_of_empty_project (fs : FileSystem) (db : storage) :
  (forall category p, In (category, p) category_paths ->
                      path_isdir fs (OsPath.join "/app" p) = false) ->
  let response :=
    mkCodebaseResponse
      (mkFileNode "Taskflow App" "/" "directory" 0 None
                  (Some [placeholder_category "Media (Public)" "/static-assets";
                         placeholder_category "Internal Storage" "/storage"])
                  None None)
      (mkCodebaseStats 2 3 200 [("no_extension", 2)]) [] in
  scan_codebase fs db
  = (storage_put db snapshot_key (response_dict response), Response response).
Proof.
  intros Habsent response. unfold scan_codebase, scan_steps.
  rewrite (scan_categories_absent fs "/app" category_paths Habsent).
  reflexivity.
Qed.

Lemma scan_of_empty_project_witness :
  (forall category p, In (category, p) category_paths ->
                      path_isdir Demo.empty_fs (OsPath.join "/app" p) = false)
  /\ fst (scan_codebase Demo.empty_fs [])
     = [(snapshot_key,
         response_dict
           (mkCodebaseResponse
              (mkFileNode "Taskflow App" "/" "directory" 0 None
                 (Some [placeholder_category "Media (Public)" "/static-assets";
                        placeholder_category "Internal Storage" "/storage"])
                 None None)
              (mkCodebaseStats 2 3 200 [("no_extension", 2)]) []))].
Proof.
  assert (Habsent : forall category p,
             In (category, p) category_paths ->
             path_isdir Demo.empty_fs (OsPath.join "/app" p) = false)
    by (intros; reflexivity).
  split; [exact Habsent|].
  now rewrite (scan_of_empty_project Demo.empty_fs [] Habsent).
Defined.

(** ** The extension of a path *)

Lemma contains_char_cons (c x : ascii) (s : string) :
  Str.contains (String c "") (String x s)
  = Ascii.eqb c x || Str.contains (String c "") s.
Proof. cbn [Str.contains Str.startswith]. now rewrite andb_true_r. Qed.

Lemma contains_char_drop (c : ascii) (n : nat) :
  forall s, Str.contains (String c "") s = false ->
            Str.contains (String c "") (Str.drop n s) = false.
Proof.
  induction n as [|n IH]; intros [|x s] H; try exact H.
  rewrite contains_char_cons in H. apply orb_false_iff in H.
  cbn [Str.drop]. apply IH. apply H.
Qed.

Lemma drop_add (n k : nat) :
  forall s, Str.drop (n + k) s = Str.drop k (Str.drop n s).
Proof.
  induction n as [|n IH]; intros [|x s]; cbn [Str.drop Nat.add];
    try reflexivity.
  - now destruct k.
  - apply IH.
Qed.

Lemma drop_map_chars (f : ascii -> ascii) (n : nat) :
  forall s, Str.drop n (Str.map_chars f s) = Str.map_chars f (Str.drop n s).
Proof.
  induction n as [|n IH]; intros [|x s]; cbn [Str.drop Str.map_chars];
    try reflexivity. apply IH.
Qed.

(** the index that [rfind] returns: none, or one after which the character
    does not occur *)
Lemma rfind_from_spec (c : ascii) :
  forall s i last,
    let r := Str.rfind_from c s i last in
    (r = last /\ Str.contains (String c "") s = false)
    \/ (i <= r
        /\ Str.contains (String c "") (Str.drop (S (Z.to_nat (r - i))) s)
           = false).
Proof.
  induction s as [|x s IH]; intros i last; cbn [Str.rfind_from].
  - left. split; reflexivity.
  - cbv zeta in IH.
    destruct (IH (i + 1) (if Ascii.eqb x c then i else last))
      as [[Hr Hnone]|[Hle Hnone]].
    + destruct (Ascii.eqb x c) eqn:Hx.
      * right. rewrite Hr. split; [lia|].
        replace (i - i) with 0 by lia. exact Hnone.
      * left. split; [exact Hr|].
        rewrite contains_char_cons, Ascii.eqb_sym, Hx. exact Hnone.
    + right. split; [lia|].
      replace (Z.to_nat (Str.rfind_from c s (i + 1)
                           (if Ascii.eqb x c then i else last) - i))
        with (S (Z.to_nat (Str.rfind_from c s (i + 1)
                             (if Ascii.eqb x c then i else last) - (i + 1))))
        by lia.
      exact Hnone.
Qed.

Lemma lower_char_idempotent (x : ascii) :
  Str.lower_char (Str.lower_char x) = Str.lower_char x.
Proof. destruct x as [[] [] [] [] [] [] [] []]; reflexivity. Qed.

Lemma lower_char_keeps_dot_and_slash (x : ascii) :
  Ascii.eqb "." (Str.lower_char x) = Ascii.eqb "." x
  /\ Ascii.eqb "/" (Str.lower_char x) = Ascii.eqb "/" x.
Proof. destruct x as [[] [] [] [] [] [] [] []]; split; reflexivity. Qed.

Lemma lower_idempotent (s : string) : Str.lower (Str.lower s) = Str.lower s.
Proof.
  unfold Str.lower. induction s as [|x s IH]; cbn [Str.map_chars];
    [reflexivity|]. now rewrite lower_char_idempotent, IH.
Qed.

Lemma lower_contains (s : string) :
  Str.contains "." (Str.lower s) = Str.contains "." s
  /\ Str.contains "/" (Str.lower s) = Str.contains "/" s.
Proof.
  unfold Str.lower. induction s as [|x s [IH1 IH2]]; cbn [Str.map_chars];
    [split; reflexivity|].
  rewrite !contains_char_cons, IH1, IH2.
  destruct (lower_char_keeps_dot_and_slash x) as [-> ->]. split; reflexivity.
Qed.

(** on the model of [str.lower], the extension is unchanged by another
    [lower], and it contains neither a dot nor a slash *)
Lemma get_file_extension_no_dot_no_slash (file_path : string) :
  Str.lower (get_file_extension file_path) = get_file_extension file_path
  /\ Str.contains "." (get_file_extension file_path) = false
  /\ Str.contains "/" (get_file_extension file_path) = false.
Proof.
  unfold get_file_extension, OsPath.splitext.
  set (sepIndex := Str.rfind OsPath.sep file_path).
  set (dotIndex := Str.rfind OsPath.extsep file_path).
  assert (Hempty : Str.lower "" = "" /\ Str.contains "." "" = false
                   /\ Str.contains "/" "" = false) by (repeat split).
  destruct (sepIndex <? dotIndex) eqn:Hlt; [|exact Hempty].
  apply Z.ltb_lt in Hlt.
  match goal with
  | |- context [if Str.all_chars ?c ?l then _ else _] =>
      destruct (Str.all_chars c l)
  end; [exact Hempty|].
  cbn [snd].
  destruct (Str.nonempty (Str.drop (Z.to_nat dotIndex) file_path));
    [|exact Hempty].
  assert (Hdrop : Str.drop 1 (Str.lower (Str.drop (Z.to_nat dotIndex)
                                                  file_path))
                  = Str.lower (Str.drop (Z.to_nat dotIndex + 1) file_path)).
  { unfold Str.lower. now rewrite drop_map_chars, drop_add. }
  rewrite Hdrop.
  destruct (lower_contains (Str.drop (Z.to_nat dotIndex + 1) file_path))
    as [-> ->].
  split; [apply lower_idempotent|].
  pose proof (rfind_from_spec OsPath.sep file_path 0 (-1)) as Hsep.
  pose proof (rfind_from_spec OsPath.extsep file_path 0 (-1)) as Hdot.
  cbv zeta in Hsep, Hdot.
  fold (Str.rfind OsPath.sep file_path) in Hsep.
  fold (Str.rfind OsPath.extsep file_path) in Hdot.
  fold sepIndex in Hsep. fold dotIndex in Hdot.
  assert (Hsep0 : -1 <= sepIndex) by (destruct Hsep as [[-> _]|[H _]]; lia).
  split.
  - destruct Hdot as [[Hd _]|[_ Hnone]]; [lia|].
    replace (Z.to_nat dotIndex + 1)%nat with (S (Z.to_nat (dotIndex - 0)))
      by lia.
    exact Hnone.
  - destruct Hsep as [[_ Hnone]|[Hle Hnone]].
    + now apply contains_char_drop.
    + replace (Z.to_nat dotIndex + 1)%nat
        with (S (Z.to_nat (sepIndex - 0))
              + (Z.to_nat dotIndex - Z.to_nat sepIndex))%nat by lia.
      rewrite drop_add. now apply contains_char_drop.
Qed.

Lemma in_drop (c : ascii) (n : nat) :
  forall s, In c (list_ascii_of_string (Str.drop n s)) ->
            In c (list_ascii_of_string s).
Proof.
  induction n as [|n IH]; intros [|x s] H; try exact H.
  right. apply IH. exact H.
Qed.

Lemma in_map_chars (f : ascii -> ascii) (c : ascii) :
  forall s, In c (list_ascii_of_string (Str.map_chars f s)) ->
            exists x, In x (list_ascii_of_string s) /\ c = f x.
Proof.
  induction s as [|x s IH]; cbn [Str.map_chars list_ascii_of_string In];
    [contradiction|].
  intros [<-|H]; [eauto|]. destruct (IH H) as [y [Hy ->]]. eauto.
Qed.

Lemma contains_char_in (c : ascii) :
  forall s, Str.contains (String c "") s = false ->
            ~ In c (list_ascii_of_string s).
Proof.
  induction s as [|x s IH]; [intros _ []|].
  rewrite contains_char_cons. intro H. apply orb_false_iff in H.
  destruct H as [Hx Hs]. intros [->|Hin].
  - now rewrite Ascii.eqb_refl in Hx.
  - now apply IH.
Qed.

(** every character of the extension is the lower case of a character of the
    path *)
Lemma get_file_extension_chars (file_path : string) (c : ascii) :
  In c (list_ascii_of_string (get_file_extension file_path)) ->
  exists x, In x (list_ascii_of_string file_path) /\ c = Str.lower_char x.
Proof.
  unfold get_file_extension, OsPath.splitext.
  destruct (Str.rfind OsPath.sep file_path <? Str.rfind OsPath.extsep file_path);
    [|intros []].
  match goal with
  | |- context [if Str.all_chars ?a ?l then _ else _] =>
      destruct (Str.all_chars a l)
  end; [intros []|].
  cbn [snd].
  match goal with
  | |- context [Str.nonempty ?e] => destruct (Str.nonempty e)
  end; [|intros []].
  intro H. apply in_drop in H. unfold Str.lower in H.
  apply in_map_chars in H. destruct H as [x [Hx ->]].
  apply in_drop in Hx. eauto.
Qed.

Lemma lower_char_not_upper (x : ascii) :
  ~ (65 <= nat_of_ascii (Str.lower_char x) <= 90)%nat.
Proof. destruct x as [[] [] [] [] [] [] [] []]; vm_compute; lia. Qed.

Lemma lower_char_ascii (x : ascii) :
  (nat_of_ascii x < 128)%nat -> (nat_of_ascii (Str.lower_char x) < 128)%nat.
Proof. destruct x as [[] [] [] [] [] [] [] []]; vm_compute; lia. Qed.

(** X18.  For a path of ASCII characters, every character of the extension
    that [get_file_extension] returns is an ASCII character that is not one
    of the capital letters [A] to [Z] (codes 65 to 90), and it is neither a
    dot nor a slash: the extension is taken after the last dot of the last
    component of the path, in lower case. *)
Theorem get_file_extension_clean (file_path : string) :
  (forall c, In c (list_ascii_of_string file_path) ->
             (nat_of_ascii c < 128)%nat) ->
  forall c, In c (list_ascii_of_string (get_file_extension file_path)) ->
            (nat_of_ascii c < 128)%nat
            /\ ~ (65 <= nat_of_ascii c <= 90)%nat
            /\ c <> "."%char /\ c <> "/"%char.
Proof.
  intros Hascii c Hc.
  destruct (get_file_extension_no_dot_no_slash file_path)
    as [_ [Hdot Hslash]].
  destruct (get_file_extension_chars file_path c Hc) as [x [Hx ->]].
  split; [apply lower_char_ascii; now apply Hascii|].
  split; [apply lower_char_not_upper|].
  split; intro Heq; rewrite Heq in Hc.
  - exact (contains_char_in _ _ Hdot Hc).
  - exact (contains_char_in _ _ Hslash Hc).
Qed.

Lemma get_file_extension_clean_witness :
  (forall c, In c (list_ascii_of_string "src/App.TSX") ->
             (nat_of_ascii c < 128)%nat)
  /\ get_file_extension "src/App.TSX" = "tsx"
  /\ (nat_of_ascii "t" < 128)%nat
  /\ ~ (65 <= nat_of_ascii "t" <= 90)%nat
  /\ "t"%char <> "."%char /\ "t"%char <> "/"%char.
Proof.
  assert (Hascii : forall c, In c (list_ascii_of_string "src/App.TSX") ->
                             (nat_of_ascii c < 128)%nat).
  { intros c H. cbn [list_ascii_of_string In] in H.
    repeat (destruct H as [<-|H]; [vm_compute; lia|]). contradiction. }
  split; [exact Hascii|]. split; [reflexivity|].
  exact (get_file_extension_clean "src/App.TSX" Hascii "t"%char
                                  (or_introl eq_refl)).
Defined.
